(** * The Borrowed Virtual Time scheduler of xen/common/sched_bvt.c

    A shallow embedding of the scheduler's data and entry points, followed
    by the properties of the virtual-time accounting, the run-queue scan,
    the time-slice computation, the overflow rebase, the wake path, the
    warp timers and the control interface. *)

From stdpp Require Import base option numbers list gmap.
From Stdlib Require Import ZArith Lia.

Local Open Scope Z_scope.

(** ** Machine integers

    [u32], [s32] and [s_time_t] values are kept in [Z]; every C operation
    whose result is stored in such a type is followed by the matching
    wrap-around. *)

Definition u32 (z : Z) : Z := z mod 2 ^ 32.
Definition s32 (z : Z) : Z := (z + 2 ^ 31) mod 2 ^ 32 - 2 ^ 31.
Definition s64 (z : Z) : Z := (z + 2 ^ 63) mod 2 ^ 64 - 2 ^ 63.

(** [~0U] *)
Definition UINT_MAX : Z := 2 ^ 32 - 1.

(** Unsigned 32-bit division; a zero divisor raises the divide error. *)
Definition udiv32 (a b : Z) : option Z :=
  if decide (b = 0) then None else Some (a / b).

(** Modelled from the spec: [MICROSECS] and [MILLISECS] of xen/time.h are
    missing from the tree; system time is counted in nanoseconds, so that
    the minimum charging unit is 100 microseconds and the default
    context-switch allowance 5 milliseconds. *)
Definition MICROSECS (us : Z) : Z := us * 1000.
Definition MILLISECS (ms : Z) : Z := ms * 1000000.

Definition MCU : Z := s32 (MICROSECS 100).
Definition MCU_ADVANCE : Z := 10.
Definition ctx_allow_init : Z := s32 (MILLISECS 5).

(** Modelled from the spec: [IDLE_DOMAIN_ID] and [is_idle_task] of
    xen/sched.h are missing from the tree; the idle domain is the one whose
    identifier is the reserved idle identifier (compare [bvt_add_task]). *)
Definition IDLE_DOMAIN_ID : Z := 2 ^ 31 - 1.

(** Modelled from the spec: the direction codes of a control request and
    the errno value are missing from the tree. *)
Definition SCHED_INFO_PUT : Z := 0.
Definition SCHED_INFO_GET : Z := 1.
Definition EINVAL : Z := 22.

(** ** Timers

    Modelled from the spec: xen/ac_timer.h and its implementation are
    missing from the tree.  A timer handle is armed for at most one pending
    firing; arming records the deadline, cancelling clears the pending
    firing and is a no-op on a timer that is not armed, and re-programming
    moves the deadline. *)

Record ac_timer := mk_ac_timer { expires : Z; armed : bool }.

Definition init_ac_timer (t : ac_timer) : ac_timer :=
  {| expires := expires t; armed := false |}.
Definition set_expires (e : Z) (t : ac_timer) : ac_timer :=
  {| expires := e; armed := armed t |}.
Definition add_ac_timer (t : ac_timer) : ac_timer :=
  {| expires := expires t; armed := true |}.
Definition rem_ac_timer (t : ac_timer) : ac_timer :=
  if armed t then {| expires := expires t; armed := false |} else t.
Definition mod_ac_timer (t : ac_timer) (new_time : Z) : ac_timer :=
  {| expires := new_time; armed := armed t |}.

(** ** Per-domain and per-CPU records *)

(** [struct bvt_dom_info]; the [domain] back pointer and the [run_list]
    links are carried by the handle of the owning domain and by the run
    queue that lists it. *)
Record bvt_dom_info := mk_bvt_dom_info {
  mcu_advance : Z;       (* u32, inverse of weight *)
  avt : Z;               (* u32, actual virtual time *)
  evt : Z;               (* u32, effective virtual time *)
  warpback : Z;          (* int *)
  warp : Z;              (* int *)
  warp_value : Z;        (* s32 *)
  warpl : Z;             (* s_time_t, warp limit *)
  warp_timer : ac_timer;
  warpu : Z;             (* s_time_t, unwarp time requirement *)
  unwarp_timer : ac_timer
}.

Definition set_mcu_advance (v : Z) (i : bvt_dom_info) : bvt_dom_info :=
  mk_bvt_dom_info v (avt i) (evt i) (warpback i) (warp i) (warp_value i)
    (warpl i) (warp_timer i) (warpu i) (unwarp_timer i).
Definition set_avt (v : Z) (i : bvt_dom_info) : bvt_dom_info :=
  mk_bvt_dom_info (mcu_advance i) v (evt i) (warpback i) (warp i) (warp_value i)
    (warpl i) (warp_timer i) (warpu i) (unwarp_timer i).
Definition set_evt (v : Z) (i : bvt_dom_info) : bvt_dom_info :=
  mk_bvt_dom_info (mcu_advance i) (avt i) v (warpback i) (warp i) (warp_value i)
    (warpl i) (warp_timer i) (warpu i) (unwarp_timer i).
Definition set_warpback (v : Z) (i : bvt_dom_info) : bvt_dom_info :=
  mk_bvt_dom_info (mcu_advance i) (avt i) (evt i) v (warp i) (warp_value i)
    (warpl i) (warp_timer i) (warpu i) (unwarp_timer i).
Definition set_warp (v : Z) (i : bvt_dom_info) : bvt_dom_info :=
  mk_bvt_dom_info (mcu_advance i) (avt i) (evt i) (warpback i) v (warp_value i)
    (warpl i) (warp_timer i) (warpu i) (unwarp_timer i).
Definition set_warp_value (v : Z) (i : bvt_dom_info) : bvt_dom_info :=
  mk_bvt_dom_info (mcu_advance i) (avt i) (evt i) (warpback i) (warp i) v
    (warpl i) (warp_timer i) (warpu i) (unwarp_timer i).
Definition set_warpl (v : Z) (i : bvt_dom_info) : bvt_dom_info :=
  mk_bvt_dom_info (mcu_advance i) (avt i) (evt i) (warpback i) (warp i)
    (warp_value i) v (warp_timer i) (warpu i) (unwarp_timer i).
Definition set_warp_timer (t : ac_timer) (i : bvt_dom_info) : bvt_dom_info :=
  mk_bvt_dom_info (mcu_advance i) (avt i) (evt i) (warpback i) (warp i)
    (warp_value i) (warpl i) t (warpu i) (unwarp_timer i).
Definition set_warpu (v : Z) (i : bvt_dom_info) : bvt_dom_info :=
  mk_bvt_dom_info (mcu_advance i) (avt i) (evt i) (warpback i) (warp i)
    (warp_value i) (warpl i) (warp_timer i) v (unwarp_timer i).
Definition set_unwarp_timer (t : ac_timer) (i : bvt_dom_info) : bvt_dom_info :=
  mk_bvt_dom_info (mcu_advance i) (avt i) (evt i) (warpback i) (warp i)
    (warp_value i) (warpl i) (warp_timer i) (warpu i) t.

(** The fields of [struct domain] the scheduler reads.  [DF_MIGRATED] is
    the flag bit tested by [bvt_wake]; [runnable] is the value of
    [domain_runnable], a predicate over the flags that is not in the
    tree. *)
Record domain := mk_domain {
  domain_id : Z;          (* d->domain *)
  processor : nat;
  lastschd : Z;           (* s_time_t *)
  DF_MIGRATED : bool;
  runnable : bool;
  sched_priv : bvt_dom_info
}.

Definition set_sched_priv (i : bvt_dom_info) (d : domain) : domain :=
  mk_domain (domain_id d) (processor d) (lastschd d) (DF_MIGRATED d)
    (runnable d) i.

Definition is_idle_task (d : domain) : bool :=
  bool_decide (domain_id d = IDLE_DOMAIN_ID).

(** A domain is named by the address of its [struct domain]. *)
Abbreviation handle := nat.

(** [struct bvt_cpu_info]: the run queue lists its members head first. *)
Record bvt_cpu_info := mk_bvt_cpu_info {
  runqueue : list handle;
  svt : Z                 (* unsigned long *)
}.

(** One entry of [schedule_data]. *)
Record schedule_data_t := mk_schedule_data {
  curr : handle;
  idle : handle;
  s_timer : ac_timer;
  cpu_priv : bvt_cpu_info
}.

Definition set_cpu_priv (c : bvt_cpu_info) (sd : schedule_data_t) : schedule_data_t :=
  mk_schedule_data (curr sd) (idle sd) (s_timer sd) c.
Definition set_s_timer (t : ac_timer) (sd : schedule_data_t) : schedule_data_t :=
  mk_schedule_data (curr sd) (idle sd) t (cpu_priv sd).
Definition set_runqueue (q : list handle) (c : bvt_cpu_info) : bvt_cpu_info :=
  mk_bvt_cpu_info q (svt c).
Definition set_svt (v : Z) (c : bvt_cpu_info) : bvt_cpu_info :=
  mk_bvt_cpu_info (runqueue c) v.

(** The memory the scheduler works on: the domains by address, the
    per-CPU [schedule_data] array, the global domain list walked by
    [for_each_domain], the [ctx_allow] variable and the CPUs on which
    [SCHEDULE_SOFTIRQ] is pending. *)
Record state := mk_state {
  heap : gmap nat domain;
  schedule_data : list schedule_data_t;
  task_list : list handle;
  ctx_allow : Z;          (* s32 *)
  softirq : gset nat
}.

Definition set_heap (h : gmap nat domain) (s : state) : state :=
  mk_state h (schedule_data s) (task_list s) (ctx_allow s) (softirq s).
Definition set_schedule_data (l : list schedule_data_t) (s : state) : state :=
  mk_state (heap s) l (task_list s) (ctx_allow s) (softirq s).
Definition set_ctx_allow (v : Z) (s : state) : state :=
  mk_state (heap s) (schedule_data s) (task_list s) v (softirq s).

(** Update through a pointer: the domain at [h], its scheduling record,
    the per-CPU entry of [cpu]. *)
Definition upd_dom (h : handle) (f : domain → domain) (s : state) : state :=
  set_heap (alter f h (heap s)) s.
Definition upd_inf (h : handle) (f : bvt_dom_info → bvt_dom_info) (s : state) : state :=
  upd_dom h (λ d, set_sched_priv (f (sched_priv d)) d) s.
Definition upd_cpu (cpu : nat) (f : schedule_data_t → schedule_data_t) (s : state) : state :=
  set_schedule_data (alter f cpu (schedule_data s)) s.
Definition upd_cpu_info (cpu : nat) (f : bvt_cpu_info → bvt_cpu_info) (s : state) : state :=
  upd_cpu cpu (λ sd, set_cpu_priv (f (cpu_priv sd)) sd) s.

Definition BVT_INFO (s : state) (p : handle) : option bvt_dom_info :=
  sched_priv <$> heap s !! p.
Definition CPU_INFO (s : state) (cpu : nat) : option bvt_cpu_info :=
  cpu_priv <$> schedule_data s !! cpu.
Definition RUNQUEUE (s : state) (cpu : nat) : option (list handle) :=
  runqueue <$> CPU_INFO s cpu.
Definition CPU_SVT (s : state) (cpu : nat) : option Z :=
  svt <$> CPU_INFO s cpu.

Definition cpu_raise_softirq (cpu : nat) (s : state) : state :=
  mk_state (heap s) (schedule_data s) (task_list s) (ctx_allow s)
    ({[cpu]} ∪ softirq s).

(** ** Run-queue wrappers

    The list node of a record is linked on at most one run queue, and the
    wrappers of the source address the queue of [d->processor].  The run
    queue of a CPU lists the records linked on it, head first, and the test
    [run_list.next != NULL] is rendered as membership in the queue of the
    domain's CPU: the two agree as long as the record is linked on no other
    CPU's queue, which [queued_only_on] states. *)

Definition __add_to_runqueue_head (d : handle) (cpu : nat) (s : state) : state :=
  upd_cpu_info cpu (λ c, set_runqueue (d :: runqueue c) c) s.

Definition __add_to_runqueue_tail (d : handle) (cpu : nat) (s : state) : state :=
  upd_cpu_info cpu (λ c, set_runqueue (runqueue c ++ [d]) c) s.

Definition __del_from_runqueue (d : handle) (cpu : nat) (s : state) : state :=
  upd_cpu_info cpu (λ c, set_runqueue (filter (λ h, h ≠ d) (runqueue c)) c) s.

Definition __task_on_runqueue (d : handle) (q : list handle) : bool :=
  bool_decide (d ∈ q).

Definition queued_only_on (cpu : nat) (d : handle) (s : state) : Prop :=
  ∀ c sd, schedule_data s !! c = Some sd → d ∈ runqueue (cpu_priv sd) → c = cpu.

(** ** Warp and unwarp timer callbacks *)

Definition warp_timer_fn (pointer : handle) (now : Z) (s : state) : option state :=
  d ← heap s !! pointer;
  let inf := sched_priv d in
  let s1 := upd_inf pointer (set_warp 0) s in
  if decide (warpu inf = 0)
  then
    let s2 := upd_inf pointer (set_warpback 0) s1 in
    Some (cpu_raise_softirq (processor d) s2)
  else
    let s2 :=
      upd_inf pointer
        (λ i, set_unwarp_timer
                (add_ac_timer (set_expires (s64 (now + warpu i)) (unwarp_timer i))) i)
        s1 in
    Some (cpu_raise_softirq (processor d) s2).

Definition unwarp_timer_fn (pointer : handle) (s : state) : option state :=
  d ← heap s !! pointer;
  let inf := sched_priv d in
  if decide (warpback inf ≠ 0)
  then
    let s1 := upd_inf pointer (set_warp 1) s in
    Some (cpu_raise_softirq (processor d) s1)
  else Some s.

(** ** Virtual-time accounting *)

Definition calc_avt (d : domain) (now : Z) : Z :=
  let inf := sched_priv d in
  let ranfor := u32 (now - lastschd d) in
  let mcus := u32 (ranfor + MCU - 1) / u32 MCU in
  u32 (avt inf + mcus).

Definition calc_evt (d : domain) (avt : Z) : Z :=
  let inf := sched_priv d in
  if decide (warp inf ≠ 0)
  then u32 (avt - warp_value inf)
  else avt.

(** ** Admission *)

Definition bvt_add_task (p : handle) (s : state) : option state :=
  d ← heap s !! p;
  cpu_svt ← CPU_SVT s (processor d);
  let v := if is_idle_task d then UINT_MAX else u32 cpu_svt in
  Some (upd_inf p
          (λ i, mk_bvt_dom_info MCU_ADVANCE v v 0 0 0
                  (MILLISECS 2000) (init_ac_timer (warp_timer i))
                  (MILLISECS 1000) (init_ac_timer (unwarp_timer i)))
          s).

(** ** Control interface

    Modelled from the spec: the request types of xen/sched_ctl.h are missing
    from the tree.  The allowance of a control request is an unsigned word
    of 32 bits, as the [ctx_allow] of [dom0_bvtctl_t] in
    hypervisor-ifs/dom0_ops.h from which it is filled; the fields of a
    per-domain request have the types of the locals of [bvt_adjdom] that
    receive them: [u32] for [mcu_adv] and [warpback], [s32] for
    [warpvalue], [s_time_t] for [warpl] and [warpu].  A value read back
    into a request is converted to the type of its field. *)

Record bvt_ctl := mk_bvt_ctl { ctl_ctx_allow : Z }.
Record sched_ctl_cmd := mk_sched_ctl_cmd { ctl_direction : Z; ctl_bvt : bvt_ctl }.

Definition bvt_ctl_op (cmd : sched_ctl_cmd) (s : state) : Z * sched_ctl_cmd * state :=
  if decide (ctl_direction cmd = SCHED_INFO_PUT)
  then (0, cmd, set_ctx_allow (s32 (ctl_ctx_allow (ctl_bvt cmd))) s)
  else (0, mk_sched_ctl_cmd (ctl_direction cmd) (mk_bvt_ctl (u32 (ctx_allow s))), s).

(** The [bvt] member of a per-domain request. *)
Record bvt_adjdom_params := mk_bvt_adjdom_params {
  mcu_adv : Z;
  p_warpback : Z;
  warpvalue : Z;
  p_warpl : Z;
  p_warpu : Z
}.
Record sched_adjdom_cmd := mk_sched_adjdom_cmd {
  direction : Z;
  params : bvt_adjdom_params
}.

Definition bvt_adjdom (p : handle) (cmd : sched_adjdom_cmd) (s : state)
  : option (Z * sched_adjdom_cmd * state) :=
  if decide (direction cmd = SCHED_INFO_PUT)
  then
    let mcu_adv := u32 (mcu_adv (params cmd)) in
    let warpback := u32 (p_warpback (params cmd)) in
    let warpvalue := s32 (warpvalue (params cmd)) in
    let warpl := s64 (p_warpl (params cmd)) in
    let warpu := s64 (p_warpu (params cmd)) in
    _ ← heap s !! p;
    if decide (mcu_adv = 0)
    then Some (- EINVAL, cmd, s)
    else
      Some (0, cmd,
            upd_inf p
              (λ inf,
                 set_warpu warpu
                   (set_warpl warpl
                      (set_warp_value warpvalue
                         (set_warp 1
                            (set_warpback (s32 warpback)
                               (set_mcu_advance mcu_adv inf))))))
              s)
  else if decide (direction cmd = SCHED_INFO_GET)
  then
    d ← heap s !! p;
    let inf := sched_priv d in
    Some (0,
          mk_sched_adjdom_cmd (direction cmd)
            (mk_bvt_adjdom_params (mcu_advance inf) (u32 (warpback inf))
               (warp_value inf) (warpl inf) (warpu inf)),
          s)
  else Some (0, cmd, s).

(** ** Wake *)

Definition bvt_wake (d : handle) (now : Z) (s : state) : option state :=
  dom ← heap s !! d;
  let inf := sched_priv dom in
  let cpu := processor dom in
  sd ← schedule_data s !! cpu;
  if __task_on_runqueue d (runqueue (cpu_priv sd))
  then Some s
  else
    let s1 := __add_to_runqueue_head d cpu s in
    let cpu_svt := svt (cpu_priv sd) in
    let avt' :=
      if bool_decide (avt inf < cpu_svt) || DF_MIGRATED dom
      then u32 cpu_svt else avt inf in
    let evt' := calc_evt dom avt' in
    let s2 := upd_inf d (λ i, set_evt evt' (set_avt avt' i)) s1 in
    curr_d ← heap s2 !! curr sd;
    let curr_evt := calc_evt curr_d (calc_avt curr_d now) in
    quot ← udiv32 (u32 (evt' - curr_evt)) (mcu_advance (sched_priv curr_d));
    let r_time := s64 (lastschd curr_d + quot + ctx_allow s) in
    if is_idle_task curr_d || bool_decide (evt' ≤ curr_evt)
    then Some (cpu_raise_softirq cpu s2)
    else if bool_decide (expires (s_timer sd) > r_time)
    then Some (upd_cpu cpu (λ e, set_s_timer (mod_ac_timer (s_timer e) r_time) e) s2)
    else Some s2.

(** ** The reschedule entry point *)

(** [ASSERT] is compiled to a check only in debugging builds.  The model
    follows the function to its end and returns, next to the result, the
    assertions that did not hold, in program order; a debugging build stops
    at the first of them. *)
Inductive assertion :=
  | ASSERT_task_on_runqueue
  | ASSERT_runqueue_not_empty
  | ASSERT_evt_order
  | ASSERT_r_time.

Definition ASSERT (c : bool) (a : assertion) : list assertion :=
  if c then [] else [a].

(** The previous domain is folded back: lines 434 to 441.  [list_del]
    follows the links of the node it is given, so that it may only be
    applied to a record that is on the queue; [bvt_do_schedule] below
    faults otherwise. *)
Definition deschedule (prev : handle) (prev_d : domain) (now : Z) (s : state) : state :=
  let cpu := processor prev_d in
  let avt' := calc_avt prev_d now in
  let evt' := calc_evt prev_d avt' in
  let s1 := upd_inf prev (λ i, set_evt evt' (set_avt avt' i)) s in
  let s2 := upd_inf prev (λ i, set_warp_timer (rem_ac_timer (warp_timer i)) i) s1 in
  let s3 := __del_from_runqueue prev cpu s2 in
  if runnable prev_d then __add_to_runqueue_tail prev cpu s3 else s3.

(** The locals of the scan loop. *)
Record scan_state := mk_scan_state {
  next_inf : handle;
  next_prime_inf : option handle;      (* None is NULL *)
  next_evt : Z;
  next_prime_evt : Z;
  min_avt : Z
}.

Definition scan_init (idle_task : handle) : scan_state :=
  mk_scan_state idle_task None UINT_MAX UINT_MAX UINT_MAX.

(** One iteration of the loop body, for the list node of record [tmp]:
    the choice of the two candidates, lines 464 to 480, and then the
    running minimum of [avt]. *)
Definition scan_pick (st : scan_state) (tmp : handle) (p_inf : bvt_dom_info) : scan_state :=
  if bool_decide (evt p_inf < next_evt st)
  then mk_scan_state tmp (Some (next_inf st)) (evt p_inf) (next_evt st) (min_avt st)
  else if bool_decide (next_prime_evt st = UINT_MAX)
  then mk_scan_state (next_inf st) (Some tmp) (next_evt st) (evt p_inf) (min_avt st)
  else if bool_decide (evt p_inf < next_prime_evt st)
  then mk_scan_state (next_inf st) (Some tmp) (next_evt st) (evt p_inf) (min_avt st)
  else st.

Definition scan_step (st : scan_state) (tmp : handle) (p_inf : bvt_dom_info) : scan_state :=
  let st1 := scan_pick st tmp p_inf in
  if bool_decide (avt p_inf < min_avt st1)
  then mk_scan_state (next_inf st1) (next_prime_inf st1) (next_evt st1)
         (next_prime_evt st1) (avt p_inf)
  else st1.

Fixpoint scan_runqueue (hp : gmap nat domain) (q : list handle) (st : scan_state)
  : option scan_state :=
  match q with
  | [] => Some st
  | tmp :: q' =>
      d ← hp !! tmp;
      scan_runqueue hp q' (scan_step st tmp (sched_priv d))
  end.

(** The overflow rebase of one domain, and the walk over the domain list. *)
Definition rebase_inf (i : bvt_dom_info) : bvt_dom_info :=
  set_avt (u32 (avt i - 0xe0000000)) (set_evt (u32 (evt i - 0xe0000000)) i).

Fixpoint rebase_domains (cpu : nat) (l : list handle) (s : state) : option state :=
  match l with
  | [] => Some s
  | p :: l' =>
      d ← heap s !! p;
      rebase_domains cpu l'
        (if decide (processor d = cpu) then upd_inf p rebase_inf s else s)
  end.

(** Lines 497 to 517.  [svt] is an unsigned long that only ever holds
    values of 32 bits; under the guard the subtraction does not wrap. *)
Definition check_overrun (cpu : nat) (s : state) : option state :=
  cpu_svt ← CPU_SVT s cpu;
  if bool_decide (cpu_svt >= 0xf0000000)
  then
    s' ← rebase_domains cpu (task_list s) s;
    Some (upd_cpu_info cpu (λ c, set_svt (svt c - 0xe0000000) c) s')
  else Some s.

(** Lines 519 to 543: the time for the next run through the scheduler. *)
Definition work_out_r_time (s : state) (next next_prime : handle)
  : option (Z * list assertion) :=
  next_d ← heap s !! next;
  if is_idle_task next_d
  then Some (ctx_allow s, [])
  else
    next_prime_d ← heap s !! next_prime;
    if is_idle_task next_prime_d
    then Some (s32 (10 * ctx_allow s), [])
    else
      let next_inf := sched_priv next_d in
      let next_prime_inf := sched_priv next_prime_d in
      let a1 := ASSERT (bool_decide (evt next_prime_inf >= evt next_inf)) ASSERT_evt_order in
      quot ← udiv32 (u32 (evt next_prime_inf - evt next_inf)) (mcu_advance next_inf);
      let r_time := s32 (quot + ctx_allow s) in
      let a2 := ASSERT (bool_decide (r_time >= ctx_allow s)) ASSERT_r_time in
      Some (r_time, a1 ++ a2).

(** Lines 546 to 552. *)
Definition arm_warp_timer (next : handle) (now : Z) (s : state) : option state :=
  next_d ← heap s !! next;
  let next_inf := sched_priv next_d in
  if bool_decide (warp next_inf ≠ 0) && bool_decide (warpl next_inf > 0)
  then
    Some (upd_inf next
            (λ i, set_warp_timer
                    (add_ac_timer (set_expires (s64 (now + warpl i)) (warp_timer i))) i)
            s)
  else Some s.

Record task_slice_t := mk_task_slice { task : handle; time : Z }.

(** The outcome of the selection, kept next to the returned slice so that
    the runner-up can be named. *)
Record decision := mk_decision {
  ret : task_slice_t;
  next_prime : handle;
  failed : list assertion
}.

Definition bvt_do_schedule (current : handle) (now : Z) (s : state)
  : option (state * decision) :=
  let prev := current in
  prev_d ← heap s !! prev;
  let cpu := processor prev_d in
  q0 ← RUNQUEUE s cpu;
  let a1 := ASSERT (__task_on_runqueue prev q0) ASSERT_task_on_runqueue in
  s1 ← (if is_idle_task prev_d then Some s
        else if __task_on_runqueue prev q0 then Some (deschedule prev prev_d now s)
        else None);
  sd ← schedule_data s1 !! cpu;
  let q := runqueue (cpu_priv sd) in
  let a2 := ASSERT (negb (bool_decide (q = []))) ASSERT_runqueue_not_empty in
  _ ← heap s1 !! idle sd;
  st ← scan_runqueue (heap s1) q (scan_init (idle sd));
  let next := next_inf st in
  next_prime ← next_prime_inf st;
  let s2 :=
    if bool_decide (min_avt st ≠ UINT_MAX)
    then upd_cpu_info cpu (set_svt (min_avt st)) s1 else s1 in
  s3 ← check_overrun cpu s2;
  '(r_time, a3) ← work_out_r_time s3 next next_prime;
  s4 ← arm_warp_timer next now s3;
  Some (s4, mk_decision (mk_task_slice next r_time) next_prime (a1 ++ a2 ++ a3)).

(** ** What the scan is expected to deliver

    The record with the lowest [evt] is the first one, in queue order, that
    no other record undercuts; the second lowest is the same among the
    records at the other positions. *)

Definition evt_at (hp : gmap nat domain) (h : handle) : Z :=
  from_option (λ d, evt (sched_priv d)) 0 (hp !! h).
Definition avt_at (hp : gmap nat domain) (h : handle) : Z :=
  from_option (λ d, avt (sched_priv d)) 0 (hp !! h).

Definition is_lowest (key : handle → Z) (q : list handle) (n : handle) : Prop :=
  ∃ i : nat, q !! i = Some n ∧
    ∀ (j : nat) h, q !! j = Some h →
      key n ≤ key h ∧ ((j < i)%nat → key n < key h).

Definition is_second_lowest (key : handle → Z) (q : list handle) (n r : handle) : Prop :=
  ∃ i k : nat, q !! i = Some n ∧ q !! k = Some r ∧ k ≠ i ∧
    ∀ (j : nat) h, q !! j = Some h → j ≠ i →
      key r ≤ key h ∧ ((j < k)%nat → key r < key h).

Definition is_minimum (key : handle → Z) (q : list handle) (m : Z) : Prop :=
  (∀ h, h ∈ q → m ≤ key h) ∧ (∃ h, h ∈ q ∧ key h = m).

(** The fields of a scheduling record hold values of their C types. *)
Definition in_u32 (z : Z) : Prop := 0 ≤ z ≤ UINT_MAX.

(** A queue entry as the scan expects it: a live record whose virtual
    times are 32-bit values, with [~0U] as [evt] left to the idle domain. *)
Definition entry_ready (hp : gmap nat domain) (idl h : handle) : Prop :=
  ∃ d, hp !! h = Some d ∧ in_u32 (evt (sched_priv d)) ∧ in_u32 (avt (sched_priv d)) ∧
       (h ≠ idl → evt (sched_priv d) < UINT_MAX).

Definition scan_ready (hp : gmap nat domain) (idl : handle) (q : list handle) : Prop :=
  NoDup q ∧ Forall (entry_ready hp idl) q.

(** What the locals of the loop hold once the entries [P] have been seen. *)
Definition scan_inv (hp : gmap nat domain) (idl : handle) (P : list handle)
    (st : scan_state) : Prop :=
  ((∀ h, h ∈ P → min_avt st ≤ avt_at hp h) ∧
   (min_avt st = UINT_MAX ∨ ∃ h, h ∈ P ∧ avt_at hp h = min_avt st)) ∧
  match P with
  | [] =>
      next_inf st = idl ∧ next_prime_inf st = None ∧
      next_evt st = UINT_MAX ∧ next_prime_evt st = UINT_MAX
  | [n] =>
      next_inf st = n ∧ next_evt st = evt_at hp n ∧
      next_prime_inf st = Some idl ∧ next_prime_evt st = UINT_MAX
  | _ =>
      ∃ r, next_prime_inf st = Some r ∧
        next_evt st = evt_at hp (next_inf st) ∧ next_prime_evt st = evt_at hp r ∧
        is_lowest (evt_at hp) P (next_inf st) ∧
        is_second_lowest (evt_at hp) P (next_inf st) r
  end.

(** What the overflow rebase does to one domain of the list, and a domain
    with its two virtual times blanked, to compare the other fields. *)
Definition rebase_dom (cpu : nat) (d : domain) : domain :=
  if decide (processor d = cpu) then set_sched_priv (rebase_inf (sched_priv d)) d else d.

Definition vt_erased (d : domain) : domain :=
  set_sched_priv (set_avt 0 (set_evt 0 (sched_priv d))) d.

(** A per-CPU entry with its [svt] blanked, and what the scan may leave in
    its two candidates once the entries [P] have been seen. *)
Definition svt_erased (sd : schedule_data_t) : schedule_data_t :=
  set_cpu_priv (set_svt 0 (cpu_priv sd)) sd.

Definition cand_inv (idl : handle) (P : list handle) (st : scan_state) : Prop :=
  (next_inf st = idl ∨ next_inf st ∈ P) ∧
  ∀ r, next_prime_inf st = Some r → r = idl ∨ (r ∈ P ∧ r ≠ next_inf st).

(** The standing assumptions of a reschedule on the CPU of [current]: the
    current domain and the idle domain of that CPU are on its run queue,
    the queue lists live records without repetition, the domain list names
    live records, and no weight is zero. *)
Definition sched_wf (current : handle) (s : state) : Prop :=
  ∃ prev_d sd idle_d,
    heap s !! current = Some prev_d ∧
    schedule_data s !! processor prev_d = Some sd ∧
    heap s !! idle sd = Some idle_d ∧ is_idle_task idle_d = true ∧
    current ∈ runqueue (cpu_priv sd) ∧ idle sd ∈ runqueue (cpu_priv sd) ∧
    NoDup (runqueue (cpu_priv sd)) ∧
    Forall (λ h, is_Some (heap s !! h)) (runqueue (cpu_priv sd)) ∧
    Forall (λ h, is_Some (heap s !! h)) (task_list s) ∧
    (∀ h d, heap s !! h = Some d → mcu_advance (sched_priv d) ≠ 0).

(** ** Sample configurations

    One CPU, the idle domain at address 0 and guests at addresses 1, 2. *)

Definition timer_off : ac_timer := mk_ac_timer 0 false.

Definition fresh_inf (v : Z) : bvt_dom_info :=
  mk_bvt_dom_info MCU_ADVANCE v v 0 0 0 (MILLISECS 2000) timer_off
    (MILLISECS 1000) timer_off.

Definition idle_dom : domain :=
  mk_domain IDLE_DOMAIN_ID 0 0 false true (fresh_inf UINT_MAX).

Definition guest (id : Z) (inf : bvt_dom_info) : domain :=
  mk_domain id 0 0 false true inf.

Definition one_cpu (doms : list (nat * domain)) (q : list handle) (v : Z) : state :=
  mk_state (list_to_map doms)
    [mk_schedule_data 0%nat 0%nat timer_off (mk_bvt_cpu_info q v)]
    (filter (λ h, h ≠ 0%nat) doms.*1) ctx_allow_init ∅.

(** Two fresh guests and the idle domain, all on the run queue. *)
Definition two_guests : state :=
  one_cpu [(0%nat, idle_dom); (1%nat, guest 1 (fresh_inf 0)); (2%nat, guest 2 (fresh_inf 0))]
    [1%nat; 2%nat; 0%nat] 0.

(** A guest that warps by 100 with an actual virtual time of 50, blocked. *)
Definition warping_inf : bvt_dom_info :=
  set_warp_value 100 (set_warp 1 (fresh_inf 50)).
Definition early_warper : state :=
  one_cpu [(0%nat, idle_dom); (1%nat, guest 1 warping_inf)] [0%nat] 50.

(** A guest whose warp value exceeds its actual virtual time by one, so
    that its [evt] wraps to [~0U] when it is woken. *)
Definition wrapped_warper : state :=
  one_cpu [(0%nat, idle_dom); (1%nat, guest 1 (set_warp_value 1 (set_warp 1 (fresh_inf 0))))]
    [0%nat] 0.

(** A running guest at the high-water mark and a guest that has been
    blocked since its actual virtual time was 5. *)
Definition long_sleeper : state :=
  one_cpu [(0%nat, idle_dom); (1%nat, guest 1 (fresh_inf 0xf0000001));
           (2%nat, guest 2 (fresh_inf 5))]
    [1%nat; 0%nat] 0xf0000000.

(** A running guest whose unwarp timer is pending. *)
Definition unwarp_pending : state :=
  one_cpu [(0%nat, idle_dom);
           (1%nat, guest 1 (set_unwarp_timer (mk_ac_timer 500 true)
                              (set_warpback 1 (fresh_inf 0))))]
    [1%nat; 0%nat] 0.

(** Two fresh guests, both blocked, and the requests that give the first
    the heaviest weight and the second a warp of 2^31 - 1. *)
Definition two_blocked : state :=
  one_cpu [(0%nat, idle_dom); (1%nat, guest 1 (fresh_inf 0)); (2%nat, guest 2 (fresh_inf 0))]
    [0%nat] 0.
Definition heavy_weight : sched_adjdom_cmd :=
  mk_sched_adjdom_cmd SCHED_INFO_PUT (mk_bvt_adjdom_params 1 0 0 0 0).
Definition wide_warp : sched_adjdom_cmd :=
  mk_sched_adjdom_cmd SCHED_INFO_PUT (mk_bvt_adjdom_params 10 0 0x7fffffff 0 0).
Definition overflow_run : option (state * decision) :=
  '(_, _, s1) ← bvt_adjdom 1 heavy_weight two_blocked;
  '(_, _, s2) ← bvt_adjdom 2 wide_warp s1;
  s3 ← bvt_wake 1 0 s2;
  s4 ← bvt_wake 2 0 s3;
  bvt_do_schedule 0 0 s4.

(** Guest 1 is running with the reschedule timer armed far ahead; guest 2
    is blocked at a later virtual time. *)
Definition busy_cpu : state :=
  mk_state
    (list_to_map [(0%nat, idle_dom); (1%nat, guest 1 (fresh_inf 0));
                  (2%nat, guest 2 (fresh_inf 100))])
    [mk_schedule_data 1%nat 0%nat (mk_ac_timer 1000000000 true)
       (mk_bvt_cpu_info [1%nat; 0%nat] 0)]
    [1%nat; 2%nat] ctx_allow_init ∅.

(** The guest of the accounting scenario: it warps by 100 at an actual
    virtual time of 1000, blocked. *)
Definition steady_warper : state :=
  one_cpu [(0%nat, idle_dom); (1%nat, guest 1 (set_warp_value 100 (set_warp 1 (fresh_inf 1000))))]
    [0%nat] 1000.

(** The warping guest of [early_warper], running. *)
Definition running_warper : state :=
  one_cpu [(0%nat, idle_dom); (1%nat, guest 1 warping_inf)] [1%nat; 0%nat] 50.

(** Guest 1 is running and has just blocked; guest 2 is queued behind it. *)
Definition blocking_guest : state :=
  mk_state
    (list_to_map [(0%nat, idle_dom);
                  (1%nat, mk_domain 1 0 0 false false (fresh_inf 0));
                  (2%nat, guest 2 (fresh_inf 100))])
    [mk_schedule_data 1%nat 0%nat timer_off (mk_bvt_cpu_info [1%nat; 2%nat; 0%nat] 0)]
    [1%nat; 2%nat] ctx_allow_init ∅.

(** Two blocked guests just above the high-water mark with [svt] just below
    it.  The first is given a warp of 0x20000000, which its actual virtual
    time covers, and both are woken. *)
Definition high_water : state :=
  one_cpu [(0%nat, idle_dom); (1%nat, guest 1 (fresh_inf 0xf0000010));
           (2%nat, guest 2 (fresh_inf 0xf0000020))]
    [0%nat] 0xeffffff0.
Definition deep_warp : sched_adjdom_cmd :=
  mk_sched_adjdom_cmd SCHED_INFO_PUT (mk_bvt_adjdom_params 10 0 0x20000000 0 0).
Definition high_water_queued : option state :=
  '(_, _, s1) ← bvt_adjdom 1 deep_warp high_water;
  s2 ← bvt_wake 2 0 s1;
  bvt_wake 1 0 s2.


(** ** The points where [evt] is recomputed

    [bvt_wake] on a domain that is not queued yet, and the fold-back of the
    previous domain in [bvt_do_schedule]. *)
Inductive recomputes_evt (s : state) (d : handle) (s' : state) : Prop :=
  | recomputes_wake now dom sd :
      heap s !! d = Some dom →
      schedule_data s !! processor dom = Some sd →
      d ∉ runqueue (cpu_priv sd) →
      bvt_wake d now s = Some s' →
      recomputes_evt s d s'
  | recomputes_fold_back now prev_d :
      heap s !! d = Some prev_d →
      s' = deschedule d prev_d now s →
      recomputes_evt s d s'.

(** ** Sleep

    [bvt_sleep] tests the flag bit [DF_RUNNING] of the domain, which the
    record above does not carry: the value of the bit is an argument. *)
Definition bvt_sleep (d : handle) (DF_RUNNING : bool) (s : state) : option state :=
  dom ← heap s !! d;
  if DF_RUNNING
  then Some (cpu_raise_softirq (processor dom) s)
  else
    q ← RUNQUEUE s (processor dom);
    if __task_on_runqueue d q
    then Some (__del_from_runqueue d (processor dom) s)
    else Some s.

(** A domain with the three fields blanked that a reschedule writes: the
    two virtual times and the warp timer. *)
Definition accounting_erased (d : domain) : domain :=
  set_sched_priv
    (set_warp_timer timer_off (set_avt 0 (set_evt 0 (sched_priv d)))) d.

(** What holds of a CPU between two reschedules: its idle domain is queued,
    the queue lists live domains of that CPU without repetition, the domain
    list names live records, and no weight is zero. *)
Definition sched_inv (cpu : nat) (s : state) : Prop :=
  ∃ sd idle_d,
    schedule_data s !! cpu = Some sd ∧
    heap s !! idle sd = Some idle_d ∧ is_idle_task idle_d = true ∧
    idle sd ∈ runqueue (cpu_priv sd) ∧
    NoDup (runqueue (cpu_priv sd)) ∧
    Forall (λ h, ∃ d, heap s !! h = Some d ∧ processor d = cpu) (runqueue (cpu_priv sd)) ∧
    Forall (λ h, is_Some (heap s !! h)) (task_list s) ∧
    (∀ h d, heap s !! h = Some d → mcu_advance (sched_priv d) ≠ 0).

(** The state a reschedule scans: the one it is given when the idle domain
    was running, and the one after the fold-back otherwise. *)
Definition folded_back (current : handle) (prev_d : domain) (now : Z) (s : state) : state :=
  if is_idle_task prev_d then s else deschedule current prev_d now s.

(** The part of a per-CPU entry that the scheduler core never writes, and
    what a reschedule on [cpu] leaves alone: the domain list, the allowance,
    the pending softirqs, that part of every per-CPU entry, the whole entry
    of every other CPU, and every field of every domain other than its
    virtual times and warp timer. *)
Definition cpu_fixed (sd : schedule_data_t) : handle * handle * ac_timer :=
  (curr sd, idle sd, s_timer sd).

Definition reschedule_frame (cpu : nat) (s s' : state) : Prop :=
  task_list s' = task_list s ∧ ctx_allow s' = ctx_allow s ∧ softirq s' = softirq s ∧
  (∀ c, cpu_fixed <$> schedule_data s' !! c = cpu_fixed <$> schedule_data s !! c) ∧
  (∀ c, c ≠ cpu → schedule_data s' !! c = schedule_data s !! c) ∧
  (∀ h, accounting_erased <$> heap s' !! h = accounting_erased <$> heap s !! h).

(** * Properties *)

(** The operations on memory are reasoned about through the lemmas below
    and are not unfolded by simplification. *)
#[global] Arguments upd_dom : simpl never.
#[global] Arguments upd_inf : simpl never.
#[global] Arguments upd_cpu : simpl never.
#[global] Arguments upd_cpu_info : simpl never.
#[global] Arguments cpu_raise_softirq : simpl never.
#[global] Arguments __add_to_runqueue_head : simpl never.
#[global] Arguments __add_to_runqueue_tail : simpl never.
#[global] Arguments __del_from_runqueue : simpl never.
#[global] Arguments deschedule : simpl never.
#[global] Arguments check_overrun : simpl never.
#[global] Arguments work_out_r_time : simpl never.
#[global] Arguments arm_warp_timer : simpl never.
#[global] Arguments calc_avt : simpl never.
#[global] Arguments calc_evt : simpl never.
#[global] Arguments udiv32 : simpl never.
#[global] Arguments u32 : simpl never.
#[global] Arguments s32 : simpl never.
#[global] Arguments s64 : simpl never.

(** ** Wrap-around arithmetic *)

Lemma u32_range z : in_u32 (u32 z).
Proof. unfold in_u32, u32, UINT_MAX. pose proof (Z.mod_pos_bound z (2 ^ 32)). lia. Qed.

Lemma u32_small z : 0 ≤ z < 2 ^ 32 → u32 z = z.
Proof. intros. unfold u32. by apply Z.mod_small. Qed.

Lemma s32_small z : - 2 ^ 31 ≤ z < 2 ^ 31 → s32 z = z.
Proof. intros. unfold s32. rewrite Z.mod_small; lia. Qed.

Lemma u32_sub_wrap z c : 0 ≤ z < c → c ≤ 2 ^ 32 → u32 (z - c) = z - c + 2 ^ 32.
Proof.
  intros Hz Hc. unfold u32. symmetry.
  apply Z.mod_unique with (q := -1); lia.
Qed.

(** ** Reading memory after an update *)

Section updates.
Context (s : state).

Lemma heap_upd_inf h f h' :
  heap (upd_inf h f s) !! h' =
    if decide (h = h')
    then (λ d, set_sched_priv (f (sched_priv d)) d) <$> heap s !! h'
    else heap s !! h'.
Proof.
  unfold upd_inf, upd_dom. simpl. rewrite lookup_alter.
  by case_decide; subst.
Qed.

Lemma heap_upd_inf_eq h f d :
  heap s !! h = Some d →
  heap (upd_inf h f s) !! h = Some (set_sched_priv (f (sched_priv d)) d).
Proof. intros Hd. rewrite heap_upd_inf, decide_True, Hd; done. Qed.

Lemma heap_upd_inf_ne h f h' :
  h ≠ h' → heap (upd_inf h f s) !! h' = heap s !! h'.
Proof. intros Hne. rewrite heap_upd_inf, decide_False; done. Qed.

Lemma heap_upd_cpu cpu f : heap (upd_cpu cpu f s) = heap s.
Proof. done. Qed.

Lemma schedule_data_upd_inf h f : schedule_data (upd_inf h f s) = schedule_data s.
Proof. done. Qed.

Lemma schedule_data_upd_cpu_eq cpu f sd :
  schedule_data s !! cpu = Some sd →
  schedule_data (upd_cpu cpu f s) !! cpu = Some (f sd).
Proof.
  intros Hsd. unfold upd_cpu. simpl.
  by rewrite list_lookup_alter_eq, Hsd.
Qed.

Lemma schedule_data_upd_cpu_ne cpu f cpu' :
  cpu ≠ cpu' → schedule_data (upd_cpu cpu f s) !! cpu' = schedule_data s !! cpu'.
Proof. intros Hne. unfold upd_cpu. simpl. by apply list_lookup_alter_ne. Qed.
End updates.

(** ** Effective virtual time *)

Lemma calc_evt_unfold d a :
  calc_evt d a =
    if decide (warp (sched_priv d) ≠ 0) then u32 (a - warp_value (sched_priv d)) else a.
Proof. done. Qed.

Lemma calc_evt_le d a :
  in_u32 a →
  warp (sched_priv d) = 0 ∨ 0 ≤ warp_value (sched_priv d) ≤ a →
  calc_evt d a ≤ a ∧
  (calc_evt d a = a ↔ warp (sched_priv d) = 0 ∨ warp_value (sched_priv d) = 0).
Proof.
  unfold in_u32, UINT_MAX. intros Ha Hw. rewrite calc_evt_unfold.
  destruct (decide (warp (sched_priv d) ≠ 0)) as [Hwarp|Hwarp].
  - destruct Hw as [Hw|Hw]; [done|].
    rewrite u32_small by lia. split; [lia|]. split; [right; lia|].
    intros [?|?]; [done|lia].
  - split; [lia|]. split; [left; lia|done].
Qed.

Lemma deschedule_heap prev prev_d now s :
  heap s !! prev = Some prev_d →
  heap (deschedule prev prev_d now s) !! prev =
    Some (set_sched_priv
            (set_warp_timer (rem_ac_timer (warp_timer (sched_priv prev_d)))
               (set_evt (calc_evt prev_d (calc_avt prev_d now))
                  (set_avt (calc_avt prev_d now) (sched_priv prev_d))))
            prev_d).
Proof.
  intros Hp. unfold deschedule.
  assert (∀ s0 cpu, heap (__add_to_runqueue_tail prev cpu s0) = heap s0) as Ht by done.
  assert (∀ s0 cpu, heap (__del_from_runqueue prev cpu s0) = heap s0) as Hd by done.
  destruct (runnable prev_d); rewrite ?Ht, Hd;
    by erewrite heap_upd_inf_eq by (by apply heap_upd_inf_eq).
Qed.

Lemma deschedule_heap_ne prev prev_d now s h :
  prev ≠ h → heap (deschedule prev prev_d now s) !! h = heap s !! h.
Proof.
  intros Hne. unfold deschedule.
  assert (∀ s0 cpu, heap (__add_to_runqueue_tail prev cpu s0) = heap s0) as Ht by done.
  assert (∀ s0 cpu, heap (__del_from_runqueue prev cpu s0) = heap s0) as Hd by done.
  destruct (runnable prev_d); rewrite ?Ht, Hd; by rewrite !heap_upd_inf_ne.
Qed.

(** ** C6: the effective virtual time at the points where it is recomputed *)

Lemma bvt_wake_heap d now s s' dom sd :
  heap s !! d = Some dom →
  schedule_data s !! processor dom = Some sd →
  d ∉ runqueue (cpu_priv sd) →
  bvt_wake d now s = Some s' →
  let avt' :=
    if bool_decide (avt (sched_priv dom) < svt (cpu_priv sd)) || DF_MIGRATED dom
    then u32 (svt (cpu_priv sd)) else avt (sched_priv dom) in
  (∀ h, heap s' !! h =
        heap (upd_inf d (λ i, set_evt (calc_evt dom avt') (set_avt avt' i)) s) !! h).
Proof.
  intros Hd Hsd Hq Hw avt' h. unfold bvt_wake in Hw.
  rewrite Hd in Hw. simpl in Hw. rewrite Hsd in Hw. simpl in Hw.
  unfold __task_on_runqueue in Hw. rewrite bool_decide_eq_false_2 in Hw by done.
  fold avt' in Hw.
  destruct (_ !! curr sd) as [curr_d|]; [simpl in Hw|done].
  destruct (udiv32 _ _) as [quot|]; [simpl in Hw|done].
  repeat case_match; by simplify_eq.
Qed.

Lemma recomputed_after_wake d now s s' dom sd :
  heap s !! d = Some dom →
  schedule_data s !! processor dom = Some sd →
  d ∉ runqueue (cpu_priv sd) →
  bvt_wake d now s = Some s' →
  ∃ dom', heap s' !! d = Some dom' ∧
    evt (sched_priv dom') = calc_evt dom' (avt (sched_priv dom')).
Proof.
  intros Hd Hsd Hq Hw.
  pose proof (bvt_wake_heap _ _ _ _ _ _ Hd Hsd Hq Hw d) as Hh. cbv zeta in Hh.
  erewrite heap_upd_inf_eq in Hh by done.
  eexists. split; [exact Hh|]. done.
Qed.

Lemma recomputed_after_deschedule prev prev_d now s :
  heap s !! prev = Some prev_d →
  ∃ d', heap (deschedule prev prev_d now s) !! prev = Some d' ∧
    avt (sched_priv d') = calc_avt prev_d now ∧
    evt (sched_priv d') = calc_evt d' (avt (sched_priv d')).
Proof.
  intros Hp. eexists. split; [by apply deschedule_heap|]. done.
Qed.

(** C6 (as amended).  At each of the two points where a record's [evt] is
    recomputed, the wake of a blocked domain and the fold-back of the
    previous domain, the stored [evt] is [avt - warp_value] modulo 2^32
    when [warp] is set and [avt] otherwise.  Consequently [evt <= avt]
    whenever the domain does not warp or its warp value lies between 0 and
    [avt], and then [evt = avt] exactly when it does not warp or the warp
    value is zero. *)
Theorem evt_recomputed s d s' dom' :
  recomputes_evt s d s' →
  heap s' !! d = Some dom' →
  let inf := sched_priv dom' in
  evt inf = (if decide (warp inf ≠ 0) then u32 (avt inf - warp_value inf) else avt inf) ∧
  (in_u32 (avt inf) →
   warp inf = 0 ∨ 0 ≤ warp_value inf ≤ avt inf →
   evt inf ≤ avt inf ∧ (evt inf = avt inf ↔ warp inf = 0 ∨ warp_value inf = 0)).
Proof.
  intros Hr Hd' inf.
  assert (evt inf = calc_evt dom' (avt inf)) as He.
  { destruct Hr as [now dom sd Hd Hsd Hq Hw|now prev_d Hp].
    - destruct (recomputed_after_wake _ _ _ _ _ _ Hd Hsd Hq Hw) as (d1 & Hd1 & E).
      by simplify_eq.
    - destruct (recomputed_after_deschedule _ _ now _ Hp) as (d1 & Hd1 & _ & E).
      by simplify_eq. }
  split; [by rewrite He|].
  intros Ha Hw. rewrite He. by apply calc_evt_le.
Qed.

(** The accounting scenario: warp value 100 at [avt = 1000] gives
    [evt = 900]. *)
Lemma evt_recomputed_witness :
  ∃ s' dom', bvt_wake 1 0 steady_warper = Some s' ∧ heap s' !! 1%nat = Some dom' ∧
    avt (sched_priv dom') = 1000 ∧ evt (sched_priv dom') = 900 ∧
    evt (sched_priv dom') ≤ avt (sched_priv dom').
Proof.
  assert (∃ s', bvt_wake 1 0 steady_warper = Some s') as [s' Hw] by (by eexists).
  assert (∃ dom', heap s' !! 1%nat = Some dom') as [dom' Hd].
  { vm_compute in Hw. injection Hw as <-. by eexists. }
  exists s', dom'. split; [done|]. split; [done|].
  assert (recomputes_evt steady_warper 1 s') as Hr.
  { eapply (recomputes_wake _ _ _ 0); [reflexivity|reflexivity| |exact Hw].
    simpl. by intros ?%list_elem_of_singleton. }
  assert (avt (sched_priv dom') = 1000) as Ha.
  { vm_compute in Hw. injection Hw as <-. vm_compute in Hd. by injection Hd as <-. }
  assert (warp (sched_priv dom') = 1 ∧ warp_value (sched_priv dom') = 100) as [Hwp Hwv].
  { vm_compute in Hw. injection Hw as <-. vm_compute in Hd. by injection Hd as <-. }
  destruct (evt_recomputed _ _ _ _ Hr Hd) as [He Hle].
  rewrite Hwp, Hwv, Ha in He. rewrite Ha in Hle. rewrite Ha, He.
  split; [done|]. split; [done|].
  rewrite <- He. apply Hle; [done|right; lia].
Defined.

(** Against C6 as first stated: a guest that warps by 100 at an actual
    virtual time of 50 is woken, is runnable, and has [evt] above [avt]. *)
Lemma warped_evt_exceeds_avt :
  ∃ s' dom', bvt_wake 1 0 early_warper = Some s' ∧
    RUNQUEUE s' 0 = Some [1%nat; 0%nat] ∧
    heap s' !! 1%nat = Some dom' ∧
    avt (sched_priv dom') = 50 ∧ evt (sched_priv dom') = 4294967246 ∧
    ¬ (evt (sched_priv dom') ≤ avt (sched_priv dom')).
Proof.
  eexists _, _. split; [reflexivity|]. split; [reflexivity|].
  split; [reflexivity|]. split; [reflexivity|]. split; [reflexivity|].
  vm_compute. by intros H.
Qed.

Lemma heap_cpu_raise_softirq cpu s : heap (cpu_raise_softirq cpu s) = heap s.
Proof. done. Qed.

Lemma softirq_cpu_raise_softirq cpu s : cpu ∈ softirq (cpu_raise_softirq cpu s).
Proof. unfold cpu_raise_softirq. simpl. apply elem_of_union_l, elem_of_singleton. done. Qed.

(** ** C7: the warp and unwarp timer callbacks *)

(** C7.  The warp-expiry callback clears [warp] and requests a reschedule
    on the domain's CPU; with a zero unwarp requirement it also clears
    [warpback] and leaves the unwarp timer alone, otherwise it keeps
    [warpback] and arms the unwarp timer for [now + warpu].  The
    unwarp-expiry callback sets [warp] and requests a reschedule when
    [warpback] is set, and otherwise leaves the whole state as it is. *)
Theorem timer_callbacks p now s d :
  heap s !! p = Some d →
  let inf := sched_priv d in
  (∃ s' d',
      warp_timer_fn p now s = Some s' ∧ heap s' !! p = Some d' ∧
      warp (sched_priv d') = 0 ∧
      processor d ∈ softirq s' ∧
      (warpu inf = 0 →
         warpback (sched_priv d') = 0 ∧
         unwarp_timer (sched_priv d') = unwarp_timer inf) ∧
      (warpu inf ≠ 0 →
         warpback (sched_priv d') = warpback inf ∧
         unwarp_timer (sched_priv d') = mk_ac_timer (s64 (now + warpu inf)) true)) ∧
  (∃ s',
      unwarp_timer_fn p s = Some s' ∧
      (warpback inf ≠ 0 →
         heap s' !! p = Some (set_sched_priv (set_warp 1 inf) d) ∧
         processor d ∈ softirq s') ∧
      (warpback inf = 0 → s' = s)).
Proof.
  intros Hd inf. split.
  - unfold warp_timer_fn. rewrite Hd. simpl. fold inf.
    destruct (decide (warpu inf = 0)) as [Hu|Hu].
    + eexists _, _. split; [done|]. split.
      { rewrite heap_cpu_raise_softirq.
        erewrite heap_upd_inf_eq by (by apply heap_upd_inf_eq). done. }
      split; [done|]. split; [apply softirq_cpu_raise_softirq|].
      split; [done|]. by intros ?.
    + eexists _, _. split; [done|]. split.
      { rewrite heap_cpu_raise_softirq.
        erewrite heap_upd_inf_eq by (by apply heap_upd_inf_eq). done. }
      split; [done|]. split; [apply softirq_cpu_raise_softirq|].
      split; [by intros ?|]. done.
  - unfold unwarp_timer_fn. rewrite Hd. simpl. fold inf.
    destruct (decide (warpback inf ≠ 0)) as [Hb|Hb].
    + eexists. split; [done|]. split; [|by intros ?].
      intros _. split.
      * rewrite heap_cpu_raise_softirq. by erewrite heap_upd_inf_eq.
      * apply softirq_cpu_raise_softirq.
    + eexists. split; [done|]. split; [by intros ?|done].
Qed.

(** On the warping guest: the warp timer firing at time 7 arms the unwarp
    timer for 7 plus one second; the unwarp timer firing while [warpback]
    is clear changes nothing. *)
Lemma timer_callbacks_witness :
  (∃ s' d',
      warp_timer_fn 1 7 steady_warper = Some s' ∧ heap s' !! 1%nat = Some d' ∧
      warp (sched_priv d') = 0 ∧
      unwarp_timer (sched_priv d') = mk_ac_timer (7 + MILLISECS 1000) true) ∧
  (∃ s', unwarp_timer_fn 1 steady_warper = Some s' ∧ s' = steady_warper).
Proof.
  destruct (timer_callbacks 1 7 steady_warper
              (guest 1 (set_warp_value 100 (set_warp 1 (fresh_inf 1000))))
              eq_refl)
    as [(s' & d' & Hf & Hd' & Hw & _ & _ & Hu) (s'' & Hf' & _ & Hn)].
  split.
  - exists s', d'. repeat split; [done..|]. by apply Hu.
  - exists s''. split; [done|]. by apply Hn.
Defined.

(** ** C9 and C10: setting the parameters of a domain *)

(** C9.  A request to set the parameters of a domain with a zero
    [mcu_adv] returns [-EINVAL], a non-zero value, and hands back the state
    it was given: no field of any scheduling record has changed. *)
Theorem adjdom_zero_rejected p cmd s d :
  heap s !! p = Some d →
  direction cmd = SCHED_INFO_PUT →
  mcu_adv (params cmd) = 0 →
  bvt_adjdom p cmd s = Some (- EINVAL, cmd, s) ∧ - EINVAL ≠ 0.
Proof.
  intros Hd Hdir Hz. split; [|done].
  unfold bvt_adjdom. rewrite decide_True by done. rewrite Hd, Hz. done.
Qed.

(** A zero weight for guest 1 is refused and the state is returned as it
    was. *)
Lemma adjdom_zero_rejected_witness :
  bvt_adjdom 1
    (mk_sched_adjdom_cmd SCHED_INFO_PUT (mk_bvt_adjdom_params 0 1 100 5 5))
    two_guests
  = Some (- EINVAL,
          mk_sched_adjdom_cmd SCHED_INFO_PUT (mk_bvt_adjdom_params 0 1 100 5 5),
          two_guests).
Proof.
  apply (adjdom_zero_rejected 1
           (mk_sched_adjdom_cmd SCHED_INFO_PUT (mk_bvt_adjdom_params 0 1 100 5 5))
           two_guests (guest 1 (fresh_inf 0))); reflexivity.
Defined.

(** C10.  A request to set the parameters of a domain with a non-zero
    [mcu_adv] succeeds, stores the five requested parameters and sets
    [warp] to 1, whatever the requested [warpback] and whatever [warp] was
    before. *)
Theorem adjdom_put_sets_warp p cmd s d :
  heap s !! p = Some d →
  direction cmd = SCHED_INFO_PUT →
  in_u32 (mcu_adv (params cmd)) →
  mcu_adv (params cmd) ≠ 0 →
  ∃ s' d',
    bvt_adjdom p cmd s = Some (0, cmd, s') ∧ heap s' !! p = Some d' ∧
    warp (sched_priv d') = 1 ∧
    mcu_advance (sched_priv d') = mcu_adv (params cmd) ∧
    warpback (sched_priv d') = s32 (u32 (p_warpback (params cmd))) ∧
    warp_value (sched_priv d') = s32 (warpvalue (params cmd)) ∧
    warpl (sched_priv d') = s64 (p_warpl (params cmd)) ∧
    warpu (sched_priv d') = s64 (p_warpu (params cmd)).
Proof.
  intros Hd Hdir [Hlo Hhi] Hnz. unfold UINT_MAX in Hhi.
  unfold bvt_adjdom. rewrite decide_True by done. rewrite Hd. simpl.
  rewrite (u32_small (mcu_adv (params cmd))) by lia.
  rewrite decide_False by done.
  eexists _, _. split; [done|]. split; [by apply heap_upd_inf_eq|]. done.
Qed.

(** A request with [warpback = 0] still leaves guest 1 with [warp = 1]. *)
Lemma adjdom_put_sets_warp_witness :
  ∃ s' d',
    bvt_adjdom 1
      (mk_sched_adjdom_cmd SCHED_INFO_PUT (mk_bvt_adjdom_params 3 0 100 5 6))
      two_guests
    = Some (0, mk_sched_adjdom_cmd SCHED_INFO_PUT (mk_bvt_adjdom_params 3 0 100 5 6), s') ∧
    heap s' !! 1%nat = Some d' ∧
    warp (sched_priv d') = 1 ∧ warpback (sched_priv d') = 0 ∧
    mcu_advance (sched_priv d') = 3.
Proof.
  destruct (adjdom_put_sets_warp 1
              (mk_sched_adjdom_cmd SCHED_INFO_PUT (mk_bvt_adjdom_params 3 0 100 5 6))
              two_guests (guest 1 (fresh_inf 0)))
    as (s' & d' & Hf & Hd' & Hw & Hm & Hb & _); [reflexivity|reflexivity| | |].
  - unfold in_u32, UINT_MAX. simpl. lia.
  - simpl. lia.
  - exists s', d'. split; [done|]. split; [done|]. split; [done|].
    split; [by rewrite Hb|done].
Defined.

(** ** C4: the scan of the run queue *)

Section scan.
Context (hp : gmap nat domain) (idl : handle).

Lemma evt_at_lookup h d : hp !! h = Some d → evt_at hp h = evt (sched_priv d).
Proof. intros Hh. unfold evt_at. by rewrite Hh. Qed.

Lemma avt_at_lookup h d : hp !! h = Some d → avt_at hp h = avt (sched_priv d).
Proof. intros Hh. unfold avt_at. by rewrite Hh. Qed.

Lemma is_lowest_singleton key n : is_lowest key [n] n.
Proof.
  exists 0%nat. split; [done|]. intros j h Hj.
  apply list_lookup_singleton_Some in Hj as [-> ->]. split; lia.
Qed.

Lemma is_lowest_keep key P n x :
  is_lowest key P n → key n ≤ key x → is_lowest key (P ++ [x]) n.
Proof.
  intros (i & Hi & Hmin) Hx. exists i. split.
  { by apply lookup_app_l_Some. }
  intros j h [[Hj Hh]|[-> <-]]%lookup_snoc_Some.
  - by apply Hmin.
  - split; [done|]. apply lookup_lt_Some in Hi. lia.
Qed.

Lemma is_lowest_new key P n x :
  is_lowest key P n → key x < key n → is_lowest key (P ++ [x]) x.
Proof.
  intros (i & Hi & Hmin) Hx. exists (length P). split.
  { apply lookup_snoc_Some. by right. }
  intros j h [[Hj Hh]|[-> <-]]%lookup_snoc_Some.
  - destruct (Hmin j h Hh) as [Hle _]. split; lia.
  - split; lia.
Qed.

Lemma is_second_lowest_demoted key P n x :
  is_lowest key P n → key x < key n → is_second_lowest key (P ++ [x]) x n.
Proof.
  intros (i & Hi & Hmin) Hx. exists (length P), i.
  pose proof (lookup_lt_Some _ _ _ Hi) as Hlt.
  split; [apply lookup_snoc_Some; by right|].
  split; [by apply lookup_app_l_Some|]. split; [lia|].
  intros j h [[Hj Hh]|[-> <-]]%lookup_snoc_Some Hne; [|done].
  by apply Hmin.
Qed.

Lemma is_second_lowest_first key n x :
  key n ≤ key x → is_second_lowest key [n; x] n x.
Proof.
  intros Hx. exists 0%nat, 1%nat. split; [done|]. split; [done|]. split; [done|].
  intros [|[|j]] h Hj Hne; simplify_eq/=; try done; split; lia.
Qed.

Lemma is_second_lowest_new key P n r x :
  is_second_lowest key P n r → key x < key r → is_second_lowest key (P ++ [x]) n x.
Proof.
  intros (i & k & Hi & Hk & Hik & Hmin) Hx. exists i, (length P).
  pose proof (lookup_lt_Some _ _ _ Hi) as Hlt.
  split; [by apply lookup_app_l_Some|].
  split; [apply lookup_snoc_Some; by right|]. split; [lia|].
  intros j h [[Hj Hh]|[-> <-]]%lookup_snoc_Some Hne.
  - destruct (Hmin j h Hh Hne) as [Hle _]. split; lia.
  - split; lia.
Qed.

Lemma is_second_lowest_keep key P n r x :
  is_second_lowest key P n r → key r ≤ key x → is_second_lowest key (P ++ [x]) n r.
Proof.
  intros (i & k & Hi & Hk & Hik & Hmin) Hx. exists i, k.
  pose proof (lookup_lt_Some _ _ _ Hk) as Hlt.
  split; [by apply lookup_app_l_Some|].
  split; [by apply lookup_app_l_Some|]. split; [done|].
  intros j h [[Hj Hh]|[-> <-]]%lookup_snoc_Some Hne.
  - by apply Hmin.
  - split; [done|]. lia.
Qed.

(** The four candidate fields are those chosen by [scan_pick]. *)
Lemma scan_step_candidates st tmp p :
  next_inf (scan_step st tmp p) = next_inf (scan_pick st tmp p) ∧
  next_prime_inf (scan_step st tmp p) = next_prime_inf (scan_pick st tmp p) ∧
  next_evt (scan_step st tmp p) = next_evt (scan_pick st tmp p) ∧
  next_prime_evt (scan_step st tmp p) = next_prime_evt (scan_pick st tmp p).
Proof. unfold scan_step. by case_bool_decide. Qed.

Lemma scan_pick_min_avt st tmp p : min_avt (scan_pick st tmp p) = min_avt st.
Proof. unfold scan_pick. by repeat case_bool_decide. Qed.

Lemma scan_step_min_avt st tmp p :
  min_avt (scan_step st tmp p) = Z.min (min_avt st) (avt p).
Proof.
  unfold scan_step. rewrite scan_pick_min_avt.
  case_bool_decide; simpl; rewrite ?scan_pick_min_avt; lia.
Qed.

Lemma scan_inv_step P st x d :
  scan_inv hp idl P st →
  NoDup (P ++ [x]) →
  Forall (entry_ready hp idl) (P ++ [x]) →
  hp !! x = Some d →
  scan_inv hp idl (P ++ [x]) (scan_step st x (sched_priv d)).
Proof.
  intros [[Hlow Hatt] Hcand] Hnd Hready Hx.
  pose proof (evt_at_lookup _ _ Hx) as Hkx.
  pose proof (avt_at_lookup _ _ Hx) as Hax.
  assert (entry_ready hp idl x) as (dx & Hdx & Hex & _ & Hxi).
  { rewrite Forall_app in Hready. destruct Hready as [_ Hr]. by inversion Hr. }
  assert (dx = d) as -> by congruence.
  split.
  { (* the running minimum of avt *)
    rewrite scan_step_min_avt. split.
    - intros h [Hh| ->%list_elem_of_singleton]%elem_of_app.
      + specialize (Hlow h Hh). lia.
      + lia.
    - destruct (Z.min_spec (min_avt st) (avt (sched_priv d))) as [[Hlt ->]|[Hge ->]].
      + destruct Hatt as [?|(h & Hh & Eh)]; [by left|].
        right. exists h. split; [apply elem_of_app; by left|done].
      + right. exists x. split; [|done]. apply elem_of_app. right.
        by apply list_elem_of_singleton. }
  destruct (scan_step_candidates st x (sched_priv d)) as (-> & -> & -> & ->).
  unfold scan_pick. rewrite <- Hkx.
  destruct P as [|n [|n' P']].
  - (* first entry *)
    destruct Hcand as (Hn & Hnp & Hne & Hnpe). simpl.
    case_bool_decide as Hc.
    + simpl. by rewrite Hn, Hne.
    + rewrite bool_decide_eq_true_2 by done. simpl.
      assert (evt_at hp x = UINT_MAX) as Hmax.
      { rewrite Hkx. rewrite Hne, Hkx in Hc. destruct Hex. lia. }
      assert (x = idl) as ->.
      { destruct (decide (x = idl)) as [|Hne']; [done|].
        specialize (Hxi Hne'). rewrite Hkx in Hmax. lia. }
      by rewrite Hn, Hne.
  - (* second entry *)
    destruct Hcand as (Hn & Hne & Hnp & Hnpe). simpl.
    case_bool_decide as Hc.
    + simpl. exists n. rewrite Hn, Hne. split; [done|]. split; [done|]. split; [done|].
      rewrite Hne in Hc.
      split; [apply (is_lowest_new _ [n] n); [apply is_lowest_singleton|done]|].
      apply (is_second_lowest_demoted _ [n] n); [apply is_lowest_singleton|done].
    + rewrite bool_decide_eq_true_2 by done. simpl.
      exists x. rewrite Hn, Hne. split; [done|]. split; [done|]. split; [done|].
      rewrite Hne in Hc.
      split; [apply (is_lowest_keep _ [n] n); [apply is_lowest_singleton|lia]|].
      apply is_second_lowest_first. lia.
  - (* later entries *)
    destruct Hcand as (r & Hnp & Hne & Hnpe & Hlo & Hsec).
    change ((n :: n' :: P') ++ [x]) with (n :: n' :: P' ++ [x]). cbv iota beta.
    change (n :: n' :: P' ++ [x]) with ((n :: n' :: P') ++ [x]).
    remember (n :: n' :: P') as P eqn:HP. clear HP.
    case_bool_decide as Hc; [|case_bool_decide as Hc2; [|case_bool_decide as Hc3]].
    + simpl. exists (next_inf st). split; [done|]. split; [done|]. split; [done|].
      rewrite Hne in Hc.
      split; [by eapply is_lowest_new|]. by apply is_second_lowest_demoted.
    + simpl. exists x. split; [done|]. split; [done|]. split; [done|].
      rewrite Hne in Hc.
      split; [apply is_lowest_keep; [done|lia]|].
      apply (is_second_lowest_new _ _ _ r); [done|].
      (* the runner-up so far carries [~0U]: it is the idle record *)
      destruct Hsec as (i & k & Hi & Hk & Hik & Hmin).
      assert (r ∈ P) as HrP by (by eapply list_elem_of_lookup_2).
      assert (entry_ready hp idl r) as (dr & Hdr & _ & _ & Hri).
      { rewrite Forall_app in Hready. destruct Hready as [Hr _].
        by eapply Forall_forall in Hr. }
      assert (r = idl) as ->.
      { destruct (decide (r = idl)) as [|Hne']; [done|].
        specialize (Hri Hne'). rewrite Hnpe, (evt_at_lookup _ _ Hdr) in Hc2. lia. }
      assert (x ≠ idl) as Hxne.
      { intros ->. apply NoDup_app in Hnd as (_ & Hdisj & _).
        apply (Hdisj idl HrP). by apply list_elem_of_singleton. }
      specialize (Hxi Hxne). rewrite <- Hnpe, Hc2, Hkx. done.
    + simpl. exists x. split; [done|]. split; [done|]. split; [done|].
      rewrite Hne in Hc. rewrite Hnpe in Hc3.
      split; [apply is_lowest_keep; [done|lia]|].
      by apply (is_second_lowest_new _ _ _ r).
    + exists r. split; [done|]. split; [done|]. split; [done|].
      rewrite Hne in Hc. rewrite Hnpe in Hc3.
      split; [apply is_lowest_keep; [done|lia]|].
      apply is_second_lowest_keep; [done|lia].
Qed.

Lemma scan_runqueue_inv rest P st :
  scan_inv hp idl P st →
  NoDup (P ++ rest) →
  Forall (entry_ready hp idl) (P ++ rest) →
  ∃ st', scan_runqueue hp rest st = Some st' ∧ scan_inv hp idl (P ++ rest) st'.
Proof.
  revert P st. induction rest as [|x rest IH]; intros P st Hinv Hnd Hready.
  - exists st. by rewrite app_nil_r.
  - assert (entry_ready hp idl x) as (d & Hd & _).
    { rewrite Forall_app in Hready. destruct Hready as [_ Hr]. by inversion Hr. }
    simpl. rewrite Hd. simpl.
    replace (P ++ x :: rest) with ((P ++ [x]) ++ rest) in * by by rewrite <- app_assoc.
    apply IH; [|done|done].
    apply scan_inv_step; [done| | |done].
    + by apply NoDup_app in Hnd as (? & _).
    + by apply Forall_app in Hready as [? _].
Qed.

Lemma scan_inv_init : scan_inv hp idl [] (scan_init idl).
Proof.
  split; [|done]. split; [|by left]. by intros h ?%elem_of_nil.
Qed.

End scan.

(** C4 (as amended).  On a queue of at least two distinct live records in
    which only the idle record may carry [~0U] as [evt], the scan ends with
    [next_inf] the record of lowest [evt] and [next_prime_inf] the record of
    second lowest [evt], the earlier record winning each tie, with
    [next_evt] and [next_prime_evt] their [evt], and with [min_avt] the
    minimum of [avt] over the queue. *)
Theorem scan_min_two hp idl q :
  scan_ready hp idl q →
  (2 ≤ length q)%nat →
  ∃ st r,
    scan_runqueue hp q (scan_init idl) = Some st ∧
    next_prime_inf st = Some r ∧
    is_lowest (evt_at hp) q (next_inf st) ∧
    is_second_lowest (evt_at hp) q (next_inf st) r ∧
    next_evt st = evt_at hp (next_inf st) ∧
    next_prime_evt st = evt_at hp r ∧
    is_minimum (avt_at hp) q (min_avt st).
Proof.
  intros [Hnd Hready] Hlen.
  destruct (scan_runqueue_inv hp idl q [] (scan_init idl))
    as (st & Hscan & [Hlow Hatt] & Hcand); [apply scan_inv_init|done|done|].
  simpl in *. destruct q as [|n [|n' q']]; simpl in Hlen; [lia|lia|].
  destruct Hcand as (r & Hnp & Hne & Hnpe & Hlo & Hsec).
  exists st, r. do 6 (split; [done|]). split; [done|].
  destruct Hatt as [Hmax|?]; [|done].
  exists n. split; [by left|].
  apply Forall_cons in Hready as [(d & Hd & _ & Ha & _) _].
  specialize (Hlow n (list_elem_of_here _ _)).
  rewrite (avt_at_lookup _ _ _ Hd) in *. destruct Ha. lia.
Qed.

(** Two guests at [evt = 0] queued ahead of the idle domain: the first is
    selected, the second is the runner-up. *)
Lemma scan_min_two_witness :
  ∃ st,
    scan_runqueue (heap two_guests) [1%nat; 2%nat; 0%nat] (scan_init 0) = Some st ∧
    next_inf st = 1%nat ∧ next_prime_inf st = Some 2%nat ∧
    is_lowest (evt_at (heap two_guests)) [1%nat; 2%nat; 0%nat] 1 ∧
    is_second_lowest (evt_at (heap two_guests)) [1%nat; 2%nat; 0%nat] 1 2.
Proof.
  destruct (scan_min_two (heap two_guests) 0 [1%nat; 2%nat; 0%nat])
    as (st & r & Hscan & Hnp & Hlo & Hsec & _).
  - split; [by apply (bool_decide_unpack _)|].
    repeat apply Forall_cons_2; [..|apply Forall_nil_2];
      (eexists; split; [reflexivity|]);
      simpl; unfold in_u32, UINT_MAX; repeat split; lia.
  - simpl. lia.
  - assert (next_inf st = 1%nat ∧ r = 2%nat) as [Hn ->].
    { vm_compute in Hscan. injection Hscan as <-. by injection Hnp as <-. }
    rewrite Hn in Hlo, Hsec. by exists st.
Defined.

(** Against C4 as first stated: a woken guest whose [evt] has wrapped to
    [~0U] is queued ahead of the idle domain and carries the same [evt],
    yet the scan selects the idle domain. *)
Lemma scan_prefers_idle_on_tie :
  ∃ s1 st,
    bvt_wake 1 0 wrapped_warper = Some s1 ∧
    RUNQUEUE s1 0 = Some [1%nat; 0%nat] ∧
    scan_runqueue (heap s1) [1%nat; 0%nat] (scan_init 0) = Some st ∧
    next_inf st = 0%nat ∧
    evt_at (heap s1) 1 = evt_at (heap s1) 0 ∧
    ¬ is_lowest (evt_at (heap s1)) [1%nat; 0%nat] (next_inf st).
Proof.
  eexists _, _. split; [reflexivity|]. split; [reflexivity|].
  split; [reflexivity|]. split; [reflexivity|]. split; [reflexivity|].
  intros (i & Hi & Hmin).
  destruct i as [|[|i]]; [done| |done].
  destruct (Hmin 0%nat 1%nat eq_refl) as [_ Hlt].
  specialize (Hlt ltac:(lia)). vm_compute in Hlt. done.
Qed.

(** ** C2: the rebase on virtual-time overrun *)

Lemma rebase_domains_frame cpu l s s' :
  rebase_domains cpu l s = Some s' →
  schedule_data s' = schedule_data s ∧ task_list s' = task_list s ∧
  ctx_allow s' = ctx_allow s ∧ softirq s' = softirq s.
Proof.
  revert s. induction l as [|p l IH]; intros s Hr; simpl in Hr.
  - by simplify_eq.
  - destruct (heap s !! p) as [d|]; [simpl in Hr|done].
    apply IH in Hr as (-> & -> & -> & ->). by case_decide.
Qed.

Lemma rebase_domains_heap cpu l s :
  NoDup l →
  Forall (λ p, is_Some (heap s !! p)) l →
  ∃ s', rebase_domains cpu l s = Some s' ∧
    ∀ h, heap s' !! h =
         if decide (h ∈ l) then rebase_dom cpu <$> heap s !! h else heap s !! h.
Proof.
  revert s. induction l as [|p l IH]; intros s Hnd Hlive.
  - exists s. split; [done|]. intros h. rewrite decide_False; [done|apply not_elem_of_nil].
  - apply NoDup_cons in Hnd as [Hp Hnd]. apply Forall_cons in Hlive as [[d Hd] Hlive].
    simpl. rewrite Hd. simpl.
    set (s1 := if decide (processor d = cpu) then upd_inf p rebase_inf s else s).
    assert (∀ h, heap s1 !! h =
                 if decide (p = h) then Some (rebase_dom cpu d) else heap s !! h) as Hs1.
    { intros h. unfold s1, rebase_dom. destruct (decide (processor d = cpu)).
      - rewrite heap_upd_inf. case_decide; [subst; by rewrite Hd|done].
      - case_decide; [subst; by rewrite Hd|done]. }
    destruct (IH s1) as (s' & Hr & Hheap); [done| |].
    { eapply Forall_impl; [exact Hlive|]. intros h Hh. simpl in Hh.
      rewrite Hs1. by case_decide. }
    exists s'. split; [done|]. intros h. rewrite Hheap, Hs1.
    destruct (decide (p = h)) as [<-|Hne].
    + rewrite (decide_False (P := p ∈ l)) by done.
      rewrite (decide_True (P := p ∈ p :: l)) by apply list_elem_of_here.
      by rewrite Hd.
    + destruct (decide (h ∈ l)) as [Hin|Hin].
      * by rewrite (decide_True (P := h ∈ p :: l)) by (by apply list_elem_of_further).
      * rewrite (decide_False (P := h ∈ p :: l)); [done|].
        apply not_elem_of_cons. by split.
Qed.

Lemma rebase_evt_order e1 e2 :
  in_u32 e1 → in_u32 e2 →
  (0xe0000000 ≤ e1 ↔ 0xe0000000 ≤ e2) →
  (e1 ≤ e2 ↔ u32 (e1 - 0xe0000000) ≤ u32 (e2 - 0xe0000000)).
Proof.
  unfold in_u32, UINT_MAX. intros H1 H2 Hside.
  destruct (decide (0xe0000000 ≤ e1)) as [Hhi|Hlo].
  - rewrite !u32_small by lia. lia.
  - rewrite !u32_sub_wrap by lia. lia.
Qed.

(** The overrun check in general.  When [svt] has reached 0xf0000000,
    [svt] is decreased by exactly 0xe0000000 and the [avt] and [evt] of
    every domain of the list that is assigned to the CPU are decreased by
    0xe0000000 modulo 2^32: by exactly that much when the value is at least
    0xe0000000, while a smaller value wraps and grows by 0x20000000.  The
    order of [evt] between two such domains is preserved when both values
    lie on the same side of 0xe0000000. *)
Theorem overrun_rebase cpu s v :
  CPU_SVT s cpu = Some v →
  0xf0000000 ≤ v →
  NoDup (task_list s) →
  Forall (λ p, is_Some (heap s !! p)) (task_list s) →
  ∃ s',
    check_overrun cpu s = Some s' ∧
    CPU_SVT s' cpu = Some (v - 0xe0000000) ∧
    (∀ p d, p ∈ task_list s → heap s !! p = Some d → processor d = cpu →
       ∃ d', heap s' !! p = Some d' ∧
         avt (sched_priv d') = u32 (avt (sched_priv d) - 0xe0000000) ∧
         evt (sched_priv d') = u32 (evt (sched_priv d) - 0xe0000000) ∧
         (0xe0000000 ≤ avt (sched_priv d) ≤ UINT_MAX →
            avt (sched_priv d') = avt (sched_priv d) - 0xe0000000) ∧
         (0xe0000000 ≤ evt (sched_priv d) ≤ UINT_MAX →
            evt (sched_priv d') = evt (sched_priv d) - 0xe0000000) ∧
         (0 ≤ avt (sched_priv d) < 0xe0000000 →
            avt (sched_priv d') = avt (sched_priv d) + 0x20000000) ∧
         (0 ≤ evt (sched_priv d) < 0xe0000000 →
            evt (sched_priv d') = evt (sched_priv d) + 0x20000000)) ∧
    (∀ p1 p2 d1 d2 d1' d2',
       p1 ∈ task_list s → p2 ∈ task_list s →
       heap s !! p1 = Some d1 → heap s !! p2 = Some d2 →
       processor d1 = cpu → processor d2 = cpu →
       heap s' !! p1 = Some d1' → heap s' !! p2 = Some d2' →
       in_u32 (evt (sched_priv d1)) → in_u32 (evt (sched_priv d2)) →
       (0xe0000000 ≤ evt (sched_priv d1) ↔ 0xe0000000 ≤ evt (sched_priv d2)) →
       (evt (sched_priv d1) ≤ evt (sched_priv d2) ↔
        evt (sched_priv d1') ≤ evt (sched_priv d2'))).
Proof.
  intros Hsvt Hv Hnd Hlive.
  destruct (rebase_domains_heap cpu _ s Hnd Hlive) as (s1 & Hr & Hheap).
  destruct (rebase_domains_frame _ _ _ _ Hr) as (Hsd & _).
  unfold check_overrun. rewrite Hsvt. simpl.
  rewrite bool_decide_eq_true_2 by lia. rewrite Hr. simpl.
  eexists. split; [done|].
  assert (∀ p d, p ∈ task_list s → heap s !! p = Some d → processor d = cpu →
            heap (upd_cpu_info cpu (λ c, set_svt (svt c - 0xe0000000) c) s1) !! p
            = Some (set_sched_priv (rebase_inf (sched_priv d)) d)) as Hp.
  { intros p d Hin Hd Hcpu. unfold upd_cpu_info. rewrite heap_upd_cpu, Hheap.
    rewrite decide_True by done. rewrite Hd. simpl. unfold rebase_dom.
    by rewrite decide_True. }
  split; [|split].
  - unfold CPU_SVT, CPU_INFO in *. unfold upd_cpu_info.
    destruct (schedule_data s !! cpu) as [sd|] eqn:Hsdc; [|done].
    erewrite schedule_data_upd_cpu_eq by (by rewrite Hsd).
    simpl in *. by simplify_eq.
  - intros p d Hin Hd Hcpu. eexists. split; [by apply Hp|].
    simpl. split; [done|]. split; [done|]. unfold UINT_MAX.
    split; [intros ?; apply u32_small; lia|].
    split; [intros ?; apply u32_small; lia|].
    split; intros ?; rewrite u32_sub_wrap; lia.
  - intros p1 p2 d1 d2 d1' d2' Hin1 Hin2 Hd1 Hd2 Hc1 Hc2 Hd1' Hd2' He1 He2 Hside.
    rewrite (Hp _ _ Hin1 Hd1 Hc1) in Hd1'. rewrite (Hp _ _ Hin2 Hd2 Hc2) in Hd2'.
    simplify_eq. simpl. by apply rebase_evt_order.
Qed.

(** The overrun scenario: [svt] goes from 0xf0000000 to 0x10000000 and an
    [avt] of 0xf0000001 becomes 0x10000001. *)
Lemma overrun_rebase_witness :
  ∃ s' d',
    check_overrun 0 long_sleeper = Some s' ∧
    CPU_SVT s' 0 = Some 0x10000000 ∧
    heap s' !! 1%nat = Some d' ∧ avt (sched_priv d') = 0x10000001.
Proof.
  destruct (overrun_rebase 0 long_sleeper 0xf0000000)
    as (s' & Hc & Hsvt & Hdec & _); [reflexivity|lia| | |].
  - by apply (bool_decide_unpack _).
  - repeat apply Forall_cons_2; [..|apply Forall_nil_2]; by eexists.
  - destruct (Hdec 1%nat (guest 1 (fresh_inf 0xf0000001)))
      as (d' & Hd' & _ & _ & Ha & _); [|reflexivity|reflexivity|].
    { apply list_elem_of_here. }
    exists s', d'. split; [done|]. split; [done|]. split; [done|].
    rewrite Ha; [reflexivity|]. unfold UINT_MAX. simpl. lia.
Defined.

(** A guest that has been blocked since its virtual time was 5 is on the
    domain list: the rebase takes it from 5 to 0x20000005, which is no
    decrease, above the running guest, which it was below, and above the
    new [svt], so that the wake that follows does not bring it back to
    [svt]. *)
Lemma rebase_raises_stale_evt :
  ∃ s' dec d1' d2',
    bvt_do_schedule 1 0 long_sleeper = Some (s', dec) ∧
    CPU_SVT s' 0 = Some 0x10000001 ∧
    heap s' !! 1%nat = Some d1' ∧ heap s' !! 2%nat = Some d2' ∧
    evt (sched_priv d1') = 0x10000001 ∧
    evt (sched_priv d2') = 0x20000005 ∧
    evt (sched_priv d2') ≠ 5 - 0xe0000000 ∧
    ¬ (5 ≤ 0xf0000001 ↔ evt (sched_priv d2') ≤ evt (sched_priv d1')).
Proof.
  eexists _, _, _, _. split; [vm_compute; reflexivity|].
  do 5 (split; [vm_compute; reflexivity|]). split; [by vm_compute|].
  vm_compute. intros [H _]. apply H; [by intros ?|done].
Qed.

(** C2 (the code at the failing input).  Guests 1 and 2 stand at the
    actual virtual times 0xf0000010 and 0xf0000020 with [svt] at
    0xeffffff0; guest 1 is given a warp of 0x20000000, which lies between 0
    and its [avt]; both are woken and the idle CPU reschedules.  The scan
    selects guest 1 at [evt] 0xd0000010 with guest 2 at 0xf0000020 as
    runner-up and raises [svt] to 0xf0000010, so that the rebase runs.  It
    takes [svt] and the two [avt] down by 0xe0000000, but the [evt] of
    guest 1, which is below 0xe0000000, wraps and goes up to 0xf0000010:
    the order of the two domains is reversed, and
    [ASSERT(next_prime_inf->evt >= next_inf->evt)] is the one assertion
    that fails. *)
Theorem rebase_breaks_evt_order :
  ∃ s s' dec d1 d2 d1' d2',
    high_water_queued = Some s ∧
    CPU_SVT s 0 = Some 0xeffffff0 ∧
    heap s !! 1%nat = Some d1 ∧ heap s !! 2%nat = Some d2 ∧
    processor d1 = 0%nat ∧ processor d2 = 0%nat ∧
    avt (sched_priv d1) = 0xf0000010 ∧ warp_value (sched_priv d1) = 0x20000000 ∧
    0 ≤ warp_value (sched_priv d1) ≤ avt (sched_priv d1) ∧
    evt (sched_priv d1) = 0xd0000010 ∧ evt (sched_priv d2) = 0xf0000020 ∧
    bvt_do_schedule 0 0 s = Some (s', dec) ∧
    task (ret dec) = 1%nat ∧ next_prime dec = 2%nat ∧
    CPU_SVT s' 0 = Some 0x10000010 ∧
    heap s' !! 1%nat = Some d1' ∧ heap s' !! 2%nat = Some d2' ∧
    avt (sched_priv d1') = avt (sched_priv d1) - 0xe0000000 ∧
    evt (sched_priv d2') = evt (sched_priv d2) - 0xe0000000 ∧
    evt (sched_priv d1') = 0xf0000010 ∧
    evt (sched_priv d1') = evt (sched_priv d1) + 0x20000000 ∧
    evt (sched_priv d1) < evt (sched_priv d2) ∧
    evt (sched_priv d2') < evt (sched_priv d1') ∧
    failed dec = [ASSERT_evt_order].
Proof.
  eexists _, _, _, _, _, _, _. split; [vm_compute; reflexivity|].
  do 7 (split; [vm_compute; reflexivity|]).
  split; [by vm_compute|].
  do 2 (split; [vm_compute; reflexivity|]).
  split; [vm_compute; reflexivity|].
  do 9 (split; [vm_compute; reflexivity|]).
  split; [by vm_compute|]. split; [by vm_compute|].
  vm_compute. reflexivity.
Qed.

(** ** The steps of a reschedule *)

Lemma bvt_do_schedule_inv current now s s' dec :
  bvt_do_schedule current now s = Some (s', dec) →
  ∃ prev_d q0 sd idle_d st np s1 s2 s3 r_time a3,
    let cpu := processor prev_d in
    heap s !! current = Some prev_d ∧
    RUNQUEUE s cpu = Some q0 ∧
    Some s1 = (if is_idle_task prev_d then Some s
               else if __task_on_runqueue current q0
               then Some (deschedule current prev_d now s) else None) ∧
    schedule_data s1 !! cpu = Some sd ∧
    heap s1 !! idle sd = Some idle_d ∧
    scan_runqueue (heap s1) (runqueue (cpu_priv sd)) (scan_init (idle sd)) = Some st ∧
    next_prime_inf st = Some np ∧
    s2 = (if bool_decide (min_avt st ≠ UINT_MAX)
          then upd_cpu_info cpu (set_svt (min_avt st)) s1 else s1) ∧
    check_overrun cpu s2 = Some s3 ∧
    work_out_r_time s3 (next_inf st) np = Some (r_time, a3) ∧
    arm_warp_timer (next_inf st) now s3 = Some s' ∧
    dec = mk_decision (mk_task_slice (next_inf st) r_time) np
            (ASSERT (__task_on_runqueue current q0) ASSERT_task_on_runqueue ++
             ASSERT (negb (bool_decide (runqueue (cpu_priv sd) = [])))
               ASSERT_runqueue_not_empty ++ a3).
Proof.
  unfold bvt_do_schedule. intros H.
  destruct (heap s !! current) as [prev_d|] eqn:Hprev; [simpl in H|done].
  destruct (RUNQUEUE s (processor prev_d)) as [q0|] eqn:Hq0; [simpl in H|done].
  destruct (if is_idle_task prev_d then Some s else _) as [s1|] eqn:Hs1;
    [simpl in H|done].
  destruct (schedule_data _ !! processor prev_d) as [sd|] eqn:Hsd; [simpl in H|done].
  destruct (heap _ !! idle sd) as [idle_d|] eqn:Hidle; [simpl in H|done].
  destruct (scan_runqueue _ _ _) as [st|] eqn:Hscan; [simpl in H|done].
  destruct (next_prime_inf st) as [np|] eqn:Hnp; [simpl in H|done].
  destruct (check_overrun _ _) as [s3|] eqn:Hov; [simpl in H|done].
  destruct (work_out_r_time _ _ _) as [[r_time a3]|] eqn:Hr; [simpl in H|done].
  destruct (arm_warp_timer _ _ _) as [s4|] eqn:Harm; [simpl in H|done].
  simplify_eq. by eexists prev_d, q0, sd, idle_d, st, np, s1, _, s3, r_time, a3.
Qed.

Lemma rebase_domains_erased cpu l s s' :
  rebase_domains cpu l s = Some s' →
  ∀ h, vt_erased <$> heap s' !! h = vt_erased <$> heap s !! h.
Proof.
  revert s. induction l as [|p l IH]; intros s Hr h; simpl in Hr.
  - by simplify_eq.
  - destruct (heap s !! p) as [d|]; [simpl in Hr|done].
    rewrite (IH _ Hr h). case_decide; [|done].
    rewrite heap_upd_inf. case_decide; [subst|done].
    by destruct (heap s !! h).
Qed.

(** The overrun check touches virtual times and [svt] only. *)
Lemma check_overrun_frame cpu s s' :
  check_overrun cpu s = Some s' →
  (∀ h, vt_erased <$> heap s' !! h = vt_erased <$> heap s !! h) ∧
  (∀ c, RUNQUEUE s' c = RUNQUEUE s c) ∧
  ctx_allow s' = ctx_allow s.
Proof.
  unfold check_overrun. intros H.
  destruct (CPU_SVT s cpu) as [v|]; [simpl in H|done].
  case_bool_decide; [|by simplify_eq].
  destruct (rebase_domains _ _ _) as [s1|] eqn:Hr; [simpl in H|done].
  simplify_eq.
  destruct (rebase_domains_frame _ _ _ _ Hr) as (Hsd & _ & Hctx & _).
  split; [|split].
  - intros h. unfold upd_cpu_info. rewrite heap_upd_cpu.
    by eapply rebase_domains_erased.
  - intros c. unfold RUNQUEUE, CPU_INFO, upd_cpu_info, upd_cpu. simpl.
    rewrite Hsd, list_lookup_alter. case_decide; [subst|done].
    by destruct (schedule_data s !! c).
  - done.
Qed.

Lemma erased_fields d d' :
  vt_erased d' = vt_erased d →
  domain_id d' = domain_id d ∧ processor d' = processor d ∧
  mcu_advance (sched_priv d') = mcu_advance (sched_priv d) ∧
  warp_timer (sched_priv d') = warp_timer (sched_priv d) ∧
  unwarp_timer (sched_priv d') = unwarp_timer (sched_priv d) ∧
  is_idle_task d' = is_idle_task d.
Proof.
  destruct d as [? ? ? ? ? []], d' as [? ? ? ? ? []].
  unfold vt_erased, is_idle_task. simpl. intros H. by simplify_eq.
Qed.

(** Arming the warp timer changes that timer and nothing else. *)
Lemma arm_warp_timer_frame next now s s' :
  arm_warp_timer next now s = Some s' →
  schedule_data s' = schedule_data s ∧ ctx_allow s' = ctx_allow s ∧
  ∀ h d, heap s !! h = Some d →
    ∃ t, heap s' !! h = Some (set_sched_priv (set_warp_timer t (sched_priv d)) d) ∧
      (h ≠ next → t = warp_timer (sched_priv d)) ∧
      (h = next →
         t = if bool_decide (warp (sched_priv d) ≠ 0) && bool_decide (warpl (sched_priv d) > 0)
             then mk_ac_timer (s64 (now + warpl (sched_priv d))) true
             else warp_timer (sched_priv d)).
Proof.
  unfold arm_warp_timer. intros H.
  destruct (heap s !! next) as [next_d|] eqn:Hn; [simpl in H|done].
  assert (∀ d : domain, set_sched_priv (set_warp_timer (warp_timer (sched_priv d)) (sched_priv d)) d = d)
    as Hid by (by intros [? ? ? ? ? []]).
  destruct (_ && _) eqn:Hc; simplify_eq.
  - split; [done|]. split; [done|]. intros h d Hd.
    destruct (decide (next = h)) as [<-|Hne].
    + assert (d = next_d) as -> by congruence.
      exists (mk_ac_timer (s64 (now + warpl (sched_priv next_d))) true).
      split; [by erewrite heap_upd_inf_eq|].
      split; [done|]. intros _. by rewrite Hc.
    + eexists. rewrite heap_upd_inf_ne by done. split; [by rewrite Hid|].
      split; [done|]. by intros ->.
  - split; [done|]. split; [done|]. intros h d Hd.
    eexists. split; [by rewrite Hid|]. split; [done|].
    intros ->. assert (d = next_d) as -> by congruence. by rewrite Hc.
Qed.

(** Where the two candidates of the scan come from: each is the idle
    record the scan starts from or an entry of the queue, and the runner-up
    is not the queue entry that was selected. *)
Lemma cand_inv_step idl P st x p :
  cand_inv idl P st → x ∉ P → cand_inv idl (P ++ [x]) (scan_step st x p).
Proof.
  intros [Hn Hr] Hx.
  assert (x ∈ P ++ [x]) as Hin by (apply elem_of_app; right; by apply list_elem_of_singleton).
  assert (∀ h, h ∈ P → h ∈ P ++ [x]) as Hmono by (intros h ?; apply elem_of_app; by left).
  assert (∀ h, h ∈ P → h ≠ x) as Hfresh by (by intros h ? ->).
  unfold cand_inv.
  destruct (scan_step_candidates st x p) as (-> & -> & _ & _).
  unfold scan_pick.
  assert (∀ r, Some x = Some r → r = idl ∨ r ∈ P ++ [x] ∧ r ≠ next_inf st) as Hnew.
  { intros r [= <-]. destruct (decide (x = idl)) as [|Hne]; [by left|right].
    split; [done|]. destruct Hn as [->|Hn]; [done|]. intros ->. by apply Hx. }
  assert (∀ r, next_prime_inf st = Some r → r = idl ∨ r ∈ P ++ [x] ∧ r ≠ next_inf st)
    as Hold.
  { intros r Hnp. destruct (Hr r Hnp) as [?|[? ?]]; [by left|right]. split; auto. }
  repeat case_bool_decide; simpl.
  - split; [by right|]. intros r [= <-].
    destruct Hn as [?|Hn]; [by left|right]. split; auto.
  - split; [destruct Hn; auto|done].
  - split; [destruct Hn; auto|done].
  - split; [destruct Hn; auto|done].
Qed.

Lemma cand_inv_scan hp idl rest P st st' :
  cand_inv idl P st →
  NoDup (P ++ rest) →
  scan_runqueue hp rest st = Some st' →
  cand_inv idl (P ++ rest) st'.
Proof.
  revert P st. induction rest as [|x rest IH]; intros P st Hinv Hnd Hscan.
  - simpl in Hscan. simplify_eq. by rewrite app_nil_r.
  - simpl in Hscan. destruct (hp !! x) as [d|]; [simpl in Hscan|done].
    replace (P ++ x :: rest) with ((P ++ [x]) ++ rest) in * by by rewrite <- app_assoc.
    eapply IH; [|done|exact Hscan].
    apply cand_inv_step; [done|].
    apply NoDup_app in Hnd as (Hnd & _ & _). apply NoDup_app in Hnd as (_ & Hd & _).
    intros Hx. apply (Hd x Hx). by apply list_elem_of_singleton.
Qed.

Lemma scan_candidates hp idl q st r :
  NoDup q →
  scan_runqueue hp q (scan_init idl) = Some st →
  next_prime_inf st = Some r →
  (next_inf st = idl ∨ next_inf st ∈ q) ∧ (r = idl ∨ (r ∈ q ∧ r ≠ next_inf st)).
Proof.
  intros Hnd Hscan Hr.
  destruct (cand_inv_scan hp idl q [] (scan_init idl) st) as [Hn Hnp]; [|done|done|].
  { split; [by left|done]. }
  split; [done|]. by apply Hnp.
Qed.

Lemma erased_cpu_fields sd sd' :
  svt_erased sd' = svt_erased sd →
  idle sd' = idle sd ∧ curr sd' = curr sd ∧ s_timer sd' = s_timer sd ∧
  runqueue (cpu_priv sd') = runqueue (cpu_priv sd).
Proof.
  destruct sd as [? ? ? []], sd' as [? ? ? []]. unfold svt_erased. simpl.
  intros H. by simplify_eq.
Qed.

Lemma upd_cpu_info_svt_erased cpu f s c :
  (∀ i, runqueue (f i) = runqueue i) →
  svt_erased <$> schedule_data (upd_cpu_info cpu f s) !! c
  = svt_erased <$> schedule_data s !! c.
Proof.
  intros Hf. unfold upd_cpu_info, upd_cpu. simpl.
  rewrite list_lookup_alter. case_decide; [subst|done].
  destruct (schedule_data s !! c) as [[? ? ? i]|]; [|done]. simpl.
  unfold svt_erased, set_cpu_priv, set_svt. simpl. by rewrite Hf.
Qed.

Lemma check_overrun_cpus cpu s s' :
  check_overrun cpu s = Some s' →
  ∀ c, svt_erased <$> schedule_data s' !! c = svt_erased <$> schedule_data s !! c.
Proof.
  unfold check_overrun. intros H c.
  destruct (CPU_SVT s cpu) as [v|]; [simpl in H|done].
  case_bool_decide; [|by simplify_eq].
  destruct (rebase_domains _ _ _) as [s1|] eqn:Hr; [simpl in H|done].
  simplify_eq.
  destruct (rebase_domains_frame _ _ _ _ Hr) as (Hsd & _).
  rewrite upd_cpu_info_svt_erased by done. by rewrite Hsd.
Qed.

Lemma ctx_allow_deschedule prev prev_d now s :
  ctx_allow (deschedule prev prev_d now s) = ctx_allow s.
Proof. unfold deschedule. by destruct (runnable prev_d). Qed.

(** ** The computation of the time slice *)

Lemma work_out_r_time_cases s next np r_time a :
  work_out_r_time s next np = Some (r_time, a) →
  ∃ next_d, heap s !! next = Some next_d ∧
    if is_idle_task next_d then r_time = ctx_allow s ∧ a = []
    else ∃ np_d, heap s !! np = Some np_d ∧
      if is_idle_task np_d then r_time = s32 (10 * ctx_allow s) ∧ a = []
      else
        let next_inf := sched_priv next_d in
        let next_prime_inf := sched_priv np_d in
        mcu_advance next_inf ≠ 0 ∧
        r_time = s32 (u32 (evt next_prime_inf - evt next_inf) / mcu_advance next_inf
                      + ctx_allow s) ∧
        a = ASSERT (bool_decide (evt next_prime_inf >= evt next_inf)) ASSERT_evt_order ++
            ASSERT (bool_decide (r_time >= ctx_allow s)) ASSERT_r_time.
Proof.
  unfold work_out_r_time. intros H.
  destruct (heap s !! next) as [next_d|]; [simpl in H|done].
  exists next_d. split; [done|].
  destruct (is_idle_task next_d); [by simplify_eq|].
  destruct (heap s !! np) as [np_d|]; [simpl in H|done].
  exists np_d. split; [done|].
  destruct (is_idle_task np_d); [by simplify_eq|].
  unfold udiv32 in H. case_decide; [done|]. simpl in H. by simplify_eq.
Qed.

(** The two-guest scenario, second round: guest 1 has run for 5 ms and is
    charged 50 units, guest 2 is selected with guest 1 as runner-up, and the
    slice is [(50 - 0) / 10 + ctx_allow], that is 5 ms and 5 ns. *)
Lemma two_guests_second_round :
  ∃ s1 dec1 s2 dec2 d1,
    bvt_do_schedule 0 0 two_guests = Some (s1, dec1) ∧
    bvt_do_schedule 1 (MILLISECS 5) s1 = Some (s2, dec2) ∧
    heap s2 !! 1%nat = Some d1 ∧
    avt (sched_priv d1) = 50 ∧ evt (sched_priv d1) = 50 ∧
    task (ret dec2) = 2%nat ∧ next_prime dec2 = 1%nat ∧
    time (ret dec2) = (50 - 0) / 10 + MILLISECS 5 ∧
    failed dec2 = [].
Proof.
  eexists _, _, _, _, _. split; [vm_compute; reflexivity|].
  do 7 (split; [vm_compute; reflexivity|]). vm_compute. reflexivity.
Qed.

(** ** C5: the lower bound of the slice *)

(** The bound holds as long as the sum fits the 32-bit signed [r_time]. *)
Lemma r_time_lower_bound np_evt n_evt mcu ctx :
  n_evt ≤ np_evt → 0 < mcu →
  u32 (np_evt - n_evt) / mcu + ctx < 2 ^ 31 → - 2 ^ 31 ≤ ctx →
  ctx ≤ s32 (u32 (np_evt - n_evt) / mcu + ctx).
Proof.
  intros Hle Hmcu Hfit Hctx.
  assert (0 ≤ u32 (np_evt - n_evt) / mcu).
  { apply Z.div_pos; [|done]. pose proof (u32_range (np_evt - n_evt)) as [? _]. done. }
  rewrite s32_small; lia.
Qed.

(** C5 (the code at the failing input).  Guest 1 is given [mcu_adv = 1],
    guest 2 a warp value of 2^31 - 1; both are woken at virtual time 0 and
    the idle CPU reschedules.  Guest 1 is selected with guest 2 as runner-up,
    [next_prime.evt >= next.evt] holds and [mcu_advance] is 1, yet the
    quotient plus [ctx_allow] exceeds 2^31 - 1: [r_time] is negative and
    [ASSERT(r_time >= ctx_allow)] is the one assertion that fails. *)
Theorem slice_assertion_fails :
  ∃ s' dec next_d np_d,
    overflow_run = Some (s', dec) ∧
    task (ret dec) = 1%nat ∧ next_prime dec = 2%nat ∧
    heap s' !! 1%nat = Some next_d ∧ heap s' !! 2%nat = Some np_d ∧
    is_idle_task next_d = false ∧ is_idle_task np_d = false ∧
    evt (sched_priv next_d) = 0 ∧ evt (sched_priv np_d) = 0x80000001 ∧
    mcu_advance (sched_priv next_d) = 1 ∧ ctx_allow s' = 5000000 ∧
    time (ret dec) = -2142483647 ∧
    time (ret dec) < ctx_allow s' ∧
    failed dec = [ASSERT_r_time].
Proof.
  eexists _, _, _, _. split; [vm_compute; reflexivity|].
  repeat (split; [vm_compute; reflexivity|]). vm_compute. reflexivity.
Qed.

(** ** C3: waking a blocked domain *)

(** C3.  Waking a domain that is not on the run queue sets its [avt] to the
    CPU's [svt] when its [avt] is below [svt] or it has migrated and leaves
    it alone otherwise; recomputes [evt] from that [avt] and the warp state;
    puts the record at the head of the run queue; and then either raises
    the reschedule softirq, when the current domain is idle or the woken
    [evt] is not above the current domain's recomputed [evt], or else moves
    the armed reschedule timer to the catch-up time [r_time] when it expires
    later than that. *)
Theorem wake_blocked d now s dom sd curr_d :
  heap s !! d = Some dom →
  schedule_data s !! processor dom = Some sd →
  d ∉ runqueue (cpu_priv sd) →
  heap s !! curr sd = Some curr_d →
  mcu_advance (sched_priv curr_d) ≠ 0 →
  ∃ s' dom' curr' sd',
    bvt_wake d now s = Some s' ∧
    heap s' !! d = Some dom' ∧ heap s' !! curr sd = Some curr' ∧
    schedule_data s' !! processor dom = Some sd' ∧
    let inf := sched_priv dom in
    let inf' := sched_priv dom' in
    let cpu_svt := svt (cpu_priv sd) in
    (avt inf < cpu_svt ∨ DF_MIGRATED dom = true → avt inf' = u32 cpu_svt) ∧
    (¬ (avt inf < cpu_svt ∨ DF_MIGRATED dom = true) → avt inf' = avt inf) ∧
    evt inf' = (if decide (warp inf' ≠ 0) then u32 (avt inf' - warp_value inf') else avt inf') ∧
    runqueue (cpu_priv sd') = d :: runqueue (cpu_priv sd) ∧
    let curr_evt := calc_evt curr' (calc_avt curr' now) in
    let r_time :=
      s64 (lastschd curr' + u32 (evt inf' - curr_evt) / mcu_advance (sched_priv curr')
           + ctx_allow s) in
    if is_idle_task curr' || bool_decide (evt inf' ≤ curr_evt)
    then processor dom ∈ softirq s' ∧ s_timer sd' = s_timer sd
    else softirq s' = softirq s ∧
         s_timer sd' =
           if bool_decide (expires (s_timer sd) > r_time)
           then mk_ac_timer r_time (armed (s_timer sd))
           else s_timer sd.
Proof.
  intros Hd Hsd Hq Hcurr Hmcu.
  set (avt' := if bool_decide (avt (sched_priv dom) < svt (cpu_priv sd)) || DF_MIGRATED dom
               then u32 (svt (cpu_priv sd)) else avt (sched_priv dom)).
  set (f := λ i, set_evt (calc_evt dom avt') (set_avt avt' i)).
  set (s2 := upd_inf d f (__add_to_runqueue_head d (processor dom) s)).
  assert (heap s2 !! d = Some (set_sched_priv (f (sched_priv dom)) dom)) as Hd2.
  { unfold s2. by erewrite heap_upd_inf_eq. }
  assert (∃ curr', heap s2 !! curr sd = Some curr' ∧
            mcu_advance (sched_priv curr') = mcu_advance (sched_priv curr_d))
    as (curr' & Hcurr' & Hmcu').
  { destruct (decide (d = curr sd)) as [Heq|Hne].
    - rewrite <- Heq in *. assert (curr_d = dom) as -> by congruence.
      eexists. split; [exact Hd2|]. done.
    - exists curr_d. unfold s2. by rewrite heap_upd_inf_ne. }
  assert (schedule_data s2 !! processor dom =
            Some (set_cpu_priv (set_runqueue (d :: runqueue (cpu_priv sd)) (cpu_priv sd)) sd))
    as Hsd2.
  { unfold s2. rewrite schedule_data_upd_inf.
    unfold __add_to_runqueue_head, upd_cpu_info.
    by erewrite schedule_data_upd_cpu_eq. }
  set (curr_evt := calc_evt curr' (calc_avt curr' now)).
  set (r_time := s64 (lastschd curr' +
                      u32 (calc_evt dom avt' - curr_evt) / mcu_advance (sched_priv curr')
                      + ctx_allow s)).
  assert (bvt_wake d now s =
            Some (if is_idle_task curr' || bool_decide (calc_evt dom avt' ≤ curr_evt)
                  then cpu_raise_softirq (processor dom) s2
                  else if bool_decide (expires (s_timer sd) > r_time)
                  then upd_cpu (processor dom)
                         (λ e, set_s_timer (mod_ac_timer (s_timer e) r_time) e) s2
                  else s2)) as Hwake.
  { unfold bvt_wake. rewrite Hd. cbn [mbind option_bind]. rewrite Hsd.
    cbn [mbind option_bind].
    unfold __task_on_runqueue. rewrite bool_decide_eq_false_2 by done.
    fold avt'. fold f. fold s2. rewrite Hcurr'. cbn [mbind option_bind].
    unfold udiv32. rewrite decide_False by congruence. cbn [mbind option_bind].
    fold curr_evt. fold r_time. by repeat case_match. }
  set (dom' := set_sched_priv (f (sched_priv dom)) dom) in *.
  assert (avt (sched_priv dom) < svt (cpu_priv sd) ∨ DF_MIGRATED dom = true →
          avt (sched_priv dom') = u32 (svt (cpu_priv sd))) as A1.
  { intros Hc. change (avt (sched_priv dom')) with avt'. unfold avt'.
    destruct Hc as [?| ->]; [by rewrite bool_decide_eq_true_2|by rewrite orb_true_r]. }
  assert (¬ (avt (sched_priv dom) < svt (cpu_priv sd) ∨ DF_MIGRATED dom = true) →
          avt (sched_priv dom') = avt (sched_priv dom)) as A2.
  { intros Hc. change (avt (sched_priv dom')) with avt'. unfold avt'.
    rewrite bool_decide_eq_false_2 by tauto.
    destruct (DF_MIGRATED dom); [destruct Hc; by right|done]. }
  assert (evt (sched_priv dom') = calc_evt dom avt') as A0 by done.
  assert (calc_evt dom avt' =
          if decide (warp (sched_priv dom') ≠ 0)
          then u32 (avt (sched_priv dom') - warp_value (sched_priv dom'))
          else avt (sched_priv dom')) as A3 by done.
  clearbody dom'.
  exists (if is_idle_task curr' || bool_decide (calc_evt dom avt' ≤ curr_evt)
          then cpu_raise_softirq (processor dom) s2
          else if bool_decide (expires (s_timer sd) > r_time)
          then upd_cpu (processor dom)
                 (λ e, set_s_timer (mod_ac_timer (s_timer e) r_time) e) s2
          else s2), dom', curr'.
  cbv zeta. rewrite A0. fold curr_evt. fold r_time.
  destruct (is_idle_task curr' || bool_decide (calc_evt dom avt' ≤ curr_evt)) eqn:Hpre;
    [|destruct (bool_decide (expires (s_timer sd) > r_time)) eqn:Hexp].
  - eexists. split; [exact Hwake|].
    split; [by rewrite heap_cpu_raise_softirq|].
    split; [by rewrite heap_cpu_raise_softirq|].
    split; [exact Hsd2|]. do 4 (split; [done|]).
    split; [apply softirq_cpu_raise_softirq|done].
  - eexists. split; [exact Hwake|].
    split; [by rewrite heap_upd_cpu|]. split; [by rewrite heap_upd_cpu|].
    split; [by apply schedule_data_upd_cpu_eq|]. by do 4 (split; [done|]).
  - eexists. split; [exact Hwake|]. split; [done|]. split; [done|].
    split; [exact Hsd2|]. by do 4 (split; [done|]).
Qed.

(** Guest 2 is woken at [evt = 100] while guest 1 runs at [evt = 0]: no
    softirq is raised and the reschedule timer moves to the catch-up
    time. *)
Lemma wake_blocked_witness :
  ∃ s' dom' sd',
    bvt_wake 2 0 busy_cpu = Some s' ∧
    heap s' !! 2%nat = Some dom' ∧ schedule_data s' !! 0%nat = Some sd' ∧
    avt (sched_priv dom') = 100 ∧ evt (sched_priv dom') = 100 ∧
    runqueue (cpu_priv sd') = [2%nat; 1%nat; 0%nat] ∧
    softirq s' = ∅ ∧
    s_timer sd' = mk_ac_timer (0 + (100 - 0) / 10 + MILLISECS 5) true.
Proof.
  destruct (wake_blocked 2 0 busy_cpu (guest 2 (fresh_inf 100))
              (mk_schedule_data 1%nat 0%nat (mk_ac_timer 1000000000 true)
                 (mk_bvt_cpu_info [1%nat; 0%nat] 0))
              (guest 1 (fresh_inf 0)))
    as (s' & dom' & curr' & sd' & Hw & Hd' & Hc' & Hsd' & _ & Ha & He & Hq & Hrest);
    [reflexivity|reflexivity| |reflexivity|by vm_compute|].
  { simpl. intros [?|[?|?]%elem_of_cons]%elem_of_cons; [done|done|].
    by eapply not_elem_of_nil. }
  exists s', dom', sd'. split; [done|]. split; [done|]. split; [done|].
  assert (curr' = guest 1 (fresh_inf 0) ∧ warp (sched_priv dom') = 0) as [-> Hwarp].
  { vm_compute in Hw. injection Hw as <-.
    vm_compute in Hc'. injection Hc' as <-.
    vm_compute in Hd'. injection Hd' as <-. split; reflexivity. }
  assert (avt (sched_priv dom') = 100) as Havt.
  { rewrite Ha; [done|]. vm_compute. intros [?|?]; done. }
  rewrite Hwarp, Havt in He. simpl in He. rewrite He in Hrest.
  split; [done|]. split; [done|]. split; [exact Hq|].
  cbv zeta in Hrest.
  destruct (is_idle_task _ || _) eqn:Hcond; [by vm_compute in Hcond|].
  destruct Hrest as [Hs Ht]. split; [exact Hs|].
  rewrite Ht. vm_compute. reflexivity.
Defined.

(** ** C8: the timers of the previous domain *)

Lemma runqueue_upd_cpu_info_svt cpu v s c :
  RUNQUEUE (upd_cpu_info cpu (set_svt v) s) c = RUNQUEUE s c.
Proof.
  unfold RUNQUEUE, CPU_INFO, upd_cpu_info, upd_cpu. simpl.
  rewrite list_lookup_alter. case_decide; [subst|done].
  by destruct (schedule_data s !! c).
Qed.

Lemma runqueue_deschedule prev prev_d now s q0 :
  RUNQUEUE s (processor prev_d) = Some q0 →
  RUNQUEUE (deschedule prev prev_d now s) (processor prev_d) =
    Some (filter (λ h, h ≠ prev) q0 ++ (if runnable prev_d then [prev] else [])).
Proof.
  unfold RUNQUEUE, CPU_INFO. intros Hq.
  destruct (schedule_data s !! processor prev_d) as [sd|] eqn:Hsd; [|done].
  simpl in Hq. simplify_eq.
  unfold deschedule, __add_to_runqueue_tail, __del_from_runqueue, upd_cpu_info.
  set (s2 := upd_inf prev _ (upd_inf prev _ s)).
  assert (schedule_data s2 !! processor prev_d = Some sd) as Hsd2 by done.
  pose proof (schedule_data_upd_cpu_eq s2 (processor prev_d)
                (λ e, set_cpu_priv
                        (set_runqueue (filter (λ h, h ≠ prev) (runqueue (cpu_priv e)))
                           (cpu_priv e)) e) sd Hsd2) as Hsd3.
  destruct (runnable prev_d).
  - by rewrite (schedule_data_upd_cpu_eq _ _ _ _ Hsd3).
  - rewrite Hsd3. simpl. by rewrite app_nil_r.
Qed.

(** C8 (as amended).  In a reschedule whose previous domain is not the idle
    domain, the fold-back leaves that domain with its warp timer cancelled
    and its unwarp timer as it was, armed or not, and with the record
    re-inserted at the tail of the run queue when the domain is runnable
    and left off otherwise.  When the reschedule returns, the unwarp timer
    is still as it was, the warp timer is not armed unless the domain was
    selected again, and the queue is the one the fold-back built.
    Cancelling a timer that is not armed changes nothing. *)
Theorem fold_back_timers current now s s' dec prev_d q0 :
  bvt_do_schedule current now s = Some (s', dec) →
  heap s !! current = Some prev_d →
  RUNQUEUE s (processor prev_d) = Some q0 →
  is_idle_task prev_d = false →
  let s1 := deschedule current prev_d now s in
  let q1 := filter (λ h, h ≠ current) q0 ++ (if runnable prev_d then [current] else []) in
  (∃ d1, heap s1 !! current = Some d1 ∧
     armed (warp_timer (sched_priv d1)) = false ∧
     expires (warp_timer (sched_priv d1)) = expires (warp_timer (sched_priv prev_d)) ∧
     unwarp_timer (sched_priv d1) = unwarp_timer (sched_priv prev_d)) ∧
  RUNQUEUE s1 (processor prev_d) = Some q1 ∧
  (∃ d', heap s' !! current = Some d' ∧
     unwarp_timer (sched_priv d') = unwarp_timer (sched_priv prev_d) ∧
     (task (ret dec) ≠ current → armed (warp_timer (sched_priv d')) = false)) ∧
  RUNQUEUE s' (processor prev_d) = Some q1 ∧
  (∀ t, armed t = false → rem_ac_timer t = t).
Proof.
  intros H Hprev Hq0 Hidle s1 q1.
  pose proof (deschedule_heap _ _ now _ Hprev) as Hd1. fold s1 in Hd1.
  pose proof (runqueue_deschedule current _ now _ _ Hq0) as Hq1. fold s1 q1 in Hq1.
  assert (armed (rem_ac_timer (warp_timer (sched_priv prev_d))) = false ∧
          expires (rem_ac_timer (warp_timer (sched_priv prev_d)))
            = expires (warp_timer (sched_priv prev_d))) as [Hoff Hexp].
  { by destruct (warp_timer (sched_priv prev_d)) as [e []]. }
  split.
  { eexists. split; [exact Hd1|]. split; [exact Hoff|]. split; [exact Hexp|done]. }
  split; [done|].
  destruct (bvt_do_schedule_inv _ _ _ _ _ H)
    as (prev_d' & q0' & sd & idle_d & st & np & s1' & s2 & s3 & r_time & a3 & H').
  cbv zeta in H'.
  destruct H' as (Hprev' & _ & Hs1 & _ & _ & _ & _ & Hs2 & Hov & _ & Harm & ->).
  assert (prev_d' = prev_d) as -> by congruence.
  rewrite Hidle in Hs1. destruct (__task_on_runqueue current q0'); [|done].
  fold s1 in Hs1. assert (s1' = s1) as -> by congruence.
  destruct (check_overrun_frame _ _ _ Hov) as (Her & Hrq & _).
  destruct (arm_warp_timer_frame _ _ _ _ Harm) as (Hsd' & _ & Hheap).
  assert (heap s2 = heap s1) as Hh2.
  { rewrite Hs2. by destruct (bool_decide (min_avt st ≠ UINT_MAX)). }
  assert (∀ c, RUNQUEUE s2 c = RUNQUEUE s1 c) as Hq2.
  { intros c. rewrite Hs2. destruct (bool_decide (min_avt st ≠ UINT_MAX)); [|done].
    apply runqueue_upd_cpu_info_svt. }
  split; [|split].
  - specialize (Her current). rewrite Hh2, Hd1 in Her.
    destruct (heap s3 !! current) as [d3|] eqn:Hd3; [|done].
    cbn [fmap option_fmap option_map] in Her. apply (inj Some) in Her.
    apply erased_fields in Her as (_ & _ & _ & Hwt & Hut & _).
    destruct (Hheap _ _ Hd3) as (t & Hd' & Hother & _).
    eexists. split; [exact Hd'|]. simpl. split; [by rewrite Hut|].
    intros Hne. rewrite Hother by done. by rewrite Hwt.
  - unfold RUNQUEUE, CPU_INFO. rewrite Hsd'.
    change (RUNQUEUE s3 (processor prev_d) = Some q1). by rewrite Hrq, Hq2.
  - intros t Ht. unfold rem_ac_timer. by rewrite Ht.
Qed.

(** Guest 1 is descheduled and selected again; it ends at the tail of
    the queue with its unwarp timer untouched. *)
Lemma fold_back_timers_witness :
  ∃ s' dec d',
    bvt_do_schedule 1 0 busy_cpu = Some (s', dec) ∧
    task (ret dec) = 1%nat ∧
    heap s' !! 1%nat = Some d' ∧
    unwarp_timer (sched_priv d') = timer_off ∧
    RUNQUEUE s' 0 = Some [0%nat; 1%nat].
Proof.
  assert (∃ s' dec, bvt_do_schedule 1 0 busy_cpu = Some (s', dec)) as (s' & dec & H)
    by (vm_compute; by eexists _, _).
  destruct (fold_back_timers 1 0 busy_cpu s' dec (guest 1 (fresh_inf 0)) [1%nat; 0%nat] H)
    as (_ & _ & (d' & Hd' & Hu & _) & Hq & _); [reflexivity..|].
  exists s', dec, d'. split; [done|].
  split; [vm_compute in H; by injection H as <- <-|].
  split; [done|]. split; [exact Hu|exact Hq].
Defined.

(** Against C8 as first stated: the unwarp timer of the previous domain is
    still armed after the reschedule. *)
Lemma unwarp_timer_survives_fold_back :
  ∃ s' dec d',
    bvt_do_schedule 1 0 unwarp_pending = Some (s', dec) ∧
    heap unwarp_pending !! 1%nat
      = Some (guest 1 (set_unwarp_timer (mk_ac_timer 500 true)
                         (set_warpback 1 (fresh_inf 0)))) ∧
    heap s' !! 1%nat = Some d' ∧
    unwarp_timer (sched_priv d') = mk_ac_timer 500 true ∧
    armed (unwarp_timer (sched_priv d')) = true.
Proof.
  eexists _, _, _. split; [vm_compute; reflexivity|].
  split; [reflexivity|]. split; [vm_compute; reflexivity|].
  split; reflexivity.
Qed.

(** ** A reschedule always produces a result *)

Lemma scan_runqueue_total hp q st :
  Forall (λ h, is_Some (hp !! h)) q → is_Some (scan_runqueue hp q st).
Proof.
  revert st. induction q as [|x q IH]; intros st Hlive; [done|].
  apply Forall_cons in Hlive as [[d Hd] Hlive]. simpl. rewrite Hd. simpl. by apply IH.
Qed.

Lemma scan_step_next_prime st x p :
  (next_prime_inf st = None → next_prime_evt st = UINT_MAX) →
  is_Some (next_prime_inf (scan_step st x p)).
Proof.
  intros Hst. destruct (scan_step_candidates st x p) as (_ & -> & _ & _).
  unfold scan_pick. repeat case_bool_decide; simpl; try done.
  destruct (next_prime_inf st); [done|]. by specialize (Hst eq_refl).
Qed.

Lemma scan_next_prime_some hp q st st' :
  q ≠ [] →
  (next_prime_inf st = None → next_prime_evt st = UINT_MAX) →
  scan_runqueue hp q st = Some st' →
  is_Some (next_prime_inf st').
Proof.
  revert st. induction q as [|x q IH]; intros st Hne Hst Hscan; [done|].
  simpl in Hscan. destruct (hp !! x) as [d|]; [simpl in Hscan|done].
  pose proof (scan_step_next_prime st x (sched_priv d) Hst) as Hsome.
  destruct q as [|y q]; [simpl in Hscan; by simplify_eq|].
  eapply IH; [done| |exact Hscan].
  intros Hnone. rewrite Hnone in Hsome. by destruct Hsome.
Qed.

Lemma rebase_domains_total cpu l s :
  Forall (λ p, is_Some (heap s !! p)) l → is_Some (rebase_domains cpu l s).
Proof.
  revert s. induction l as [|p l IH]; intros s Hlive; [done|].
  apply Forall_cons in Hlive as [[d Hd] Hlive]. simpl. rewrite Hd. simpl.
  apply IH. eapply Forall_impl; [exact Hlive|]. intros h Hh. simpl in *.
  case_decide; [|done]. rewrite heap_upd_inf. case_decide; [subst|done].
  by rewrite Hd.
Qed.

(** The fold-back keeps every record live and every weight as it was. *)
Lemma deschedule_live prev prev_d now s h :
  heap s !! prev = Some prev_d →
  ∃ f, heap (deschedule prev prev_d now s) !! h = f <$> heap s !! h ∧
       ∀ d, mcu_advance (sched_priv (f d)) = mcu_advance (sched_priv d) ∧
            is_idle_task (f d) = is_idle_task d.
Proof.
  intros Hp. destruct (decide (prev = h)) as [<-|Hne].
  - exists (λ d, set_sched_priv
                   (set_warp_timer (rem_ac_timer (warp_timer (sched_priv d)))
                      (set_evt (calc_evt prev_d (calc_avt prev_d now))
                         (set_avt (calc_avt prev_d now) (sched_priv d)))) d).
    rewrite Hp. split; [by apply deschedule_heap|done].
  - exists id. rewrite deschedule_heap_ne by done. split; [by rewrite option_fmap_id|done].
Qed.

(** Under the standing assumptions the reschedule neither faults nor runs
    out of candidates: with the idle domain queued it always returns a
    domain and a slice. *)
Theorem bvt_do_schedule_total current now s :
  sched_wf current s → ∃ s' dec, bvt_do_schedule current now s = Some (s', dec).
Proof.
  intros (prev_d & sd & idle_d & Hprev & Hsd & Hidl & Hidle & Hcur & Hidq & Hnd
          & Hlive & Htasks & Hmcu).
  unfold bvt_do_schedule. rewrite Hprev. cbn [mbind option_bind].
  assert (RUNQUEUE s (processor prev_d) = Some (runqueue (cpu_priv sd))) as Hq0.
  { unfold RUNQUEUE, CPU_INFO. by rewrite Hsd. }
  rewrite Hq0. cbn [mbind option_bind].
  unfold __task_on_runqueue at 2. rewrite (bool_decide_eq_true_2 _ Hcur).
  set (s1 := if is_idle_task prev_d then s else deschedule current prev_d now s).
  replace (if is_idle_task prev_d then Some s else Some (deschedule current prev_d now s))
    with (Some s1) by (unfold s1; by destruct (is_idle_task prev_d)).
  cbn [mbind option_bind].
  (* the state after the fold-back *)
  assert (∀ h, ∃ f, heap s1 !! h = f <$> heap s !! h ∧
            ∀ d, mcu_advance (sched_priv (f d)) = mcu_advance (sched_priv d) ∧
                 is_idle_task (f d) = is_idle_task d) as Hheap1.
  { intros h. unfold s1. destruct (is_idle_task prev_d).
    - exists id. by rewrite option_fmap_id.
    - by apply deschedule_live. }
  assert (∀ h, is_Some (heap s !! h) → is_Some (heap s1 !! h)) as Hlive1.
  { intros h [d Hd]. destruct (Hheap1 h) as (f & -> & _). by rewrite Hd. }
  assert (∃ q1, schedule_data s1 !! processor prev_d
                  = Some (set_cpu_priv (set_runqueue q1 (cpu_priv sd)) sd) ∧
            q1 ≠ [] ∧ NoDup q1 ∧ Forall (λ h, is_Some (heap s !! h)) q1)
    as (q1 & Hsd1 & Hne1 & Hnd1 & Hlq1).
  { unfold s1. destruct (is_idle_task prev_d) eqn:Hpi.
    - exists (runqueue (cpu_priv sd)). split; [by destruct sd as [? ? ? []]|].
      split; [by intros Heq; rewrite Heq in Hcur; apply elem_of_nil in Hcur|done].
    - exists (filter (λ h, h ≠ current) (runqueue (cpu_priv sd))
              ++ (if runnable prev_d then [current] else [])).
      split.
      { unfold deschedule, __add_to_runqueue_tail, __del_from_runqueue, upd_cpu_info.
        set (s2 := upd_inf current _ (upd_inf current _ s)).
        assert (schedule_data s2 !! processor prev_d = Some sd) as Hsd2 by done.
        destruct (runnable prev_d).
        - by rewrite (schedule_data_upd_cpu_eq _ _ _ _
                        (schedule_data_upd_cpu_eq _ _ _ _ Hsd2)).
        - rewrite (schedule_data_upd_cpu_eq _ _ _ _ Hsd2). simpl.
          by rewrite app_nil_r. }
      assert (idle sd ≠ current) as Hic.
      { intros Heq. rewrite Heq in Hidl. congruence. }
      assert (idle sd ∈ filter (λ h, h ≠ current) (runqueue (cpu_priv sd))) as Hif.
      { by apply list_elem_of_filter. }
      split; [|split].
      + intros Heq. apply app_eq_nil in Heq as [Heq _]. rewrite Heq in Hif.
        by apply elem_of_nil in Hif.
      + apply NoDup_app. split; [by apply NoDup_filter|]. split.
        * intros h [Hh _]%list_elem_of_filter Hin.
          destruct (runnable prev_d); [|by apply elem_of_nil in Hin].
          by apply list_elem_of_singleton in Hin.
        * destruct (runnable prev_d); [apply NoDup_singleton|apply NoDup_nil_2].
      + apply Forall_app. split.
        { apply Forall_forall. intros h [_ Hh]%list_elem_of_filter.
          by eapply Forall_forall in Hlive. }
        destruct (runnable prev_d); [|done]. apply Forall_singleton. by eexists. }
  rewrite Hsd1. cbn [mbind option_bind].
  change (idle (set_cpu_priv _ sd)) with (idle sd).
  change (runqueue (cpu_priv (set_cpu_priv (set_runqueue q1 (cpu_priv sd)) sd))) with q1.
  destruct (Hlive1 (idle sd)) as [idle1 Hidl1]; [by eexists|].
  rewrite Hidl1. cbn [mbind option_bind].
  destruct (scan_runqueue_total (heap s1) q1 (scan_init (idle sd))) as [st Hscan].
  { eapply Forall_impl; [exact Hlq1|]. by intros h ?%Hlive1. }
  rewrite Hscan. cbn [mbind option_bind].
  destruct (scan_next_prime_some _ _ (scan_init (idle sd)) _ Hne1 (λ _, eq_refl) Hscan)
    as [np Hnp].
  rewrite Hnp. cbn [mbind option_bind].
  destruct (scan_candidates _ _ _ _ _ Hnd1 Hscan Hnp) as [Hnin Hnpin].
  set (s2 := if bool_decide (min_avt st ≠ UINT_MAX)
             then upd_cpu_info (processor prev_d) (set_svt (min_avt st)) s1 else s1).
  assert (heap s2 = heap s1) as Hh2.
  { unfold s2. by destruct (bool_decide (min_avt st ≠ UINT_MAX)). }
  assert (task_list s2 = task_list s) as Ht2.
  { unfold s2, s1, deschedule.
    by destruct (bool_decide (min_avt st ≠ UINT_MAX)), (is_idle_task prev_d),
      (runnable prev_d). }
  assert (is_Some (check_overrun (processor prev_d) s2)) as [s3 Hov].
  { unfold check_overrun.
    assert (is_Some (CPU_SVT s2 (processor prev_d))) as [v ->].
    { unfold CPU_SVT, CPU_INFO, s2. destruct (bool_decide (min_avt st ≠ UINT_MAX)).
      - unfold upd_cpu_info. by erewrite schedule_data_upd_cpu_eq.
      - by rewrite Hsd1. }
    cbn [mbind option_bind]. case_bool_decide; [|done].
    destruct (rebase_domains_total (processor prev_d) (task_list s2) s2) as [s' ->]; [|done].
    rewrite Ht2, Hh2. eapply Forall_impl; [exact Htasks|]. by intros h ?%Hlive1. }
  rewrite Hov. cbn [mbind option_bind].
  destruct (check_overrun_frame _ _ _ Hov) as (Her & _ & _).
  assert (∀ h d, heap s !! h = Some d →
            ∃ d3, heap s3 !! h = Some d3 ∧
              mcu_advance (sched_priv d3) = mcu_advance (sched_priv d) ∧
              is_idle_task d3 = is_idle_task d) as Hheap3.
  { intros h d Hd. specialize (Her h). rewrite Hh2 in Her.
    destruct (Hheap1 h) as (f & Hf & Hff). rewrite Hf, Hd in Her.
    destruct (heap s3 !! h) as [d3|]; [|done].
    cbn [fmap option_fmap option_map] in Her. apply (inj Some) in Her.
    apply erased_fields in Her as (_ & _ & Hm & _ & _ & Hi).
    exists d3. split; [done|]. destruct (Hff d) as [Hm' Hi'].
    by rewrite Hm, Hi, Hm', Hi'. }
  assert (∀ h, h = idle sd ∨ h ∈ q1 → ∃ d d3, heap s !! h = Some d ∧ heap s3 !! h = Some d3 ∧
            mcu_advance (sched_priv d3) ≠ 0) as Hcand.
  { intros h Hh. assert (is_Some (heap s !! h)) as [d Hd].
    { destruct Hh as [->|Hin]; [by eexists|]. by eapply Forall_forall in Hlq1. }
    destruct (Hheap3 _ _ Hd) as (d3 & Hd3 & Hm & _).
    exists d, d3. split; [done|]. split; [done|]. rewrite Hm. by eapply Hmcu. }
  destruct (Hcand (next_inf st) Hnin) as (nd & nd3 & _ & Hnd3 & Hnm).
  destruct (Hcand np) as (pd & pd3 & _ & Hpd3 & _); [by destruct Hnpin as [?|[? _]]; auto|].
  assert (is_Some (work_out_r_time s3 (next_inf st) np)) as [[r_time a3] Hr].
  { unfold work_out_r_time. rewrite Hnd3. cbn [mbind option_bind].
    destruct (is_idle_task nd3); [done|]. rewrite Hpd3. cbn [mbind option_bind].
    destruct (is_idle_task pd3); [done|].
    unfold udiv32. by rewrite decide_False. }
  rewrite Hr. cbn [mbind option_bind].
  assert (is_Some (arm_warp_timer (next_inf st) now s3)) as [s4 Harm].
  { unfold arm_warp_timer. rewrite Hnd3. cbn [mbind option_bind]. by destruct (_ && _). }
  fold s2. rewrite Harm. cbn [mbind option_bind]. by eexists _, _.
Qed.

(** The standing assumptions hold of the two-guest configuration. *)
Lemma sched_wf_two_guests : sched_wf 0 two_guests.
Proof.
  exists idle_dom, (mk_schedule_data 0%nat 0%nat timer_off
                      (mk_bvt_cpu_info [1%nat; 2%nat; 0%nat] 0)), idle_dom.
  do 4 (split; [reflexivity|]). simpl.
  split; [by apply (bool_decide_unpack _)|].
  split; [by apply (bool_decide_unpack _)|].
  split; [by apply (bool_decide_unpack _)|].
  split; [repeat apply Forall_cons_2; [..|apply Forall_nil_2]; by eexists|].
  split; [repeat apply Forall_cons_2; [..|apply Forall_nil_2]; by eexists|].
  intros h d Hd.
  repeat (apply lookup_insert_Some in Hd as [[<- <-]|[_ Hd]]; [by vm_compute|]).
  by rewrite lookup_empty in Hd.
Qed.


(** * Further properties of the scheduler *)

Lemma MCU_value : MCU = 100000 ∧ u32 MCU = 100000.
Proof. split; reflexivity. Qed.

Lemma s64_small z : - 2 ^ 63 ≤ z < 2 ^ 63 → s64 z = z.
Proof. intros. unfold s64. rewrite Z.mod_small; lia. Qed.

(** ** Charging the run time: [calc_avt] *)

(** X1.  A run of [e] nanoseconds, [e] being the 32-bit difference between
    [now] and the time the domain was last scheduled, is charged the number
    of 100 microsecond units rounded up, as long as [e] is at most
    [2^32 - MCU]: the charge covers the run and exceeds it by less than one
    unit, and a run of length zero is charged nothing. *)
Theorem calc_avt_rounds_up d now :
  u32 (now - lastschd d) ≤ 2 ^ 32 - MCU →
  ∃ mcus,
    calc_avt d now = u32 (avt (sched_priv d) + mcus) ∧
    u32 (now - lastschd d) ≤ mcus * MCU < u32 (now - lastschd d) + MCU ∧
    (u32 (now - lastschd d) = 0 → mcus = 0).
Proof.
  destruct MCU_value as [HM HuM]. rewrite HM. intros He.
  pose proof (u32_range (now - lastschd d)) as [Hlo _].
  set (e := u32 (now - lastschd d)) in *.
  exists ((e + 100000 - 1) / 100000).
  split.
  { unfold calc_avt. fold e. rewrite HM, (u32_small 100000) by lia.
    by rewrite (u32_small (e + 100000 - 1)) by lia. }
  pose proof (Z.div_mod (e + 100000 - 1) 100000 ltac:(lia)) as Hdm.
  pose proof (Z.mod_pos_bound (e + 100000 - 1) 100000 ltac:(lia)) as Hmod.
  split; [lia|].
  intros ->. by apply Z.div_small.
Qed.

(** The accounting scenario: 5 ms of run time are charged 50 units. *)
Lemma calc_avt_rounds_up_witness :
  calc_avt (guest 1 (fresh_inf 0)) (MILLISECS 5) = 50.
Proof.
  destruct (calc_avt_rounds_up (guest 1 (fresh_inf 0)) (MILLISECS 5))
    as (mcus & -> & Hb & _); [by vm_compute|].
  destruct MCU_value as [HM _]. rewrite HM in Hb.
  change (u32 (MILLISECS 5 - lastschd (guest 1 (fresh_inf 0)))) with 5000000 in Hb.
  assert (mcus = 50) as -> by lia. reflexivity.
Defined.

(** X2.  Beyond that bound the rounding addition wraps: a run whose 32-bit
    length exceeds [2^32 - MCU] is charged nothing at all. *)
Theorem calc_avt_long_run_uncharged d now :
  2 ^ 32 - MCU < u32 (now - lastschd d) →
  calc_avt d now = u32 (avt (sched_priv d)).
Proof.
  destruct MCU_value as [HM HuM]. rewrite HM. intros He.
  pose proof (u32_range (now - lastschd d)) as [_ Hhi]. unfold UINT_MAX in Hhi.
  unfold calc_avt. rewrite HM, (u32_small 100000) by lia.
  set (e := u32 (now - lastschd d)) in *.
  assert (u32 (e + 100000 - 1) = e + 100000 - 1 - 2 ^ 32) as ->.
  { unfold u32. symmetry. apply Z.mod_unique with (q := 1); lia. }
  rewrite Z.div_small by lia. by rewrite Z.add_0_r.
Qed.

Lemma calc_avt_long_run_uncharged_witness :
  calc_avt (guest 1 (fresh_inf 7)) (2 ^ 32 - 1) = 7.
Proof.
  rewrite (calc_avt_long_run_uncharged (guest 1 (fresh_inf 7)) (2 ^ 32 - 1));
    by vm_compute.
Defined.


(** ** The control interface: [bvt_adjdom] and [bvt_ctl] *)

(** X3.  Parameters that fit their fields survive a round trip: after a
    successful request to set them, a request to get the parameters of the
    same domain returns exactly the five values that were set, and does not
    change the state. *)
Theorem adjdom_put_get p prm junk s d :
  heap s !! p = Some d →
  0 < mcu_adv prm ≤ UINT_MAX →
  0 ≤ p_warpback prm < 2 ^ 31 →
  - 2 ^ 31 ≤ warpvalue prm < 2 ^ 31 →
  - 2 ^ 63 ≤ p_warpl prm < 2 ^ 63 →
  - 2 ^ 63 ≤ p_warpu prm < 2 ^ 63 →
  ∃ s1,
    bvt_adjdom p (mk_sched_adjdom_cmd SCHED_INFO_PUT prm) s
      = Some (0, mk_sched_adjdom_cmd SCHED_INFO_PUT prm, s1) ∧
    bvt_adjdom p (mk_sched_adjdom_cmd SCHED_INFO_GET junk) s1
      = Some (0, mk_sched_adjdom_cmd SCHED_INFO_GET prm, s1).
Proof.
  intros Hd Hm Hb Hv Hl Hu. unfold UINT_MAX in Hm.
  eexists. split.
  - unfold bvt_adjdom. rewrite decide_True by done. rewrite Hd.
    cbn [mbind option_bind direction params].
    rewrite (u32_small (mcu_adv prm)) by lia.
    rewrite decide_False by lia. reflexivity.
  - unfold bvt_adjdom. rewrite decide_False by done. rewrite decide_True by done.
    erewrite heap_upd_inf_eq by done.
    cbn [mbind option_bind direction params sched_priv set_sched_priv].
    destruct prm as [m b v l u]. simpl in *.
    rewrite (u32_small b), (s32_small b), (u32_small b), (s32_small v), (s64_small l),
      (s64_small u) by lia.
    reflexivity.
Qed.

Lemma adjdom_put_get_witness :
  ∃ s1,
    bvt_adjdom 1 (mk_sched_adjdom_cmd SCHED_INFO_PUT (mk_bvt_adjdom_params 3 1 100 5 6))
      two_guests
    = Some (0, mk_sched_adjdom_cmd SCHED_INFO_PUT (mk_bvt_adjdom_params 3 1 100 5 6), s1) ∧
    bvt_adjdom 1 (mk_sched_adjdom_cmd SCHED_INFO_GET (mk_bvt_adjdom_params 0 0 0 0 0)) s1
    = Some (0, mk_sched_adjdom_cmd SCHED_INFO_GET (mk_bvt_adjdom_params 3 1 100 5 6), s1).
Proof.
  apply (adjdom_put_get 1 (mk_bvt_adjdom_params 3 1 100 5 6)
           (mk_bvt_adjdom_params 0 0 0 0 0) two_guests (guest 1 (fresh_inf 0)));
    [reflexivity|unfold UINT_MAX; simpl; lia|simpl; lia..].
Defined.

(** X4.  Whatever the request, [bvt_adjdom] changes nothing but the five
    parameters and the [warp] flag of the one domain: the virtual times and
    the two timers of that domain, every other domain, the run queues,
    [svt], [ctx_allow] and the pending softirqs are as before, so that a new
    warp takes effect only when [evt] is next recomputed.  A request that
    does not set parameters leaves the whole state as it is. *)
Theorem adjdom_frame p cmd s r cmd' s' :
  bvt_adjdom p cmd s = Some (r, cmd', s') →
  schedule_data s' = schedule_data s ∧ task_list s' = task_list s ∧
  ctx_allow s' = ctx_allow s ∧ softirq s' = softirq s ∧
  (∀ h, h ≠ p → heap s' !! h = heap s !! h) ∧
  (∀ d, heap s !! p = Some d →
     ∃ d', heap s' !! p = Some d' ∧
       avt (sched_priv d') = avt (sched_priv d) ∧
       evt (sched_priv d') = evt (sched_priv d) ∧
       warp_timer (sched_priv d') = warp_timer (sched_priv d) ∧
       unwarp_timer (sched_priv d') = unwarp_timer (sched_priv d) ∧
       set_sched_priv (sched_priv d) d' = d) ∧
  (direction cmd ≠ SCHED_INFO_PUT → s' = s).
Proof.
  assert (∀ d : domain, set_sched_priv (sched_priv d) d = d) as Hid
    by (by intros [? ? ? ? ? ?]).
  assert (s' = s →
          schedule_data s' = schedule_data s ∧ task_list s' = task_list s ∧
          ctx_allow s' = ctx_allow s ∧ softirq s' = softirq s ∧
          (∀ h, h ≠ p → heap s' !! h = heap s !! h) ∧
          (∀ d, heap s !! p = Some d →
             ∃ d', heap s' !! p = Some d' ∧
               avt (sched_priv d') = avt (sched_priv d) ∧
               evt (sched_priv d') = evt (sched_priv d) ∧
               warp_timer (sched_priv d') = warp_timer (sched_priv d) ∧
               unwarp_timer (sched_priv d') = unwarp_timer (sched_priv d) ∧
               set_sched_priv (sched_priv d) d' = d) ∧
          (direction cmd ≠ SCHED_INFO_PUT → s' = s)) as Hsame.
  { intros ->. do 5 (split; [done|]). split; [|done].
    intros d Hd. exists d. by rewrite Hid. }
  unfold bvt_adjdom. intros H.
  destruct (decide (direction cmd = SCHED_INFO_PUT)) as [Hput|Hput].
  - destruct (heap s !! p) as [d0|] eqn:Hd0; [|done].
    cbn [mbind option_bind] in H.
    destruct (decide (u32 (mcu_adv (params cmd)) = 0)); [apply Hsame; by simplify_eq|].
    injection H as <- <- <-.
    do 4 (split; [done|]).
    split; [intros h Hne; by rewrite heap_upd_inf_ne|].
    split; [|done].
    intros d Hd. assert (d = d0) as -> by congruence.
    eexists. split; [by apply heap_upd_inf_eq|]. simpl.
    do 4 (split; [done|]). by destruct d0.
  - destruct (decide (direction cmd = SCHED_INFO_GET)).
    + destruct (heap s !! p) as [d0|]; [|done]. simpl in H. apply Hsame.
      by simplify_eq.
    + apply Hsame. by simplify_eq.
Qed.

Lemma adjdom_frame_witness :
  ∃ s' d',
    bvt_adjdom 2 wide_warp two_guests = Some (0, wide_warp, s') ∧
    heap s' !! 2%nat = Some d' ∧
    warp_value (sched_priv d') = 0x7fffffff ∧ evt (sched_priv d') = 0 ∧
    schedule_data s' = schedule_data two_guests.
Proof.
  assert (∃ s', bvt_adjdom 2 wide_warp two_guests = Some (0, wide_warp, s')) as [s' H]
    by (vm_compute; by eexists).
  destruct (adjdom_frame _ _ _ _ _ _ H) as (Hsd & _ & _ & _ & _ & Hp & _).
  destruct (Hp (guest 2 (fresh_inf 0)) eq_refl) as (d' & Hd' & _ & He & _).
  exists s', d'. split; [done|]. split; [done|].
  split; [|by split].
  vm_compute in H. injection H as <-. vm_compute in Hd'. by injection Hd' as <-.
Defined.

Lemma u32_s32 z : u32 (s32 z) = u32 z.
Proof.
  unfold u32, s32. rewrite Zminus_mod_idemp_l. f_equal. lia.
Qed.

(** X5.  [bvt_ctl] always returns 0.  A request to set the allowance to a
    value [v] of the request's unsigned 32-bit field stores it in the signed
    32-bit [ctx_allow], as [v] below 2^31 and as [v - 2^32] from there on,
    and touches neither a domain nor a run queue; any later request that is
    not a set reports [v] again and leaves the state alone. *)
Theorem bvt_ctl_put_get v dir junk s :
  dir ≠ SCHED_INFO_PUT →
  0 ≤ v ≤ UINT_MAX →
  ∃ s1,
    bvt_ctl_op (mk_sched_ctl_cmd SCHED_INFO_PUT (mk_bvt_ctl v)) s
      = (0, mk_sched_ctl_cmd SCHED_INFO_PUT (mk_bvt_ctl v), s1) ∧
    ctx_allow s1 = (if bool_decide (v < 2 ^ 31) then v else v - 2 ^ 32) ∧
    heap s1 = heap s ∧ schedule_data s1 = schedule_data s ∧
    task_list s1 = task_list s ∧ softirq s1 = softirq s ∧
    bvt_ctl_op (mk_sched_ctl_cmd dir (mk_bvt_ctl junk)) s1
      = (0, mk_sched_ctl_cmd dir (mk_bvt_ctl v), s1).
Proof.
  intros Hdir Hv. unfold UINT_MAX in Hv. eexists. split; [reflexivity|]. split.
  { simpl. case_bool_decide.
    - apply s32_small. lia.
    - unfold s32.
      assert ((v + 2 ^ 31) mod 2 ^ 32 = v - 2 ^ 31) as ->; [|lia].
      symmetry. apply Z.mod_unique with (q := 1); lia. }
  do 4 (split; [done|]).
  unfold bvt_ctl_op. rewrite decide_False by done. simpl.
  by rewrite u32_s32, u32_small by lia.
Qed.

(** The largest value of the field is stored as -1 and read back as
    itself. *)
Lemma bvt_ctl_put_get_witness :
  ∃ s1,
    bvt_ctl_op (mk_sched_ctl_cmd SCHED_INFO_PUT (mk_bvt_ctl 0xffffffff)) two_guests
      = (0, mk_sched_ctl_cmd SCHED_INFO_PUT (mk_bvt_ctl 0xffffffff), s1) ∧
    ctx_allow s1 = -1 ∧
    bvt_ctl_op (mk_sched_ctl_cmd SCHED_INFO_GET (mk_bvt_ctl 0)) s1
      = (0, mk_sched_ctl_cmd SCHED_INFO_GET (mk_bvt_ctl 4294967295), s1).
Proof.
  destruct (bvt_ctl_put_get 0xffffffff SCHED_INFO_GET 0 two_guests)
    as (s1 & H1 & Hc & _ & _ & _ & _ & H2); [done|unfold UINT_MAX; lia|].
  exists s1. split; [exact H1|]. split; [exact Hc|exact H2].
Defined.

(** ** Waking and sleeping *)

Lemma runqueue_upd_cpu cpu f s c :
  RUNQUEUE (upd_cpu cpu f s) c =
    if decide (cpu = c)
    then (λ sd, runqueue (cpu_priv (f sd))) <$> schedule_data s !! c
    else RUNQUEUE s c.
Proof.
  unfold RUNQUEUE, CPU_INFO, upd_cpu. simpl. rewrite list_lookup_alter.
  case_decide; [subst|done]. by destruct (schedule_data s !! c).
Qed.

Lemma cpu_svt_upd_cpu cpu f s c :
  (∀ sd, svt (cpu_priv (f sd)) = svt (cpu_priv sd)) →
  CPU_SVT (upd_cpu cpu f s) c = CPU_SVT s c.
Proof.
  intros Hf. unfold CPU_SVT, CPU_INFO, upd_cpu. simpl. rewrite list_lookup_alter.
  case_decide; [subst|done]. destruct (schedule_data s !! c); [|done]. simpl.
  by rewrite Hf.
Qed.

(** The state a wake leaves when the domain was not queued. *)
Lemma bvt_wake_shape d now s s' dom sd :
  heap s !! d = Some dom →
  schedule_data s !! processor dom = Some sd →
  d ∉ runqueue (cpu_priv sd) →
  bvt_wake d now s = Some s' →
  (∀ c, RUNQUEUE s' c =
        if decide (processor dom = c) then Some (d :: runqueue (cpu_priv sd))
        else RUNQUEUE s c) ∧
  (∀ c, CPU_SVT s' c = CPU_SVT s c) ∧
  task_list s' = task_list s ∧ ctx_allow s' = ctx_allow s.
Proof.
  intros Hd Hsd Hq Hw. unfold bvt_wake in Hw.
  rewrite Hd in Hw. cbn [mbind option_bind] in Hw. rewrite Hsd in Hw.
  cbn [mbind option_bind] in Hw.
  unfold __task_on_runqueue in Hw. rewrite bool_decide_eq_false_2 in Hw by done.
  destruct (_ !! curr sd) as [curr_d|]; [cbn [mbind option_bind] in Hw|done].
  destruct (udiv32 _ _) as [quot|]; [cbn [mbind option_bind] in Hw|done].
  set (s2 := upd_inf d _ (__add_to_runqueue_head d (processor dom) s)) in Hw.
  assert (∀ c, RUNQUEUE s2 c =
               if decide (processor dom = c) then Some (d :: runqueue (cpu_priv sd))
               else RUNQUEUE s c) as Hq2.
  { intros c. change (RUNQUEUE s2 c)
      with (RUNQUEUE (upd_cpu (processor dom)
                        (λ e, set_cpu_priv (set_runqueue (d :: runqueue (cpu_priv e))
                                              (cpu_priv e)) e) s) c).
    rewrite runqueue_upd_cpu. destruct (decide (processor dom = c)) as [<-|]; [|done].
    by rewrite Hsd. }
  assert (∀ c, CPU_SVT s2 c = CPU_SVT s c) as Hv2.
  { intros c. change (CPU_SVT s2 c)
      with (CPU_SVT (upd_cpu (processor dom)
                       (λ e, set_cpu_priv (set_runqueue (d :: runqueue (cpu_priv e))
                                             (cpu_priv e)) e) s) c).
    by apply cpu_svt_upd_cpu. }
  destruct (is_idle_task curr_d || _);
    [|destruct (bool_decide (expires (s_timer sd) > _))]; simplify_eq.
  - split; [exact Hq2|]. split; [exact Hv2|]. split; reflexivity.
  - split; [|split; [|split; reflexivity]].
    + intros c. rewrite runqueue_upd_cpu. specialize (Hq2 c).
      destruct (decide (processor dom = c)) as [<-|]; [|exact Hq2].
      unfold RUNQUEUE, CPU_INFO in Hq2.
      destruct (schedule_data s2 !! processor dom); [|done]. exact Hq2.
    + intros c. rewrite cpu_svt_upd_cpu by done. apply Hv2.
  - split; [exact Hq2|]. split; [exact Hv2|]. split; reflexivity.
Qed.

(** X6.  A wake is idempotent: once a wake has returned, waking the same
    domain again, at any time, does nothing. *)
Theorem wake_idempotent d now now' s s' :
  bvt_wake d now s = Some s' → bvt_wake d now' s' = Some s'.
Proof.
  intros Hw.
  destruct (heap s !! d) as [dom|] eqn:Hd; [|by unfold bvt_wake in Hw; rewrite Hd in Hw].
  destruct (schedule_data s !! processor dom) as [sd|] eqn:Hsd;
    [|by unfold bvt_wake in Hw; rewrite Hd in Hw; simpl in Hw; rewrite Hsd in Hw].
  destruct (decide (d ∈ runqueue (cpu_priv sd))) as [Hq|Hq].
  - assert (s' = s) as ->.
    { unfold bvt_wake in Hw. rewrite Hd in Hw. cbn [mbind option_bind] in Hw.
      rewrite Hsd in Hw. cbn [mbind option_bind] in Hw.
      unfold __task_on_runqueue in Hw. rewrite bool_decide_eq_true_2 in Hw by done.
      by simplify_eq. }
    unfold bvt_wake. rewrite Hd. cbn [mbind option_bind]. rewrite Hsd.
    cbn [mbind option_bind]. unfold __task_on_runqueue.
    by rewrite bool_decide_eq_true_2.
  - pose proof (bvt_wake_heap _ _ _ _ _ _ Hd Hsd Hq Hw d) as Hh. cbv zeta in Hh.
    erewrite heap_upd_inf_eq in Hh by done.
    destruct (bvt_wake_shape _ _ _ _ _ _ Hd Hsd Hq Hw) as (Hrq & _).
    specialize (Hrq (processor dom)). rewrite decide_True in Hrq by done.
    unfold RUNQUEUE, CPU_INFO in Hrq.
    destruct (schedule_data s' !! processor dom) as [sd'|] eqn:Hsd'; [|done].
    cbn [fmap option_fmap option_map] in Hrq. apply (inj Some) in Hrq.
    unfold bvt_wake. rewrite Hh. cbn [mbind option_bind].
    change (processor (set_sched_priv _ dom)) with (processor dom).
    rewrite Hsd'. cbn [mbind option_bind]. unfold __task_on_runqueue.
    rewrite Hrq. rewrite bool_decide_eq_true_2; [done|]. apply list_elem_of_here.
Qed.

Lemma wake_idempotent_witness :
  ∃ s', bvt_wake 2 0 busy_cpu = Some s' ∧ bvt_wake 2 77 s' = Some s'.
Proof.
  assert (∃ s', bvt_wake 2 0 busy_cpu = Some s') as [s' H] by (vm_compute; by eexists).
  exists s'. split; [exact H|]. exact (wake_idempotent 2 0 77 busy_cpu s' H).
Defined.

(** With a single CPU there is no other queue to be linked on. *)
Lemma queued_only_on_single d s :
  length (schedule_data s) = 1%nat → queued_only_on 0 d s.
Proof.
  intros Hlen c sd Hc _. apply lookup_lt_Some in Hc. lia.
Qed.

(** X7.  A wake of a domain whose record is linked on no other CPU's queue
    puts the domain at the head of the run queue of its own CPU when it is
    not queued there, and changes no queue otherwise: no entry is ever
    removed or reordered, the queue of another CPU is left alone, and a
    queue without repetition stays without repetition. *)
Theorem wake_queues d now s s' dom c q :
  heap s !! d = Some dom →
  queued_only_on (processor dom) d s →
  bvt_wake d now s = Some s' →
  RUNQUEUE s c = Some q →
  ∃ q',
    RUNQUEUE s' c = Some q' ∧
    q' = (if decide (c = processor dom ∧ d ∉ q) then d :: q else q) ∧
    (NoDup q → NoDup q').
Proof.
  intros Hd _ Hw Hq.
  destruct (schedule_data s !! processor dom) as [sd|] eqn:Hsd;
    [|by unfold bvt_wake in Hw; rewrite Hd in Hw; simpl in Hw; rewrite Hsd in Hw].
  assert (RUNQUEUE s (processor dom) = Some (runqueue (cpu_priv sd))) as Hq0.
  { unfold RUNQUEUE, CPU_INFO. by rewrite Hsd. }
  destruct (decide (d ∈ runqueue (cpu_priv sd))) as [Hin|Hin].
  - assert (s' = s) as ->.
    { unfold bvt_wake in Hw. rewrite Hd in Hw. cbn [mbind option_bind] in Hw.
      rewrite Hsd in Hw. cbn [mbind option_bind] in Hw.
      unfold __task_on_runqueue in Hw. rewrite bool_decide_eq_true_2 in Hw by done.
      by simplify_eq. }
    exists q. split; [done|]. split; [|done].
    rewrite decide_False; [done|]. intros [-> Hnq]. by simplify_eq.
  - destruct (bvt_wake_shape _ _ _ _ _ _ Hd Hsd Hin Hw) as (Hrq & _).
    specialize (Hrq c). destruct (decide (processor dom = c)) as [<-|Hne].
    + assert (q = runqueue (cpu_priv sd)) as -> by congruence.
      exists (d :: runqueue (cpu_priv sd)). split; [done|].
      split; [by rewrite decide_True|]. intros Hnd. by apply NoDup_cons.
    + exists q. split; [by rewrite Hrq|]. split; [|done].
      rewrite decide_False; [done|]. by intros [-> _].
Qed.

Lemma wake_queues_witness :
  ∃ s', bvt_wake 2 0 busy_cpu = Some s' ∧
    RUNQUEUE s' 0 = Some [2%nat; 1%nat; 0%nat] ∧ NoDup [2%nat; 1%nat; 0%nat].
Proof.
  assert (∃ s', bvt_wake 2 0 busy_cpu = Some s') as [s' H] by (vm_compute; by eexists).
  destruct (wake_queues 2 0 busy_cpu s' (guest 2 (fresh_inf 100)) 0 [1%nat; 0%nat]
              eq_refl (queued_only_on_single 2 busy_cpu eq_refl) H eq_refl)
    as (q' & Hq' & -> & Hnd).
  exists s'. split; [exact H|]. split; [exact Hq'|].
  apply Hnd. by apply (bool_decide_unpack _).
Defined.


Lemma filter_ne_absent (d : handle) (q : list handle) :
  d ∉ q → filter (λ h, h ≠ d) q = q.
Proof.
  induction q as [|x q IH]; [done|].
  intros [Hx Hq]%not_elem_of_cons. rewrite filter_cons_True by done.
  by rewrite IH.
Qed.

Lemma not_elem_of_filter_ne (d : handle) (q : list handle) :
  d ∉ filter (λ h, h ≠ d) q.
Proof. by intros [? _]%list_elem_of_filter. Qed.

(** The state a sleep leaves when the domain is not running. *)
Lemma sleep_shape d s dom q :
  heap s !! d = Some dom →
  RUNQUEUE s (processor dom) = Some q →
  ∃ s',
    bvt_sleep d false s = Some s' ∧
    RUNQUEUE s' (processor dom) = Some (filter (λ h, h ≠ d) q) ∧
    heap s' = heap s.
Proof.
  intros Hd Hq. unfold bvt_sleep. rewrite Hd. cbn [mbind option_bind]. rewrite Hq.
  cbn [mbind option_bind]. unfold __task_on_runqueue.
  case_bool_decide as Hin.
  - eexists. split; [done|]. split; [|done].
    unfold __del_from_runqueue, upd_cpu_info. rewrite runqueue_upd_cpu.
    rewrite decide_True by done. unfold RUNQUEUE, CPU_INFO in Hq.
    destruct (schedule_data s !! processor dom); [|done].
    simpl in *. by simplify_eq.
  - exists s. split; [done|]. by rewrite filter_ne_absent.
Qed.

(** X8.  For a domain whose record is linked on no other CPU's queue:
    putting it to sleep while it is not running takes its record off the
    run queue of its CPU, keeps the other entries in their order, and
    touches nothing else: no virtual time, no softirq, no other queue;
    doing it again changes nothing.  Putting it to sleep while it is
    running only raises the reschedule softirq on its CPU: the record stays
    queued until the reschedule folds it back. *)
Theorem sleep_effect d s dom q :
  heap s !! d = Some dom →
  queued_only_on (processor dom) d s →
  RUNQUEUE s (processor dom) = Some q →
  (∃ s',
     bvt_sleep d false s = Some s' ∧
     RUNQUEUE s' (processor dom) = Some (filter (λ h, h ≠ d) q) ∧
     (∀ c, c ≠ processor dom → RUNQUEUE s' c = RUNQUEUE s c) ∧
     (∀ c, CPU_SVT s' c = CPU_SVT s c) ∧
     heap s' = heap s ∧ softirq s' = softirq s ∧
     bvt_sleep d false s' = Some s') ∧
  (∃ s',
     bvt_sleep d true s = Some s' ∧
     (∀ c, RUNQUEUE s' c = RUNQUEUE s c) ∧ heap s' = heap s ∧
     processor dom ∈ softirq s').
Proof.
  intros Hd _ Hq. split.
  - unfold bvt_sleep. rewrite Hd. cbn [mbind option_bind]. rewrite Hq.
    cbn [mbind option_bind]. unfold __task_on_runqueue.
    case_bool_decide as Hin.
    + eexists. split; [done|].
      assert (RUNQUEUE (__del_from_runqueue d (processor dom) s) (processor dom)
              = Some (filter (λ h, h ≠ d) q)) as Hq'.
      { unfold __del_from_runqueue, upd_cpu_info. rewrite runqueue_upd_cpu.
        rewrite decide_True by done. unfold RUNQUEUE, CPU_INFO in Hq.
        destruct (schedule_data s !! processor dom); [|done].
        simpl in *. by simplify_eq. }
      split; [exact Hq'|].
      split.
      { intros c Hc. unfold __del_from_runqueue, upd_cpu_info.
        rewrite runqueue_upd_cpu. by rewrite decide_False. }
      split; [intros c; by apply cpu_svt_upd_cpu|].
      split; [done|]. split; [done|].
      change (heap (__del_from_runqueue d (processor dom) s)) with (heap s).
      rewrite Hd. cbn [mbind option_bind]. rewrite Hq'. cbn [mbind option_bind].
      rewrite bool_decide_eq_false_2; [done|]. apply not_elem_of_filter_ne.
    + exists s. split; [done|]. rewrite filter_ne_absent by done.
      do 5 (split; [done|]).
      rewrite Hd. cbn [mbind option_bind]. rewrite Hq. cbn [mbind option_bind].
      by rewrite bool_decide_eq_false_2.
  - unfold bvt_sleep. rewrite Hd. cbn [mbind option_bind].
    eexists. split; [done|]. split; [done|]. split; [done|].
    apply softirq_cpu_raise_softirq.
Qed.

Lemma sleep_effect_witness :
  ∃ s', bvt_sleep 2 false two_guests = Some s' ∧
    RUNQUEUE s' 0 = Some [1%nat; 0%nat] ∧ heap s' = heap two_guests.
Proof.
  destruct (sleep_effect 2 two_guests (guest 2 (fresh_inf 0)) [1%nat; 2%nat; 0%nat])
    as [(s' & Hs & Hq & _ & _ & Hh & _) _];
    [reflexivity|by apply queued_only_on_single|reflexivity|].
  exists s'. split; [exact Hs|]. split; [exact Hq|exact Hh].
Defined.

(** X9.  Wake and sleep undo each other on the run queue: a domain that is
    woken while off the queue and then put to sleep before it runs leaves
    the queue of its CPU exactly as it was, while the virtual times the wake
    computed stay in its record. *)
Theorem wake_then_sleep d now s s1 dom q :
  heap s !! d = Some dom →
  RUNQUEUE s (processor dom) = Some q →
  d ∉ q →
  bvt_wake d now s = Some s1 →
  ∃ s2,
    bvt_sleep d false s1 = Some s2 ∧
    RUNQUEUE s2 (processor dom) = Some q ∧
    heap s2 = heap s1.
Proof.
  intros Hd Hq Hnin Hw.
  assert (∃ sd, schedule_data s !! processor dom = Some sd ∧ runqueue (cpu_priv sd) = q)
    as (sd & Hsd & <-).
  { unfold RUNQUEUE, CPU_INFO in Hq.
    destruct (schedule_data s !! processor dom) as [sd|]; [|done].
    exists sd. simpl in Hq. by simplify_eq. }
  pose proof (bvt_wake_heap _ _ _ _ _ _ Hd Hsd Hnin Hw d) as Hh. cbv zeta in Hh.
  erewrite heap_upd_inf_eq in Hh by done.
  destruct (bvt_wake_shape _ _ _ _ _ _ Hd Hsd Hnin Hw) as (Hrq & _).
  specialize (Hrq (processor dom)). rewrite decide_True in Hrq by done.
  destruct (sleep_shape d s1 _ _ Hh Hrq) as (s2 & Hs & Hq2 & Hh2).
  change (processor (set_sched_priv _ dom)) with (processor dom) in *.
  exists s2. split; [exact Hs|]. split; [|exact Hh2].
  rewrite Hq2. rewrite filter_cons_False by (by intros ?).
  by rewrite filter_ne_absent.
Qed.

Lemma wake_then_sleep_witness :
  ∃ s1 s2,
    bvt_wake 2 0 busy_cpu = Some s1 ∧ bvt_sleep 2 false s1 = Some s2 ∧
    RUNQUEUE s1 0 = Some [2%nat; 1%nat; 0%nat] ∧
    RUNQUEUE s2 0 = Some [1%nat; 0%nat].
Proof.
  assert (∃ s1, bvt_wake 2 0 busy_cpu = Some s1) as [s1 H] by (vm_compute; by eexists).
  destruct (wake_then_sleep 2 0 busy_cpu s1 (guest 2 (fresh_inf 100)) [1%nat; 0%nat])
    as (s2 & Hs & Hq & _); [reflexivity|reflexivity| |exact H|].
  { intros [?|[?|?]%elem_of_cons]%elem_of_cons; [done|done|].
    by eapply not_elem_of_nil. }
  exists s1, s2. split; [exact H|]. split; [exact Hs|]. split; [|exact Hq].
  vm_compute in H. injection H as <-. reflexivity.
Defined.


(** X10.  A wake never queues a domain below the system virtual time: if
    every queued record of the CPU has an [avt] of at least [svt] before
    the wake of a domain whose record is linked on no other CPU's queue,
    the same holds after it, the woken domain included, and [svt] itself is
    not changed by the wake. *)
Theorem wake_keeps_floor d now s s' dom sd :
  heap s !! d = Some dom →
  queued_only_on (processor dom) d s →
  schedule_data s !! processor dom = Some sd →
  in_u32 (svt (cpu_priv sd)) →
  (∀ h, h ∈ runqueue (cpu_priv sd) → svt (cpu_priv sd) ≤ avt_at (heap s) h) →
  bvt_wake d now s = Some s' →
  ∃ q',
    RUNQUEUE s' (processor dom) = Some q' ∧
    CPU_SVT s' (processor dom) = Some (svt (cpu_priv sd)) ∧
    d ∈ q' ∧
    ∀ h, h ∈ q' → svt (cpu_priv sd) ≤ avt_at (heap s') h.
Proof.
  intros Hd _ Hsd [Hlo Hhi] Hfloor Hw. unfold UINT_MAX in Hhi.
  assert (CPU_SVT s (processor dom) = Some (svt (cpu_priv sd))) as Hsvt.
  { unfold CPU_SVT, CPU_INFO. by rewrite Hsd. }
  destruct (decide (d ∈ runqueue (cpu_priv sd))) as [Hin|Hin].
  - assert (s' = s) as ->.
    { unfold bvt_wake in Hw. rewrite Hd in Hw. cbn [mbind option_bind] in Hw.
      rewrite Hsd in Hw. cbn [mbind option_bind] in Hw.
      unfold __task_on_runqueue in Hw. rewrite bool_decide_eq_true_2 in Hw by done.
      by simplify_eq. }
    exists (runqueue (cpu_priv sd)). split; [|done].
    unfold RUNQUEUE, CPU_INFO. by rewrite Hsd.
  - pose proof (bvt_wake_heap _ _ _ _ _ _ Hd Hsd Hin Hw) as Hh. cbv zeta in Hh.
    destruct (bvt_wake_shape _ _ _ _ _ _ Hd Hsd Hin Hw) as (Hrq & Hv & _).
    specialize (Hrq (processor dom)). rewrite decide_True in Hrq by done.
    exists (d :: runqueue (cpu_priv sd)). split; [exact Hrq|].
    split; [by rewrite Hv|]. split; [apply list_elem_of_here|].
    intros h [->|Hq]%elem_of_cons.
    + unfold avt_at. rewrite Hh. erewrite heap_upd_inf_eq by done. simpl.
      destruct (bool_decide (avt (sched_priv dom) < svt (cpu_priv sd))) eqn:Hlt; simpl.
      * rewrite u32_small; lia.
      * apply bool_decide_eq_false in Hlt.
        destruct (DF_MIGRATED dom); [rewrite u32_small; lia|lia].
    + unfold avt_at. rewrite Hh. rewrite heap_upd_inf_ne by (by intros ->).
      by apply Hfloor.
Qed.

Lemma wake_keeps_floor_witness :
  ∃ s' q',
    bvt_wake 1 0 steady_warper = Some s' ∧
    RUNQUEUE s' 0 = Some q' ∧ (1%nat ∈ q') ∧
    ∀ h, h ∈ q' → 1000 ≤ avt_at (heap s') h.
Proof.
  assert (∃ s', bvt_wake 1 0 steady_warper = Some s') as [s' H] by (vm_compute; by eexists).
  destruct (wake_keeps_floor 1 0 steady_warper s'
              (guest 1 (set_warp_value 100 (set_warp 1 (fresh_inf 1000))))
              (mk_schedule_data 0%nat 0%nat timer_off (mk_bvt_cpu_info [0%nat] 1000)))
    as (q' & Hq & _ & Hin & Hfl);
    [reflexivity|by apply queued_only_on_single|reflexivity| | |exact H|].
  - unfold in_u32, UINT_MAX. simpl. lia.
  - simpl. intros h ->%list_elem_of_singleton. by vm_compute.
  - exists s', q'. split; [exact H|]. split; [exact Hq|]. split; [exact Hin|exact Hfl].
Defined.

(** X11.  A domain starts at the system virtual time.  Whatever its record
    held before, a guest that is linked on no run queue, is admitted and is
    then woken is queued at the head of its CPU's queue with
    [avt = evt = svt], the default weight and no warp. *)
Theorem admit_then_wake p now s s1 s2 d sd :
  heap s !! p = Some d →
  is_idle_task d = false →
  schedule_data s !! processor d = Some sd →
  p ∉ runqueue (cpu_priv sd) →
  queued_only_on (processor d) p s →
  bvt_add_task p s = Some s1 →
  bvt_wake p now s1 = Some s2 →
  ∃ d2,
    heap s2 !! p = Some d2 ∧
    RUNQUEUE s2 (processor d) = Some (p :: runqueue (cpu_priv sd)) ∧
    avt (sched_priv d2) = u32 (svt (cpu_priv sd)) ∧
    evt (sched_priv d2) = u32 (svt (cpu_priv sd)) ∧
    mcu_advance (sched_priv d2) = MCU_ADVANCE ∧
    warp (sched_priv d2) = 0 ∧ warpback (sched_priv d2) = 0.
Proof.
  intros Hd Hidle Hsd Hq _ Ha Hw.
  unfold bvt_add_task in Ha. rewrite Hd in Ha. cbn [mbind option_bind] in Ha.
  unfold CPU_SVT, CPU_INFO in Ha. rewrite Hsd in Ha. simpl in Ha. rewrite Hidle in Ha.
  injection Ha as <-.
  set (v := u32 (svt (cpu_priv sd))) in *.
  set (f := λ i : bvt_dom_info,
         mk_bvt_dom_info MCU_ADVANCE v v 0 0 0 (MILLISECS 2000)
           (init_ac_timer (warp_timer i)) (MILLISECS 1000)
           (init_ac_timer (unwarp_timer i))) in *.
  set (d1 := set_sched_priv (f (sched_priv d)) d).
  assert (heap (upd_inf p f s) !! p = Some d1) as Hd1 by (by apply heap_upd_inf_eq).
  assert (schedule_data (upd_inf p f s) !! processor d1 = Some sd) as Hsd1 by done.
  pose proof (bvt_wake_heap _ _ _ _ _ _ Hd1 Hsd1 Hq Hw p) as Hh. cbv zeta in Hh.
  erewrite heap_upd_inf_eq in Hh by done.
  destruct (bvt_wake_shape _ _ _ _ _ _ Hd1 Hsd1 Hq Hw) as (Hrq & _).
  specialize (Hrq (processor d)). rewrite decide_True in Hrq by done.
  eexists. split; [exact Hh|]. split; [exact Hrq|].
  assert ((if bool_decide (avt (sched_priv d1) < svt (cpu_priv sd)) || DF_MIGRATED d1
           then u32 (svt (cpu_priv sd)) else avt (sched_priv d1)) = v) as ->.
  { by destruct (_ || _). }
  by repeat split.
Qed.

Lemma admit_then_wake_witness :
  ∃ s1 s2 d2,
    bvt_add_task 1 early_warper = Some s1 ∧ bvt_wake 1 0 s1 = Some s2 ∧
    heap s2 !! 1%nat = Some d2 ∧
    avt (sched_priv d2) = 50 ∧ evt (sched_priv d2) = 50 ∧ warp (sched_priv d2) = 0.
Proof.
  assert (∃ s1, bvt_add_task 1 early_warper = Some s1) as [s1 H1] by (vm_compute; by eexists).
  assert (∃ s2, bvt_wake 1 0 s1 = Some s2) as [s2 H2].
  { vm_compute in H1. injection H1 as <-. vm_compute. by eexists. }
  destruct (admit_then_wake 1 0 early_warper s1 s2 (guest 1 warping_inf)
              (mk_schedule_data 0%nat 0%nat timer_off (mk_bvt_cpu_info [0%nat] 50)))
    as (d2 & Hd2 & _ & Ha & He & _ & Hwp & _);
    [reflexivity|by vm_compute|reflexivity|
     |by apply queued_only_on_single|exact H1|exact H2|].
  { simpl. by intros ?%list_elem_of_singleton. }
  exists s1, s2, d2. split; [exact H1|]. split; [exact H2|]. split; [exact Hd2|].
  split; [by rewrite Ha|]. split; [by rewrite He|exact Hwp].
Defined.


(** ** What a reschedule leaves alone *)

Lemma reschedule_frame_refl cpu s : reschedule_frame cpu s s.
Proof. by repeat split. Qed.

Lemma reschedule_frame_trans cpu s1 s2 s3 :
  reschedule_frame cpu s1 s2 → reschedule_frame cpu s2 s3 → reschedule_frame cpu s1 s3.
Proof.
  intros (Ht & Hc & Hs & Hf & Ho & Hh) (Ht' & Hc' & Hs' & Hf' & Ho' & Hh').
  split; [congruence|]. split; [congruence|]. split; [congruence|].
  split; [intros c; by rewrite Hf'|].
  split; [intros c Hne; by rewrite Ho', Ho|].
  intros h. by rewrite Hh'.
Qed.

Lemma reschedule_frame_upd_inf cpu h f s :
  (∀ i, set_warp_timer timer_off (set_avt 0 (set_evt 0 (f i)))
        = set_warp_timer timer_off (set_avt 0 (set_evt 0 i))) →
  reschedule_frame cpu s (upd_inf h f s).
Proof.
  intros Hf. do 5 (split; [done|]). intros h'. rewrite heap_upd_inf.
  case_decide; [subst|done]. destruct (heap s !! h') as [d|]; [|done]. simpl.
  unfold accounting_erased. simpl. by rewrite Hf.
Qed.

Lemma reschedule_frame_upd_cpu_info cpu f s :
  reschedule_frame cpu s (upd_cpu_info cpu f s).
Proof.
  do 3 (split; [done|]). split; [|split; [|done]].
  - intros c. unfold upd_cpu_info, upd_cpu. simpl. rewrite list_lookup_alter.
    case_decide; [subst|done]. by destruct (schedule_data s !! c).
  - intros c Hne. unfold upd_cpu_info. by rewrite schedule_data_upd_cpu_ne.
Qed.

Lemma reschedule_frame_deschedule prev prev_d now s :
  reschedule_frame (processor prev_d) s (deschedule prev prev_d now s).
Proof.
  assert (∀ t, reschedule_frame (processor prev_d) s
    (__del_from_runqueue prev (processor prev_d)
       (upd_inf prev (λ i, set_warp_timer (rem_ac_timer (warp_timer i)) i)
          (upd_inf prev (λ i, set_evt (calc_evt prev_d t) (set_avt t i)) s)))) as H3.
  { intros t. unfold __del_from_runqueue.
    eapply reschedule_frame_trans; [|apply reschedule_frame_upd_cpu_info].
    eapply reschedule_frame_trans; [|by apply reschedule_frame_upd_inf].
    by apply reschedule_frame_upd_inf. }
  unfold deschedule. cbv zeta. destruct (runnable prev_d); [|apply H3].
  unfold __add_to_runqueue_tail.
  eapply reschedule_frame_trans; [apply H3|apply reschedule_frame_upd_cpu_info].
Qed.

Lemma reschedule_frame_rebase cpu l s s' :
  rebase_domains cpu l s = Some s' → reschedule_frame cpu s s'.
Proof.
  revert s. induction l as [|p l IH]; intros s Hr; simpl in Hr.
  - simplify_eq. apply reschedule_frame_refl.
  - destruct (heap s !! p) as [d|]; [simpl in Hr|done].
    eapply reschedule_frame_trans; [|by apply IH].
    case_decide; [by apply reschedule_frame_upd_inf|apply reschedule_frame_refl].
Qed.

Lemma reschedule_frame_check_overrun cpu s s' :
  check_overrun cpu s = Some s' → reschedule_frame cpu s s'.
Proof.
  unfold check_overrun. intros H.
  destruct (CPU_SVT s cpu) as [v|]; [simpl in H|done].
  case_bool_decide; [|simplify_eq; apply reschedule_frame_refl].
  destruct (rebase_domains _ _ _) as [s1|] eqn:Hr; [simpl in H|done].
  simplify_eq.
  eapply reschedule_frame_trans; [by eapply reschedule_frame_rebase|].
  apply reschedule_frame_upd_cpu_info.
Qed.

Lemma reschedule_frame_arm cpu next now s s' :
  arm_warp_timer next now s = Some s' → reschedule_frame cpu s s'.
Proof.
  unfold arm_warp_timer. intros H.
  destruct (heap s !! next) as [d|]; [simpl in H|done].
  destruct (_ && _); simplify_eq;
    [by apply reschedule_frame_upd_inf|apply reschedule_frame_refl].
Qed.

Lemma bvt_do_schedule_frame current now s s' dec prev_d :
  bvt_do_schedule current now s = Some (s', dec) →
  heap s !! current = Some prev_d →
  reschedule_frame (processor prev_d) s s'.
Proof.
  intros H Hprev.
  destruct (bvt_do_schedule_inv _ _ _ _ _ H)
    as (prev_d' & q0 & sd & idle_d & st & np & s1 & s2 & s3 & r_time & a3 & H').
  cbv zeta in H'.
  destruct H' as (Hprev' & _ & Hs1 & _ & _ & _ & _ & Hs2 & Hov & _ & Harm & _).
  assert (prev_d' = prev_d) as -> by congruence.
  eapply reschedule_frame_trans with s1.
  { destruct (is_idle_task prev_d); [simplify_eq; apply reschedule_frame_refl|].
    destruct (__task_on_runqueue current q0); [|done].
    simplify_eq. apply reschedule_frame_deschedule. }
  eapply reschedule_frame_trans with s2.
  { rewrite Hs2. destruct (bool_decide (min_avt st ≠ UINT_MAX));
      [apply reschedule_frame_upd_cpu_info|apply reschedule_frame_refl]. }
  eapply reschedule_frame_trans with s3;
    [by apply reschedule_frame_check_overrun|by eapply reschedule_frame_arm].
Qed.

Lemma accounting_erased_fields d d' :
  accounting_erased d' = accounting_erased d →
  mcu_advance (sched_priv d') = mcu_advance (sched_priv d) ∧
  warp (sched_priv d') = warp (sched_priv d) ∧
  warpback (sched_priv d') = warpback (sched_priv d) ∧
  warp_value (sched_priv d') = warp_value (sched_priv d) ∧
  warpl (sched_priv d') = warpl (sched_priv d) ∧
  warpu (sched_priv d') = warpu (sched_priv d) ∧
  unwarp_timer (sched_priv d') = unwarp_timer (sched_priv d) ∧
  set_sched_priv (sched_priv d) d' = d.
Proof.
  destruct d as [? ? ? ? ? []], d' as [? ? ? ? ? []].
  unfold accounting_erased. simpl. intros H. by simplify_eq.
Qed.

(** X12.  A reschedule writes the virtual times and the warp timer of
    domains, and the run queue and [svt] of its own CPU, and nothing else:
    no record appears or disappears; the weight, the warp parameters and
    flags, the unwarp timer and the identity, CPU and flags of every domain
    are as before; so are the domain list, [ctx_allow], the pending
    softirqs, the entry of every other CPU, and the current domain, idle
    domain and reschedule timer of this one. *)
Theorem reschedule_leaves_alone current now s s' dec prev_d :
  bvt_do_schedule current now s = Some (s', dec) →
  heap s !! current = Some prev_d →
  task_list s' = task_list s ∧ ctx_allow s' = ctx_allow s ∧ softirq s' = softirq s ∧
  (∀ c, c ≠ processor prev_d → schedule_data s' !! c = schedule_data s !! c) ∧
  (∀ sd, schedule_data s !! processor prev_d = Some sd →
     ∃ sd', schedule_data s' !! processor prev_d = Some sd' ∧
       curr sd' = curr sd ∧ idle sd' = idle sd ∧ s_timer sd' = s_timer sd) ∧
  (∀ h, heap s !! h = None → heap s' !! h = None) ∧
  (∀ h d, heap s !! h = Some d →
     ∃ d', heap s' !! h = Some d' ∧
       mcu_advance (sched_priv d') = mcu_advance (sched_priv d) ∧
       warp (sched_priv d') = warp (sched_priv d) ∧
       warpback (sched_priv d') = warpback (sched_priv d) ∧
       warp_value (sched_priv d') = warp_value (sched_priv d) ∧
       warpl (sched_priv d') = warpl (sched_priv d) ∧
       warpu (sched_priv d') = warpu (sched_priv d) ∧
       unwarp_timer (sched_priv d') = unwarp_timer (sched_priv d) ∧
       set_sched_priv (sched_priv d) d' = d).
Proof.
  intros H Hprev.
  destruct (bvt_do_schedule_frame _ _ _ _ _ _ H Hprev) as (Ht & Hc & Hs & Hf & Ho & Hh).
  do 4 (split; [done|]). split; [|split].
  - intros sd Hsd. specialize (Hf (processor prev_d)). rewrite Hsd in Hf.
    destruct (schedule_data s' !! processor prev_d) as [sd'|]; [|done].
    exists sd'. split; [done|]. unfold cpu_fixed in Hf. simpl in Hf. by simplify_eq.
  - intros h Hn. specialize (Hh h). rewrite Hn in Hh.
    by destruct (heap s' !! h).
  - intros h d Hd. specialize (Hh h). rewrite Hd in Hh.
    destruct (heap s' !! h) as [d'|]; [|done].
    exists d'. split; [done|]. apply accounting_erased_fields.
    cbn [fmap option_fmap option_map] in Hh. by apply (inj Some) in Hh.
Qed.

Lemma reschedule_leaves_alone_witness :
  ∃ s' dec d',
    bvt_do_schedule 1 0 unwarp_pending = Some (s', dec) ∧
    heap s' !! 1%nat = Some d' ∧
    warpback (sched_priv d') = 1 ∧ mcu_advance (sched_priv d') = 10 ∧
    ctx_allow s' = ctx_allow unwarp_pending.
Proof.
  assert (∃ s' dec, bvt_do_schedule 1 0 unwarp_pending = Some (s', dec))
    as (s' & dec & H) by (vm_compute; by eexists _, _).
  destruct (reschedule_leaves_alone 1 0 unwarp_pending s' dec _ H eq_refl)
    as (_ & Hc & _ & _ & _ & _ & Hh).
  destruct (Hh 1%nat _ eq_refl) as (d' & Hd' & Hm & _ & Hb & _).
  exists s', dec, d'. split; [exact H|]. split; [exact Hd'|].
  split; [by rewrite Hb|]. split; [by rewrite Hm|exact Hc].
Defined.


(** ** The run queue across a reschedule *)

Lemma bvt_do_schedule_queue current now s s' dec prev_d q0 :
  bvt_do_schedule current now s = Some (s', dec) →
  heap s !! current = Some prev_d →
  RUNQUEUE s (processor prev_d) = Some q0 →
  ∃ sd q1,
    schedule_data s !! processor prev_d = Some sd ∧
    q1 = (if is_idle_task prev_d then q0
          else filter (λ h, h ≠ current) q0 ++ (if runnable prev_d then [current] else [])) ∧
    RUNQUEUE s' (processor prev_d) = Some q1 ∧
    (NoDup q1 →
       (task (ret dec) = idle sd ∨ task (ret dec) ∈ q1) ∧
       (next_prime dec = idle sd ∨ next_prime dec ∈ q1 ∧ next_prime dec ≠ task (ret dec))).
Proof.
  intros H Hprev Hq0.
  pose proof (bvt_do_schedule_frame _ _ _ _ _ _ H Hprev) as (_ & _ & _ & Hf & _ & _).
  destruct (bvt_do_schedule_inv _ _ _ _ _ H)
    as (prev_d' & q0' & sd1 & idle_d & st & np & s1 & s2 & s3 & r_time & a3 & H').
  cbv zeta in H'.
  destruct H' as (Hprev' & Hq0' & Hs1 & Hsd1 & _ & Hscan & Hnp & Hs2 & Hov & _ & Harm & ->).
  assert (prev_d' = prev_d) as -> by congruence.
  assert (q0' = q0) as -> by congruence.
  destruct (schedule_data s !! processor prev_d) as [sd|] eqn:Hsd;
    [|by unfold RUNQUEUE, CPU_INFO in Hq0; rewrite Hsd in Hq0].
  assert (reschedule_frame (processor prev_d) s s1 ∧
          RUNQUEUE s1 (processor prev_d)
          = Some (if is_idle_task prev_d then q0
                  else filter (λ h, h ≠ current) q0
                       ++ (if runnable prev_d then [current] else []))) as [Hf1 Hq1].
  { destruct (is_idle_task prev_d); [by simplify_eq; split; [apply reschedule_frame_refl|]|].
    destruct (__task_on_runqueue current q0); [|done]. simplify_eq.
    split; [apply reschedule_frame_deschedule|by apply runqueue_deschedule]. }
  destruct Hf1 as (_ & _ & _ & Hf1 & _ & _).
  specialize (Hf1 (processor prev_d)). rewrite Hsd1, Hsd in Hf1.
  assert (idle sd1 = idle sd) as Hidle.
  { unfold cpu_fixed in Hf1. simpl in Hf1. by simplify_eq. }
  destruct (check_overrun_frame _ _ _ Hov) as (_ & Hrq & _).
  destruct (arm_warp_timer_frame _ _ _ _ Harm) as (Hsd' & _ & _).
  assert (∀ c, RUNQUEUE s2 c = RUNQUEUE s1 c) as Hq2.
  { intros c. rewrite Hs2. destruct (bool_decide (min_avt st ≠ UINT_MAX)); [|done].
    apply runqueue_upd_cpu_info_svt. }
  eexists sd, _. split; [done|]. split; [done|]. split.
  { unfold RUNQUEUE, CPU_INFO. rewrite Hsd'.
    change (RUNQUEUE s3 (processor prev_d) = Some
      (if is_idle_task prev_d then q0
       else filter (λ h, h ≠ current) q0 ++ (if runnable prev_d then [current] else []))).
    by rewrite Hrq, Hq2. }
  intros Hnd. simpl. rewrite <- Hidle.
  unfold RUNQUEUE, CPU_INFO in Hq1. rewrite Hsd1 in Hq1. simpl in Hq1.
  apply (inj Some) in Hq1. rewrite <- Hq1 in *.
  by eapply scan_candidates.
Qed.

Lemma is_idle_task_erased d d' :
  accounting_erased d' = accounting_erased d →
  is_idle_task d' = is_idle_task d ∧ processor d' = processor d.
Proof.
  destruct d as [? ? ? ? ? []], d' as [? ? ? ? ? []].
  unfold accounting_erased, is_idle_task. simpl. intros H. by simplify_eq.
Qed.

Lemma reschedule_frame_lookup cpu s s' h d :
  reschedule_frame cpu s s' → heap s !! h = Some d →
  ∃ d', heap s' !! h = Some d' ∧ accounting_erased d' = accounting_erased d.
Proof.
  intros (_ & _ & _ & _ & _ & Hh) Hd. specialize (Hh h). rewrite Hd in Hh.
  destruct (heap s' !! h) as [d'|]; [|done]. exists d'. split; [done|].
  cbn [fmap option_fmap option_map] in Hh. by apply (inj Some) in Hh.
Qed.

Lemma reschedule_frame_lookup_inv cpu s s' h d' :
  reschedule_frame cpu s s' → heap s' !! h = Some d' →
  ∃ d, heap s !! h = Some d ∧ accounting_erased d' = accounting_erased d.
Proof.
  intros (_ & _ & _ & _ & _ & Hh) Hd. specialize (Hh h). rewrite Hd in Hh.
  destruct (heap s !! h) as [d|]; [|done]. exists d. split; [done|].
  cbn [fmap option_fmap option_map] in Hh. by apply (inj Some) in Hh.
Qed.

(** X13.  The reschedule keeps the scheduler's standing invariant and always
    answers from the queue.  When the idle domain of a CPU is queued, the
    queue lists live domains of that CPU without repetition, the domain
    list names live records and no weight is zero, a reschedule for a
    current domain that is on the queue returns; the same holds of the
    state it leaves; and both the domain it selects and the runner-up are
    on the run queue it leaves. *)
Theorem reschedule_keeps_invariant current now s prev_d q0 :
  heap s !! current = Some prev_d →
  sched_inv (processor prev_d) s →
  RUNQUEUE s (processor prev_d) = Some q0 →
  current ∈ q0 →
  ∃ s' dec q',
    bvt_do_schedule current now s = Some (s', dec) ∧
    sched_inv (processor prev_d) s' ∧
    RUNQUEUE s' (processor prev_d) = Some q' ∧
    task (ret dec) ∈ q' ∧ next_prime dec ∈ q'.
Proof.
  intros Hprev (sd & idle_d & Hsd & Hidl & Hidle & Hidq & Hnd & Hlive & Htasks & Hmcu)
    Hq0 Hcur.
  assert (q0 = runqueue (cpu_priv sd)) as ->.
  { unfold RUNQUEUE, CPU_INFO in Hq0. rewrite Hsd in Hq0. simpl in Hq0. by simplify_eq. }
  destruct (bvt_do_schedule_total current now s) as (s' & dec & H).
  { exists prev_d, sd, idle_d. do 6 (split; [done|]). split; [done|].
    split; [|done]. eapply Forall_impl; [exact Hlive|].
    intros h (d & Hd & _). by eexists. }
  pose proof (bvt_do_schedule_frame _ _ _ _ _ _ H Hprev) as Hfr.
  destruct (bvt_do_schedule_queue _ _ _ _ _ _ _ H Hprev Hq0)
    as (sd0 & q1 & Hsd0 & Hq1 & Hq' & Hcand).
  assert (sd0 = sd) as -> by congruence.
  assert (idle sd ∈ q1 ∧ NoDup q1 ∧ ∀ h, h ∈ q1 → h ∈ runqueue (cpu_priv sd))
    as (Hidq1 & Hnd1 & Hsub).
  { rewrite Hq1. destruct (is_idle_task prev_d) eqn:Hpi; [done|].
    assert (idle sd ≠ current) as Hic.
    { intros Heq. rewrite Heq in Hidl. congruence. }
    split; [|split].
    - apply elem_of_app. left. by apply list_elem_of_filter.
    - apply NoDup_app. split; [by apply NoDup_filter|]. split.
      + intros h [Hh _]%list_elem_of_filter Hin.
        destruct (runnable prev_d); [|by apply elem_of_nil in Hin].
        by apply list_elem_of_singleton in Hin.
      + destruct (runnable prev_d); [apply NoDup_singleton|apply NoDup_nil_2].
    - intros h [[_ Hh]%list_elem_of_filter|Hh]%elem_of_app; [done|].
      destruct (runnable prev_d); [|by apply elem_of_nil in Hh].
      apply list_elem_of_singleton in Hh. by subst. }
  destruct (Hcand Hnd1) as [Hnext Hnp].
  exists s', dec, q1. split; [done|]. split; [|split; [done|split]].
  - pose proof Hfr as (Ht & _ & _ & Hf & _ & _).
    specialize (Hf (processor prev_d)). rewrite Hsd in Hf.
    destruct (schedule_data s' !! processor prev_d) as [sd'|] eqn:Hsd'; [|done].
    assert (idle sd' = idle sd) as Hi'.
    { unfold cpu_fixed in Hf. simpl in Hf. by simplify_eq. }
    assert (runqueue (cpu_priv sd') = q1) as Hr'.
    { unfold RUNQUEUE, CPU_INFO in Hq'. rewrite Hsd' in Hq'. simpl in Hq'.
      by simplify_eq. }
    destruct (reschedule_frame_lookup _ _ _ _ _ Hfr Hidl) as (idle_d' & Hidl' & He).
    apply is_idle_task_erased in He as [He _].
    exists sd', idle_d'. split; [done|]. rewrite Hi', Hr'.
    split; [done|]. split; [congruence|]. split; [done|]. split; [done|].
    split; [|split].
    + apply Forall_forall. intros h Hh%Hsub.
      eapply Forall_forall in Hlive as (d & Hd & Hp); [|exact Hh].
      destruct (reschedule_frame_lookup _ _ _ _ _ Hfr Hd) as (d' & Hd' & Hed).
      apply is_idle_task_erased in Hed as [_ Hed]. exists d'. split; [done|congruence].
    + rewrite Ht. eapply Forall_impl; [exact Htasks|]. intros h [d Hd].
      destruct (reschedule_frame_lookup _ _ _ _ _ Hfr Hd) as (d' & Hd' & _). by eexists.
    + intros h d' Hd'.
      destruct (reschedule_frame_lookup_inv _ _ _ _ _ Hfr Hd') as (d & Hd & Hed).
      apply accounting_erased_fields in Hed as (Hm & _). rewrite Hm. by eapply Hmcu.
  - by destruct Hnext as [->|].
  - by destruct Hnp as [->|[? _]].
Qed.

Lemma sched_inv_two_guests : sched_inv 0 two_guests.
Proof.
  exists (mk_schedule_data 0%nat 0%nat timer_off
            (mk_bvt_cpu_info [1%nat; 2%nat; 0%nat] 0)), idle_dom.
  do 3 (split; [reflexivity|]). simpl.
  split; [by apply (bool_decide_unpack _)|].
  split; [by apply (bool_decide_unpack _)|].
  split; [repeat apply Forall_cons_2; [..|apply Forall_nil_2]; by eexists|].
  split; [repeat apply Forall_cons_2; [..|apply Forall_nil_2]; by eexists|].
  intros h d Hd.
  repeat (apply lookup_insert_Some in Hd as [[<- <-]|[_ Hd]]; [by vm_compute|]).
  by rewrite lookup_empty in Hd.
Qed.

Lemma reschedule_keeps_invariant_witness :
  ∃ s' dec q',
    bvt_do_schedule 1 0 two_guests = Some (s', dec) ∧
    sched_inv 0 s' ∧ RUNQUEUE s' 0 = Some q' ∧
    task (ret dec) ∈ q' ∧ next_prime dec ∈ q'.
Proof.
  apply (reschedule_keeps_invariant 1 0 two_guests (guest 1 (fresh_inf 0))
           [1%nat; 2%nat; 0%nat]).
  - reflexivity.
  - exact sched_inv_two_guests.
  - reflexivity.
  - by apply (bool_decide_unpack _).
Defined.


(** ** The system virtual time across a reschedule *)

Lemma scan_runqueue_min_avt hp q st st' :
  scan_runqueue hp q st = Some st' →
  min_avt st' = fold_left Z.min (avt_at hp <$> q) (min_avt st).
Proof.
  revert st. induction q as [|x q IH]; intros st Hscan; simpl in Hscan.
  - by simplify_eq.
  - destruct (hp !! x) as [d|] eqn:Hx; [simpl in Hscan|done].
    rewrite (IH _ Hscan), scan_step_min_avt. simpl.
    by rewrite (avt_at_lookup _ _ _ Hx).
Qed.

Lemma fold_min_le l a : fold_left Z.min l a ≤ a ∧ ∀ x, x ∈ l → fold_left Z.min l a ≤ x.
Proof.
  revert a. induction l as [|y l IH]; intros a; simpl.
  - split; [lia|]. by intros x ?%elem_of_nil.
  - destruct (IH (Z.min a y)) as [H1 H2]. split; [lia|].
    intros x [->|Hx]%elem_of_cons; [lia|by apply H2].
Qed.

Lemma fold_min_attained l a : fold_left Z.min l a = a ∨ fold_left Z.min l a ∈ l.
Proof.
  revert a. induction l as [|y l IH]; intros a; simpl; [by left|].
  destruct (IH (Z.min a y)) as [->|Hin].
  - destruct (Z.min_spec a y) as [[_ ->]|[_ ->]]; [by left|right; apply list_elem_of_here].
  - right. by apply list_elem_of_further.
Qed.

Lemma fold_min_minimum key (q : list handle) m :
  is_minimum key q m → m < UINT_MAX → fold_left Z.min (key <$> q) UINT_MAX = m.
Proof.
  intros [Hlow (h & Hh & Hm)] Hlt.
  destruct (fold_min_le (key <$> q) UINT_MAX) as [Ha Hb].
  assert (fold_left Z.min (key <$> q) UINT_MAX ≤ m) as Hle.
  { apply Hb. rewrite <- Hm. by apply list_elem_of_fmap_2. }
  destruct (fold_min_attained (key <$> q) UINT_MAX) as [Heq|Hin]; [lia|].
  apply list_elem_of_fmap in Hin as (h' & Heq & Hh'). specialize (Hlow _ Hh'). lia.
Qed.

Lemma fold_min_range (l : list Z) a :
  in_u32 a → Forall in_u32 l → in_u32 (fold_left Z.min l a).
Proof.
  revert a. induction l as [|y l IH]; intros a Ha Hl; [done|].
  apply Forall_cons in Hl as [Hy Hl]. simpl. apply IH; [|done].
  unfold in_u32 in *. lia.
Qed.

Lemma cpu_svt_deschedule prev prev_d now s c :
  CPU_SVT (deschedule prev prev_d now s) c = CPU_SVT s c.
Proof.
  unfold deschedule, __add_to_runqueue_tail, __del_from_runqueue, upd_cpu_info.
  cbv zeta. destruct (runnable prev_d); by rewrite !cpu_svt_upd_cpu.
Qed.

Lemma cpu_svt_set cpu v s sd :
  schedule_data s !! cpu = Some sd →
  CPU_SVT (upd_cpu_info cpu (set_svt v) s) cpu = Some v.
Proof.
  intros Hsd. unfold CPU_SVT, CPU_INFO, upd_cpu_info.
  by rewrite (schedule_data_upd_cpu_eq _ _ _ _ Hsd).
Qed.

Lemma cpu_svt_check_overrun cpu s s' v :
  check_overrun cpu s = Some s' →
  CPU_SVT s cpu = Some v →
  CPU_SVT s' cpu = Some (if bool_decide (v >= 0xf0000000) then v - 0xe0000000 else v).
Proof.
  unfold check_overrun. intros H Hv. rewrite Hv in H. cbn [mbind option_bind] in H.
  destruct (bool_decide (v >= 0xf0000000)) eqn:Hb; [|by simplify_eq].
  destruct (rebase_domains _ _ _) as [s1|] eqn:Hr; [simpl in H|done].
  simplify_eq.
  destruct (rebase_domains_frame _ _ _ _ Hr) as (Hsd & _).
  unfold CPU_SVT, CPU_INFO in *. rewrite <- Hsd in Hv.
  destruct (schedule_data s1 !! cpu) as [sd|] eqn:Hsd1; [|done].
  unfold upd_cpu_info. rewrite (schedule_data_upd_cpu_eq _ _ _ _ Hsd1).
  simpl in *. by simplify_eq.
Qed.

(** X14.  The system virtual time a reschedule leaves.  With [m] the
    minimum of the actual virtual times on the queue as the scan finds it
    (after the fold-back of a previous domain that is not the idle one),
    and [m] below [~0U], the new [svt] is [m], less [0xe0000000] when [m]
    has reached [0xf0000000].  When [svt] and the queued times are 32-bit
    values, the new [svt] is below [0xf0000000] in every case. *)
Theorem reschedule_svt current now s s' dec prev_d q1 v :
  bvt_do_schedule current now s = Some (s', dec) →
  heap s !! current = Some prev_d →
  RUNQUEUE (folded_back current prev_d now s) (processor prev_d) = Some q1 →
  CPU_SVT s (processor prev_d) = Some v →
  ∃ v', CPU_SVT s' (processor prev_d) = Some v' ∧
    (∀ m, is_minimum (avt_at (heap (folded_back current prev_d now s))) q1 m →
          m < UINT_MAX →
          v' = if bool_decide (m >= 0xf0000000) then m - 0xe0000000 else m) ∧
    (in_u32 v →
     Forall (λ h, in_u32 (avt_at (heap (folded_back current prev_d now s)) h)) q1 →
     0 ≤ v' < 0xf0000000).
Proof.
  intros H Hprev Hq1 Hv.
  destruct (bvt_do_schedule_inv _ _ _ _ _ H)
    as (prev_d' & q0 & sd & idle_d & st & np & s1 & s2 & s3 & r_time & a3 & H').
  cbv zeta in H'.
  destruct H' as (Hprev' & _ & Hs1 & Hsd & _ & Hscan & _ & Hs2 & Hov & _ & Harm & _).
  assert (prev_d' = prev_d) as -> by congruence.
  assert (s1 = folded_back current prev_d now s) as Hfb.
  { unfold folded_back. destruct (is_idle_task prev_d); [by simplify_eq|].
    destruct (__task_on_runqueue current q0); by simplify_eq. }
  rewrite <- Hfb in *.
  assert (runqueue (cpu_priv sd) = q1) as Hq.
  { unfold RUNQUEUE, CPU_INFO in Hq1. rewrite Hsd in Hq1. simpl in Hq1. by simplify_eq. }
  rewrite Hq in Hscan.
  assert (CPU_SVT s1 (processor prev_d) = Some v) as Hv1.
  { rewrite Hfb. unfold folded_back. destruct (is_idle_task prev_d); [done|].
    by rewrite cpu_svt_deschedule. }
  pose proof (scan_runqueue_min_avt _ _ _ _ Hscan) as Hmin. simpl in Hmin.
  set (v2 := if bool_decide (min_avt st ≠ UINT_MAX) then min_avt st else v).
  assert (CPU_SVT s2 (processor prev_d) = Some v2) as Hv2.
  { rewrite Hs2. unfold v2. destruct (bool_decide (min_avt st ≠ UINT_MAX)); [|done].
    by eapply cpu_svt_set. }
  pose proof (cpu_svt_check_overrun _ _ _ _ Hov Hv2) as Hv3.
  destruct (arm_warp_timer_frame _ _ _ _ Harm) as (Hsd' & _).
  eexists. split.
  { unfold CPU_SVT, CPU_INFO. rewrite Hsd'. exact Hv3. }
  split.
  - intros m Hm Hlt. rewrite (fold_min_minimum _ _ _ Hm Hlt) in Hmin.
    unfold v2. rewrite Hmin.
    by rewrite (bool_decide_eq_true_2 (m ≠ UINT_MAX)) by lia.
  - intros Hvr Hall.
    assert (in_u32 (min_avt st)) as Hr.
    { rewrite Hmin. apply fold_min_range; [unfold in_u32, UINT_MAX; lia|].
      by apply Forall_fmap. }
    assert (in_u32 v2) as Hv2r
      by (unfold v2; by destruct (bool_decide (min_avt st ≠ UINT_MAX))).
    unfold in_u32, UINT_MAX in Hv2r. case_bool_decide; lia.
Qed.

(** The guest ran up to an actual virtual time of [0xf0000001]; the idle
    domain, queued beside it, stands at [0xf0000005]. *)
Lemma reschedule_svt_witness :
  ∃ s' dec,
    bvt_do_schedule 1 0 long_sleeper = Some (s', dec) ∧
    CPU_SVT long_sleeper 0 = Some 0xf0000000 ∧
    CPU_SVT s' 0 = Some 0x10000001.
Proof.
  assert (∃ s' dec, bvt_do_schedule 1 0 long_sleeper = Some (s', dec))
    as (s' & dec & H) by (vm_compute; by eexists _, _).
  exists s', dec. split; [exact H|]. split; [reflexivity|].
  destruct (reschedule_svt 1 0 long_sleeper s' dec (guest 1 (fresh_inf 0xf0000001))
              [0%nat; 1%nat] 0xf0000000 H eq_refl)
    as (v' & Hv' & Hmin & _); [vm_compute; reflexivity|reflexivity|].
  change (CPU_SVT s' 0 = Some v') in Hv'.
  rewrite Hv'. f_equal. rewrite (Hmin 0xf0000001); [reflexivity| |reflexivity].
  split.
  - intros h [->|[->|[]%elem_of_nil]%elem_of_cons]%elem_of_cons; by vm_compute.
  - exists 1%nat. split; [by apply (bool_decide_unpack _)|by vm_compute].
Defined.


(** ** When the idle domain is selected *)

Lemma scan_idle_iff_alone hp idl q st :
  scan_ready hp idl q →
  idl ∈ q →
  evt_at hp idl = UINT_MAX →
  scan_runqueue hp q (scan_init idl) = Some st →
  next_inf st = idl ↔ q = [idl].
Proof.
  intros [Hnd Hready] Hin Hidl Hscan.
  destruct (scan_runqueue_inv hp idl q [] (scan_init idl)) as (st' & Hscan' & Hinv);
    [apply scan_inv_init|done|done|].
  simpl in Hscan', Hinv. assert (st' = st) as -> by congruence.
  destruct Hinv as [_ Hc].
  destruct q as [|a [|b q]].
  - by apply elem_of_nil in Hin.
  - destruct Hc as (-> & _). apply list_elem_of_singleton in Hin as ->. done.
  - destruct Hc as (r & _ & Hne & _ & (i & Hi & Hlow) & _).
    split; [|done]. intros Hn. exfalso.
    (* one of the first two entries is not the idle record *)
    assert (∃ (j : nat) h, (a :: b :: q) !! j = Some h ∧ h ≠ idl) as (j & h & Hj & Hh).
    { destruct (decide (a = idl)) as [->|Ha]; [|by exists 0%nat, a].
      exists 1%nat, b. split; [done|]. intros ->.
      apply NoDup_cons in Hnd as [Hnd _]. apply Hnd, list_elem_of_here. }
    assert (entry_ready hp idl h) as (d & Hd & _ & _ & Hlt).
    { eapply Forall_forall; [exact Hready|]. by eapply list_elem_of_lookup_2. }
    destruct (Hlow _ _ Hj) as [Hle _]. rewrite Hn, Hidl in Hle.
    rewrite (evt_at_lookup _ _ _ Hd) in Hle. specialize (Hlt Hh). lia.
Qed.

(** X15.  The idle domain runs only when nothing else is queued.  When the
    queue a reschedule scans holds the idle domain of the CPU with [~0U] as
    its [evt], and otherwise distinct live records with 32-bit virtual
    times and an [evt] below [~0U], the reschedule selects the idle domain
    exactly when it is the only entry of the queue. *)
Theorem idle_selected_iff_alone current now s s' dec prev_d sd1 :
  bvt_do_schedule current now s = Some (s', dec) →
  heap s !! current = Some prev_d →
  schedule_data (folded_back current prev_d now s) !! processor prev_d = Some sd1 →
  scan_ready (heap (folded_back current prev_d now s)) (idle sd1) (runqueue (cpu_priv sd1)) →
  idle sd1 ∈ runqueue (cpu_priv sd1) →
  evt_at (heap (folded_back current prev_d now s)) (idle sd1) = UINT_MAX →
  task (ret dec) = idle sd1 ↔ runqueue (cpu_priv sd1) = [idle sd1].
Proof.
  intros H Hprev Hsd1 Hready Hin Hidl.
  destruct (bvt_do_schedule_inv _ _ _ _ _ H)
    as (prev_d' & q0 & sd & idle_d & st & np & s1 & s2 & s3 & r_time & a3 & H').
  cbv zeta in H'.
  destruct H' as (Hprev' & _ & Hs1 & Hsd & _ & Hscan & _ & _ & _ & _ & _ & ->).
  assert (prev_d' = prev_d) as -> by congruence.
  assert (s1 = folded_back current prev_d now s) as ->.
  { unfold folded_back. destruct (is_idle_task prev_d); [by simplify_eq|].
    destruct (__task_on_runqueue current q0); by simplify_eq. }
  assert (sd = sd1) as -> by congruence.
  simpl. by eapply scan_idle_iff_alone.
Qed.

(** Both guests are blocked and the idle domain is alone on the queue. *)
Lemma idle_selected_iff_alone_witness :
  ∃ s' dec, bvt_do_schedule 0 0 two_blocked = Some (s', dec) ∧ task (ret dec) = 0%nat.
Proof.
  assert (∃ s' dec, bvt_do_schedule 0 0 two_blocked = Some (s', dec))
    as (s' & dec & H) by (vm_compute; by eexists _, _).
  exists s', dec. split; [exact H|].
  apply (idle_selected_iff_alone 0 0 two_blocked s' dec idle_dom
           (mk_schedule_data 0%nat 0%nat timer_off (mk_bvt_cpu_info [0%nat] 0)) H).
  - reflexivity.
  - reflexivity.
  - split; [by apply (bool_decide_unpack _)|].
    apply Forall_singleton. exists idle_dom. split; [reflexivity|].
    split; [by vm_compute|]. split; [by vm_compute|done].
  - by apply (bool_decide_unpack _).
  - reflexivity.
  - reflexivity.
Defined.


(** ** The warp timer and the next reschedule *)

Lemma warp_timer_fn_heap p now s s1 d :
  heap s !! p = Some d →
  warp_timer_fn p now s = Some s1 →
  ∃ d1, heap s1 !! p = Some d1 ∧ warp (sched_priv d1) = 0 ∧
    is_idle_task d1 = is_idle_task d ∧
    warpback (sched_priv d1) = (if decide (warpu (sched_priv d) = 0) then 0
                                else warpback (sched_priv d)).
Proof.
  intros Hd H. unfold warp_timer_fn in H. rewrite Hd in H. cbn [mbind option_bind] in H.
  cbv zeta in H. destruct (decide (warpu (sched_priv d) = 0)); simplify_eq;
    rewrite heap_cpu_raise_softirq;
    (eexists; split;
     [erewrite heap_upd_inf_eq by (by apply heap_upd_inf_eq); reflexivity|done]).
Qed.

Lemma rebase_domains_evt_eq_avt cpu l s s' h d :
  rebase_domains cpu l s = Some s' →
  heap s !! h = Some d →
  evt (sched_priv d) = avt (sched_priv d) →
  ∃ d', heap s' !! h = Some d' ∧ evt (sched_priv d') = avt (sched_priv d').
Proof.
  revert s d. induction l as [|p l IH]; intros s d Hr Hd He; simpl in Hr.
  - simplify_eq. by exists d.
  - destruct (heap s !! p) as [dp|] eqn:Hp; [simpl in Hr|done].
    destruct (decide (processor dp = cpu)); [|by eapply IH].
    destruct (decide (p = h)) as [->|Hne].
    + eapply IH; [exact Hr|by apply heap_upd_inf_eq|]. simpl. by rewrite He.
    + eapply IH; [exact Hr|by rewrite heap_upd_inf_ne|done].
Qed.

Lemma check_overrun_evt_eq_avt cpu s s' h d :
  check_overrun cpu s = Some s' →
  heap s !! h = Some d →
  evt (sched_priv d) = avt (sched_priv d) →
  ∃ d', heap s' !! h = Some d' ∧ evt (sched_priv d') = avt (sched_priv d').
Proof.
  unfold check_overrun. intros H Hd He.
  destruct (CPU_SVT s cpu) as [v|]; [simpl in H|done].
  case_bool_decide; [|simplify_eq; by exists d].
  destruct (rebase_domains _ _ _) as [s1|] eqn:Hr; [simpl in H|done].
  simplify_eq.
  destruct (rebase_domains_evt_eq_avt _ _ _ _ _ _ Hr Hd He) as (d' & Hd' & He').
  by exists d'.
Qed.

(** X16.  Once the warp timer of a running guest has fired, the next
    reschedule of that guest leaves it unwarped: [warp] is clear, the
    fold-back stores an [evt] equal to [avt], and the warp timer is not
    armed again, whether or not the guest is selected and whether or not
    the virtual times are rebased. *)
Theorem warp_expiry_then_reschedule p now now' s s1 s2 dec d :
  heap s !! p = Some d →
  is_idle_task d = false →
  warp_timer_fn p now s = Some s1 →
  bvt_do_schedule p now' s1 = Some (s2, dec) →
  ∃ d2, heap s2 !! p = Some d2 ∧
    warp (sched_priv d2) = 0 ∧
    evt (sched_priv d2) = avt (sched_priv d2) ∧
    armed (warp_timer (sched_priv d2)) = false.
Proof.
  intros Hd Hguest Hw H.
  destruct (warp_timer_fn_heap _ _ _ _ _ Hd Hw) as (d1 & Hd1 & Hw1 & Hi1 & _).
  destruct (bvt_do_schedule_inv _ _ _ _ _ H)
    as (prev_d & q0 & sd & idle_d & st & np & s1' & s2' & s3 & r_time & a3 & H').
  cbv zeta in H'.
  destruct H' as (Hprev & _ & Hs1 & _ & _ & _ & _ & Hs2 & Hov & _ & Harm & _).
  assert (prev_d = d1) as -> by congruence.
  rewrite Hi1, Hguest in Hs1. destruct (__task_on_runqueue p q0); [|done].
  apply (inj Some) in Hs1. subst s1'.
  pose proof (deschedule_heap _ _ now' _ Hd1) as Hdd.
  assert (heap s2' = heap (deschedule p d1 now' s1)) as Hh2.
  { rewrite Hs2. by destruct (bool_decide (min_avt st ≠ UINT_MAX)). }
  rewrite <- Hh2 in Hdd.
  destruct (check_overrun_evt_eq_avt _ _ _ _ _ Hov Hdd) as (d3 & Hd3 & He3).
  { simpl. rewrite calc_evt_unfold, Hw1. by rewrite decide_False by (intros ?; done). }
  destruct (check_overrun_frame _ _ _ Hov) as (Her & _ & _).
  specialize (Her p). rewrite Hd3, Hdd in Her.
  cbn [fmap option_fmap option_map] in Her. apply (inj Some) in Her.
  assert (warp (sched_priv d3) = 0 ∧
          warp_timer (sched_priv d3) = rem_ac_timer (warp_timer (sched_priv d1)))
    as [Hw3 Ht3].
  { destruct d3 as [? ? ? ? ? []], d1 as [? ? ? ? ? []].
    unfold vt_erased in Her. simpl in *. by simplify_eq. }
  destruct (arm_warp_timer_frame _ _ _ _ Harm) as (_ & _ & Hheap).
  destruct (Hheap _ _ Hd3) as (t & Hd2 & Hother & Hnext).
  assert (t = warp_timer (sched_priv d3)) as ->.
  { destruct (decide (p = next_inf st)) as [Heq|Hne]; [|by apply Hother].
    rewrite (Hnext Heq), Hw3. by rewrite bool_decide_eq_false_2 by (intros ?; done). }
  eexists. split; [exact Hd2|]. simpl. split; [done|]. split; [done|].
  rewrite Ht3. unfold rem_ac_timer. by destruct (warp_timer (sched_priv d1)) as [? []].
Qed.

Lemma warp_expiry_then_reschedule_witness :
  ∃ s1 s2 dec d2,
    warp_timer_fn 1 0 running_warper = Some s1 ∧
    bvt_do_schedule 1 0 s1 = Some (s2, dec) ∧
    heap s2 !! 1%nat = Some d2 ∧
    warp (sched_priv d2) = 0 ∧ evt (sched_priv d2) = avt (sched_priv d2) ∧
    armed (warp_timer (sched_priv d2)) = false.
Proof.
  assert (∃ s1 s2 dec, warp_timer_fn 1 0 running_warper = Some s1 ∧
            bvt_do_schedule 1 0 s1 = Some (s2, dec)) as (s1 & s2 & dec & Hw & H).
  { eexists _, _, _. split; [reflexivity|]. vm_compute. reflexivity. }
  destruct (warp_expiry_then_reschedule 1 0 0 running_warper s1 s2 dec
              (guest 1 warping_inf) eq_refl eq_refl Hw H) as (d2 & Hd2 & Hrest).
  by exists s1, s2, dec, d2.
Defined.

(** X17.  The warp cycle.  After the warp timer has fired, a firing of the
    unwarp timer sets [warp] again exactly when the domain has a nonzero
    unwarp requirement and [warpback] set; with [warpu = 0] the warp-expiry
    callback has cleared [warpback], and the domain stays unwarped. *)
Theorem warp_cycle p now s s1 s2 d :
  heap s !! p = Some d →
  warp_timer_fn p now s = Some s1 →
  unwarp_timer_fn p s1 = Some s2 →
  ∃ d2, heap s2 !! p = Some d2 ∧
    warp (sched_priv d2) =
      (if bool_decide (warpu (sched_priv d) ≠ 0 ∧ warpback (sched_priv d) ≠ 0)
       then 1 else 0) ∧
    processor d ∈ softirq s2.
Proof.
  intros Hd Hw Hu.
  destruct (warp_timer_fn_heap _ _ _ _ _ Hd Hw) as (d1 & Hd1 & Hw1 & _ & Hb1).
  assert (processor d ∈ softirq s1) as Hsoft.
  { unfold warp_timer_fn in Hw. rewrite Hd in Hw. cbn [mbind option_bind] in Hw.
    cbv zeta in Hw. destruct (decide (warpu (sched_priv d) = 0)); simplify_eq;
      apply softirq_cpu_raise_softirq. }
  unfold unwarp_timer_fn in Hu. rewrite Hd1 in Hu. cbn [mbind option_bind] in Hu.
  cbv zeta in Hu. rewrite Hb1 in Hu.
  destruct (decide (warpu (sched_priv d) = 0)) as [Hz|Hnz].
  - rewrite decide_False in Hu by (intros Hne; by apply Hne). simplify_eq.
    exists d1. split; [done|]. split; [|done].
    rewrite Hw1. rewrite bool_decide_eq_false_2; [done|]. by intros [? _].
  - destruct (decide (warpback (sched_priv d) ≠ 0)) as [Hb|Hb]; simplify_eq.
    + eexists. split; [rewrite heap_cpu_raise_softirq; by apply heap_upd_inf_eq|].
      simpl. split; [by rewrite bool_decide_eq_true_2|].
      unfold cpu_raise_softirq. simpl. set_solver.
    + exists d1. split; [done|]. split; [|done].
      rewrite Hw1. rewrite bool_decide_eq_false_2; [done|]. by intros [_ ?].
Qed.

Lemma warp_cycle_witness :
  ∃ s1 s2 d2,
    warp_timer_fn 1 0 unwarp_pending = Some s1 ∧ unwarp_timer_fn 1 s1 = Some s2 ∧
    heap s2 !! 1%nat = Some d2 ∧ warp (sched_priv d2) = 1.
Proof.
  assert (∃ s1 s2, warp_timer_fn 1 0 unwarp_pending = Some s1 ∧
            unwarp_timer_fn 1 s1 = Some s2) as (s1 & s2 & Hw & Hu).
  { eexists _, _. split; [reflexivity|]. vm_compute. reflexivity. }
  destruct (warp_cycle 1 0 unwarp_pending s1 s2 _ eq_refl Hw Hu) as (d2 & Hd2 & Hw2 & _).
  exists s1, s2, d2. split; [exact Hw|]. split; [exact Hu|]. split; [exact Hd2|].
  exact Hw2.
Defined.

(** ** The slice when nothing overflows *)

(** X18.  With a non-negative [ctx_allow] whose tenfold fits 32 signed
    bits, and, when both the selected domain and the runner-up are guests,
    the runner-up's [evt] not below the selected one's and the quotient
    plus [ctx_allow] fitting 32 signed bits, the slice is at least
    [ctx_allow] and neither assertion of the computation fails. *)
Theorem slice_at_least_allowance s next np r_time a :
  work_out_r_time s next np = Some (r_time, a) →
  0 ≤ ctx_allow s → 10 * ctx_allow s < 2 ^ 31 →
  (∀ next_d np_d,
     heap s !! next = Some next_d → heap s !! np = Some np_d →
     is_idle_task next_d = false → is_idle_task np_d = false →
     0 ≤ mcu_advance (sched_priv next_d) ∧
     evt (sched_priv next_d) ≤ evt (sched_priv np_d) ∧
     u32 (evt (sched_priv np_d) - evt (sched_priv next_d))
       / mcu_advance (sched_priv next_d) + ctx_allow s < 2 ^ 31) →
  ctx_allow s ≤ r_time ∧ a = [].
Proof.
  intros H Hctx Hten Hguests.
  destruct (work_out_r_time_cases _ _ _ _ _ H) as (next_d & Hn & Hcase).
  destruct (is_idle_task next_d) eqn:Hin; [destruct Hcase as [-> ->]; split; [lia|done]|].
  destruct Hcase as (np_d & Hp & Hcase).
  destruct (is_idle_task np_d) eqn:Hip.
  { destruct Hcase as [-> ->]. split; [|done]. rewrite s32_small; lia. }
  cbv zeta in Hcase. destruct Hcase as (Hm & Hr & Ha).
  destruct (Hguests _ _ Hn Hp Hin Hip) as (Hm0 & Hle & Hfit).
  assert (ctx_allow s ≤ r_time) as Hbound.
  { rewrite Hr. apply r_time_lower_bound; lia. }
  split; [done|]. rewrite Ha. unfold ASSERT.
  rewrite !bool_decide_eq_true_2 by lia. done.
Qed.

Lemma slice_at_least_allowance_witness :
  ∃ r_time, work_out_r_time two_guests 1 2 = Some (r_time, []) ∧
    ctx_allow two_guests ≤ r_time.
Proof.
  assert (∃ r_time a, work_out_r_time two_guests 1 2 = Some (r_time, a))
    as (r_time & a & H) by (vm_compute; by eexists _, _).
  destruct (slice_at_least_allowance two_guests 1 2 r_time a H) as [Hr ->].
  - by vm_compute.
  - by vm_compute.
  - intros next_d np_d Hn Hp _ _. vm_compute in Hn, Hp. simplify_eq. by vm_compute.
  - by exists r_time.
Defined.


(** ** Who is selected after the fold-back *)

Lemma scan_step_members (A : handle → Prop) st x p :
  A (next_inf st) → (∀ r, next_prime_inf st = Some r → A r) → A x →
  A (next_inf (scan_step st x p)) ∧
  ∀ r, next_prime_inf (scan_step st x p) = Some r → A r.
Proof.
  intros Hn Hp Hx. destruct (scan_step_candidates st x p) as (-> & -> & _ & _).
  unfold scan_pick. repeat case_bool_decide; simpl; (split; [done|]);
    intros r Hr; simplify_eq; auto.
Qed.

Lemma scan_runqueue_members (A : handle → Prop) hp q st st' :
  A (next_inf st) → (∀ r, next_prime_inf st = Some r → A r) →
  (∀ h, h ∈ q → A h) →
  scan_runqueue hp q st = Some st' →
  A (next_inf st') ∧ ∀ r, next_prime_inf st' = Some r → A r.
Proof.
  revert st. induction q as [|x q IH]; intros st Hn Hp Hq Hscan; simpl in Hscan.
  - by simplify_eq.
  - destruct (hp !! x) as [d|]; [simpl in Hscan|done].
    destruct (scan_step_members A st x (sched_priv d)) as [Hn' Hp']; [done|done| |].
    { apply Hq, list_elem_of_here. }
    eapply IH; [done|done| |exact Hscan].
    intros h Hh. by apply Hq, list_elem_of_further.
Qed.

(** X19.  A previous domain that is no longer runnable is taken off the run
    queue and is not the answer: a reschedule for a guest that has blocked
    selects another domain, names another domain as runner-up, and leaves
    the queue without it. *)
Theorem blocked_prev_not_selected current now s s' dec prev_d sd :
  bvt_do_schedule current now s = Some (s', dec) →
  heap s !! current = Some prev_d →
  schedule_data s !! processor prev_d = Some sd →
  is_idle_task prev_d = false →
  runnable prev_d = false →
  idle sd ≠ current →
  task (ret dec) ≠ current ∧ next_prime dec ≠ current ∧
  RUNQUEUE s' (processor prev_d)
    = Some (filter (λ h, h ≠ current) (runqueue (cpu_priv sd))).
Proof.
  intros H Hprev Hsd Hguest Hblocked Hidle.
  assert (RUNQUEUE s (processor prev_d) = Some (runqueue (cpu_priv sd))) as Hq0.
  { unfold RUNQUEUE, CPU_INFO. by rewrite Hsd. }
  destruct (bvt_do_schedule_queue _ _ _ _ _ _ _ H Hprev Hq0)
    as (sd0 & q1 & Hsd0 & Hq1 & Hq' & _).
  rewrite Hguest, Hblocked, app_nil_r in Hq1. subst q1.
  pose proof (bvt_do_schedule_frame _ _ _ _ _ _ H Hprev) as (_ & _ & _ & Hf & _ & _).
  destruct (bvt_do_schedule_inv _ _ _ _ _ H)
    as (prev_d' & q0 & sd1 & idle_d & st & np & s1 & s2 & s3 & r_time & a3 & H').
  cbv zeta in H'.
  destruct H' as (Hprev' & Hq0' & Hs1 & Hsd1 & _ & Hscan & Hnp & _ & _ & _ & _ & ->).
  assert (prev_d' = prev_d) as -> by congruence.
  assert (q0 = runqueue (cpu_priv sd)) as -> by congruence.
  rewrite Hguest in Hs1.
  destruct (__task_on_runqueue current (runqueue (cpu_priv sd))); [|done].
  apply (inj Some) in Hs1. subst s1.
  pose proof (runqueue_deschedule current _ now _ _ Hq0) as Hq1.
  rewrite Hblocked, app_nil_r in Hq1.
  unfold RUNQUEUE, CPU_INFO in Hq1. rewrite Hsd1 in Hq1. simpl in Hq1.
  apply (inj Some) in Hq1.
  assert (idle sd1 = idle sd) as Hi.
  { destruct (reschedule_frame_deschedule current prev_d now s)
      as (_ & _ & _ & Hf1 & _ & _).
    specialize (Hf1 (processor prev_d)). rewrite Hsd1, Hsd in Hf1.
    unfold cpu_fixed in Hf1. simpl in Hf1. by simplify_eq. }
  rewrite Hq1, Hi in Hscan.
  eapply (scan_runqueue_members (λ h, h ≠ current)) in Hscan as [Hn Hp]; [|done|done|].
  - simpl. split; [done|]. split; [by apply Hp|done].
  - by intros h [Hh _]%list_elem_of_filter.
Qed.

Lemma blocked_prev_not_selected_witness :
  ∃ s' dec,
    bvt_do_schedule 1 0 blocking_guest = Some (s', dec) ∧
    task (ret dec) ≠ 1%nat ∧ RUNQUEUE s' 0 = Some [2%nat; 0%nat].
Proof.
  assert (∃ s' dec, bvt_do_schedule 1 0 blocking_guest = Some (s', dec))
    as (s' & dec & H) by (vm_compute; by eexists _, _).
  destruct (blocked_prev_not_selected 1 0 blocking_guest s' dec
              (mk_domain 1 0 0 false false (fresh_inf 0))
              (mk_schedule_data 1%nat 0%nat timer_off
                 (mk_bvt_cpu_info [1%nat; 2%nat; 0%nat] 0)) H)
    as (Hn & _ & Hq); [reflexivity|reflexivity|reflexivity|reflexivity|done|].
  by exists s', dec.
Defined.

(** X20.  A tie is not won by the domain that has just run.  The fold-back
    puts a runnable previous domain at the tail of the queue and the scan
    replaces its candidate only on a strictly lower [evt]; so when another
    entry of the queue has an [evt] not above the previous domain's
    recomputed one, the previous domain is not selected. *)
Theorem tie_goes_to_the_other current now s s' dec prev_d sd1 h :
  bvt_do_schedule current now s = Some (s', dec) →
  heap s !! current = Some prev_d →
  is_idle_task prev_d = false →
  runnable prev_d = true →
  schedule_data (deschedule current prev_d now s) !! processor prev_d = Some sd1 →
  scan_ready (heap (deschedule current prev_d now s)) (idle sd1) (runqueue (cpu_priv sd1)) →
  h ∈ runqueue (cpu_priv sd1) → h ≠ current →
  evt_at (heap (deschedule current prev_d now s)) h
    ≤ evt_at (heap (deschedule current prev_d now s)) current →
  task (ret dec) ≠ current.
Proof.
  intros H Hprev Hguest Hrun Hsd1 [Hnd Hready] Hh Hne Hle.
  destruct (bvt_do_schedule_inv _ _ _ _ _ H)
    as (prev_d' & q0 & sd & idle_d & st & np & s1 & s2 & s3 & r_time & a3 & H').
  cbv zeta in H'.
  destruct H' as (Hprev' & Hq0 & Hs1 & Hsd & _ & Hscan & _ & _ & _ & _ & _ & ->).
  assert (prev_d' = prev_d) as -> by congruence.
  rewrite Hguest in Hs1. destruct (__task_on_runqueue current q0); [|done].
  apply (inj Some) in Hs1. subst s1.
  assert (sd = sd1) as -> by congruence.
  pose proof (runqueue_deschedule current _ now _ _ Hq0) as Hq1. rewrite Hrun in Hq1.
  unfold RUNQUEUE, CPU_INFO in Hq1. rewrite Hsd1 in Hq1. simpl in Hq1.
  apply (inj Some) in Hq1.
  destruct (scan_runqueue_inv (heap (deschedule current prev_d now s)) (idle sd1)
              (runqueue (cpu_priv sd1)) [] (scan_init (idle sd1)))
    as (st' & Hscan' & Hinv); [apply scan_inv_init|done|done|].
  simpl in Hscan', Hinv. assert (st' = st) as -> by congruence.
  destruct Hinv as [_ Hc]. simpl. intros Hsel.
  set (F := filter (λ x, x ≠ current) q0) in *.
  assert (h ∈ F) as HhF.
  { rewrite Hq1 in Hh. apply elem_of_app in Hh as [?|Hh]; [done|].
    by apply list_elem_of_singleton in Hh. }
  apply list_elem_of_lookup_1 in HhF as [j Hj].
  assert (j < length F)%nat as Hjlt by (by eapply lookup_lt_Some).
  assert (is_lowest (evt_at (heap (deschedule current prev_d now s)))
            (F ++ [current]) (next_inf st)) as (i & Hi & Hlow).
  { rewrite Hq1 in Hc. destruct F as [|a F']; [simpl in Hjlt; lia|].
    rewrite <- app_comm_cons in Hc |- *.
    destruct (F' ++ [current]) eqn:HF'; [by destruct F'|].
    by destruct Hc as (r & _ & _ & _ & Hl & _). }
  rewrite Hsel in Hi, Hlow.
  assert (i = length F) as ->.
  { apply lookup_app_Some in Hi as [Hi|[Hlen Hi]].
    - apply list_elem_of_lookup_2, list_elem_of_filter in Hi as [Hi _]. done.
    - apply list_lookup_singleton_Some in Hi as [Hi _]. lia. }
  destruct (Hlow j h) as [_ Hlt]; [by apply lookup_app_l_Some|].
  specialize (Hlt Hjlt). lia.
Qed.

Lemma two_guests_folded_ready :
  scan_ready (heap (deschedule 1 (guest 1 (fresh_inf 0)) 0 two_guests)) 0
    [2%nat; 0%nat; 1%nat].
Proof.
  split; [by apply (bool_decide_unpack _)|].
  apply Forall_cons_2; [|apply Forall_cons_2; [|apply Forall_cons_2; [|apply Forall_nil_2]]].
  - exists (guest 2 (fresh_inf 0)). split; [vm_compute; reflexivity|].
    split; [by vm_compute|]. split; [by vm_compute|]. intros _. by vm_compute.
  - exists idle_dom. split; [vm_compute; reflexivity|].
    split; [by vm_compute|]. split; [by vm_compute|]. done.
  - exists (guest 1 (fresh_inf 0)). split; [vm_compute; reflexivity|].
    split; [by vm_compute|]. split; [by vm_compute|]. intros _. by vm_compute.
Qed.

(** Both guests stand at virtual time 0; guest 1 has just run. *)
Lemma tie_goes_to_the_other_witness :
  ∃ s' dec,
    bvt_do_schedule 1 0 two_guests = Some (s', dec) ∧ task (ret dec) ≠ 1%nat.
Proof.
  assert (∃ s' dec, bvt_do_schedule 1 0 two_guests = Some (s', dec))
    as (s' & dec & H) by (vm_compute; by eexists _, _).
  exists s', dec. split; [exact H|].
  apply (tie_goes_to_the_other 1 0 two_guests s' dec (guest 1 (fresh_inf 0))
           (mk_schedule_data 0%nat 0%nat timer_off
              (mk_bvt_cpu_info [2%nat; 0%nat; 1%nat] 0)) 2%nat H).
  - reflexivity.
  - reflexivity.
  - reflexivity.
  - vm_compute. reflexivity.
  - exact two_guests_folded_ready.
  - apply list_elem_of_here.
  - clear. lia.
  - clear. vm_compute. intros Hc. discriminate Hc.
Defined.


(** ** C1: the three cases of the time slice *)







